(** * Form submission handler (netlify/functions/submit-form.js)

    A shallow embedding of the serverless form handler and of its variant
    with multipart support, together with the properties of the
    validation / formatting / response pipeline.

    - Pure helpers ([validateFormData], [buildEmailSubject],
      [buildEmailBody], [parseMultipartFormData]) are functions; a helper
      that can throw returns a [Result].
    - The handler runs in a small monad that threads the messages handed to
      the mail transport and propagates thrown errors; [await] is
      sequential composition.
    - What the repository does not contain is a parameter: the validator
      package, [JSON.parse], [URLSearchParams], the mail package, numbers,
      the environment and the clock.
    - Writing to the console ([log]) has no influence on the response and is
      left out.

    JavaScript strings are sequences of UTF-16 code units.  They are modelled
    by [string], i.e. by sequences of code units below 256; every string
    literal of the program lies in that range. *)

From Stdlib Require Import ZArith String Ascii List Bool Lia DecimalString.
From stdpp Require Import base option gmap strings.

Import ListNotations.
Local Open Scope string_scope.
Local Open Scope Z_scope.
Set Warnings "-register-all".

(** ** String built-ins *)

Module JsString.

Definition CR : ascii := "013"%char.
Definition LF : ascii := "010"%char.
Definition DQUOTE : ascii := "034"%char.
Definition CRLF : string := String CR (String LF "").

(** WhiteSpace and LineTerminator code units below 256:
    TAB, LF, VT, FF, CR, SP and NBSP. *)
Definition is_white_space (c : ascii) : bool :=
  match nat_of_ascii c with
  | 9%nat | 10%nat | 11%nat | 12%nat | 13%nat | 32%nat | 160%nat => true
  | _ => false
  end.

Fixpoint trimStart (s : string) : string :=
  match s with
  | String c s' => if is_white_space c then trimStart s' else s
  | EmptyString => EmptyString
  end.

Fixpoint trimEnd (s : string) : string :=
  match s with
  | String c s' =>
      match trimEnd s' with
      | EmptyString => if is_white_space c then EmptyString else String c EmptyString
      | r => String c r
      end
  | EmptyString => EmptyString
  end.

(** [s.trim()] *)
Definition trim (s : string) : string := trimStart (trimEnd s).

(** [s.startsWith(p)] *)
Fixpoint startsWith (s p : string) {struct p} : bool :=
  match p with
  | EmptyString => true
  | String a p' =>
      match s with
      | String b s' => Ascii.eqb a b && startsWith s' p'
      | EmptyString => false
      end
  end.

Fixpoint drop (n : nat) (s : string) : string :=
  match n, s with
  | S n', String _ s' => drop n' s'
  | _, _ => s
  end.

(** [s.includes(sub)] *)
Fixpoint includes (s sub : string) : bool :=
  if startsWith s sub then true
  else match s with
       | String _ s' => includes s' sub
       | EmptyString => false
       end.

Fixpoint indexOf_from (s sub : string) (i : Z) : Z :=
  if startsWith s sub then i
  else match s with
       | String _ s' => indexOf_from s' sub (i + 1)
       | EmptyString => -1
       end.

(** [s.indexOf(sub)]: position of the first occurrence, or -1. *)
Definition indexOf (s sub : string) : Z := indexOf_from s sub 0.

Fixpoint lastIndexOf_from (s sub : string) (i best : Z) : Z :=
  let best' := if startsWith s sub then i else best in
  match s with
  | String _ s' => lastIndexOf_from s' sub (i + 1) best'
  | EmptyString => best'
  end.

(** [s.lastIndexOf(sub)]: position of the last occurrence, or -1. *)
Definition lastIndexOf (s sub : string) : Z := lastIndexOf_from s sub 0 (-1).

(** [s.substring(a, b)]: both indices are clamped to [0, length] and
    swapped when [a > b]. *)
Definition substring (s : string) (a b : Z) : string :=
  let len := Z.of_nat (String.length s) in
  let a' := Z.min (Z.max a 0) len in
  let b' := Z.min (Z.max b 0) len in
  let lo := Z.min a' b' in
  let hi := Z.max a' b' in
  String.substring (Z.to_nat lo) (Z.to_nat (hi - lo)) s.

(** Scan for [s.split(sep)] with a non-empty separator: [skip] counts the
    code units of a matched separator still to be passed over; the head of
    the result is the piece under construction. *)
Fixpoint split_scan (sep s : string) (skip : nat) : list string :=
  match s with
  | EmptyString => [EmptyString]
  | String c s' =>
      match skip with
      | S k => split_scan sep s' k
      | O =>
          if startsWith s sep
          then EmptyString :: split_scan sep s' (Nat.pred (String.length sep))
          else match split_scan sep s' O with
               | p :: ps => String c p :: ps
               | [] => [String c EmptyString]
               end
      end
  end.

Fixpoint chars (s : string) : list string :=
  match s with
  | String c s' => String c EmptyString :: chars s'
  | EmptyString => []
  end.

(** [s.split(sep)] *)
Definition split (s sep : string) : list string :=
  match sep with
  | EmptyString => chars s
  | _ => split_scan sep s O
  end.

Fixpoint repeat_fill (fill : string) (n : nat) (cur : string) : string :=
  match n with
  | O => EmptyString
  | S n' =>
      match cur with
      | String c cur' => String c (repeat_fill fill n' cur')
      | EmptyString =>
          match fill with
          | String c f' => String c (repeat_fill fill n' f')
          | EmptyString => EmptyString
          end
      end
  end.

(** [s.padStart(n, fill)] *)
Definition padStart (s : string) (n : nat) (fill : string) : string :=
  if (n <=? String.length s)%nat then s
  else repeat_fill fill (n - String.length s) fill ++ s.

(** Positions at which [sub] occurs in [s]. *)
Fixpoint occurrences_from (s sub : string) (i : nat) : list nat :=
  (if startsWith s sub then [i] else []) ++
  match s with
  | String _ s' => occurrences_from s' sub (S i)
  | EmptyString => []
  end.

Definition occurrences (s sub : string) : list nat := occurrences_from s sub O.

End JsString.

Import JsString.

(** ** Errors and results *)

(** A thrown [Error] object; only its [message] is ever read. *)
Record Error : Type := mkError { message : string }.

Definition Result (A : Type) : Type := (Error + A)%type.

Definition ok {A} (a : A) : Result A := inr a.
Definition throw {A} (e : Error) : Result A := inl e.

Definition rbind {A B} (m : Result A) (k : A -> Result B) : Result B :=
  match m with
  | inl e => inl e
  | inr a => k a
  end.

Declare Scope result_scope.
Delimit Scope result_scope with result.
Notation "x <- m ;; k" := (rbind m (fun x => k))
  (at level 100, m at next level, right associativity) : result_scope.

(** [array.push(x)] *)
Definition push {A} (l : list A) (x : A) : list A := (l ++ [x])%list.

(** ** Values, validation and formatting *)

Section FormPipeline.

(** JavaScript numbers and the validator package are not part of the
    repository; the program only tests numbers for truthiness and
    interpolates them into the mail text. *)
Variable Num : Type.
Variable num_truthy : Num -> bool.
Variable num_toString : Num -> string.

(** [validator.isEmail(str)] and
    [validator.isMobilePhone(str, locale, { strictMode })] on strings.
    On anything that is not a string the package throws a [TypeError]. *)
Variable isEmail : string -> bool.
Variable isMobilePhone : string -> string -> bool -> bool.

(** Values that reach the program: what [JSON.parse] can build, [null]
    from [URLSearchParams.get], and [undefined] for a missing property. *)
Inductive JsValue : Type :=
| JUndefined
| JNull
| JBool (b : bool)
| JNumber (n : Num)
| JString (s : string)
| JArray (items : list JsValue)
| JObject (fields : list (string * JsValue)).

(** ToBoolean *)
Definition truthy (v : JsValue) : bool :=
  match v with
  | JUndefined | JNull => false
  | JBool b => b
  | JNumber n => num_truthy n
  | JString s => negb (String.eqb s "")
  | JArray _ | JObject _ => true
  end.

Fixpoint own_property (fields : list (string * JsValue)) (k : string) : option JsValue :=
  match fields with
  | [] => None
  | (k', v) :: rest => if String.eqb k' k then Some v else own_property rest k
  end.

Definition type_error_read (k : string) (base : string) : Error :=
  mkError ("Cannot read properties of " ++ base ++ " (reading '" ++ k ++ "')").

(** [v.k] for the keys the program reads ([name], [email], [phone],
    [needs]), none of which is defined on a built-in prototype: own
    property of an object, [undefined] on any other value, and a
    [TypeError] on [null] and [undefined]. *)
Definition get_property (v : JsValue) (k : string) : Result JsValue :=
  match v with
  | JUndefined => throw (type_error_read k "undefined")
  | JNull => throw (type_error_read k "null")
  | JObject fields => ok (default JUndefined (own_property fields k))
  | _ => ok JUndefined
  end.

(** [v.trim()]: only strings have the method. *)
Definition call_trim (what : string) (v : JsValue) : Result string :=
  match v with
  | JString s => ok (trim s)
  | _ => throw (mkError (what ++ ".trim is not a function"))
  end.

Definition type_name (v : JsValue) : string :=
  match v with
  | JUndefined => "undefined"
  | JNull => "null"
  | JBool _ => "boolean"
  | JNumber _ => "number"
  | JString _ => "string"
  | JArray _ => "Array"
  | JObject _ => "Object"
  end.

(** The argument check of the validator package. *)
Definition assertString (v : JsValue) : Result string :=
  match v with
  | JString s => ok s
  | _ => throw (mkError ("Expected a string but received a " ++ type_name v))
  end.

Definition NAME_ERROR : string := "Name is required and must be at least 2 characters".
Definition EMAIL_ERROR : string := "Valid email is required".
Definition PHONE_ERROR : string := "Valid phone number is required".

Local Open Scope result_scope.

Definition validateFormData (data : JsValue) : Result (list string) :=
  let errors : list string := [] in
  name <- get_property data "name" ;;
  errors <- (if negb (truthy name) then ok (push errors NAME_ERROR)
             else t <- call_trim "data.name" name ;;
                  if (String.length t <? 2)%nat then ok (push errors NAME_ERROR)
                  else ok errors) ;;
  email <- get_property data "email" ;;
  errors <- (if negb (truthy email) then ok (push errors EMAIL_ERROR)
             else s <- assertString email ;;
                  if negb (isEmail s) then ok (push errors EMAIL_ERROR)
                  else ok errors) ;;
  phone <- get_property data "phone" ;;
  errors <- (if negb (truthy phone) then ok (push errors PHONE_ERROR)
             else s <- assertString phone ;;
                  if negb (isMobilePhone s "any" false) then ok (push errors PHONE_ERROR)
                  else ok errors) ;;
  ok errors.

(** ToString, as applied by a template literal.  An object carrying an
    own [toString] property (never callable in parsed JSON) cannot be
    converted to a primitive. *)
Fixpoint ToString (v : JsValue) : Result string :=
  match v with
  | JUndefined => ok "undefined"
  | JNull => ok "null"
  | JBool true => ok "true"
  | JBool false => ok "false"
  | JNumber n => ok (num_toString n)
  | JString s => ok s
  | JArray items =>
      (fix join (l : list JsValue) : Result string :=
         match l with
         | [] => ok ""
         | x :: rest =>
             sx <- match x with
                   | JUndefined | JNull => ok ""
                   | _ => ToString x
                   end ;;
             match rest with
             | [] => ok sx
             | _ => sr <- join rest ;; ok (sx ++ "," ++ sr)
             end
         end) items
  | JObject fields =>
      match own_property fields "toString" with
      | Some _ => throw (mkError "Cannot convert object to primitive value")
      | None => ok "[object Object]"
      end
  end.

Definition NL : string := String LF "".

Definition buildEmailBody (formData : JsValue) : Result string :=
  name <- get_property formData "name" ;;
  name <- ToString name ;;
  email <- get_property formData "email" ;;
  email <- ToString email ;;
  phone <- get_property formData "phone" ;;
  phone <- ToString phone ;;
  needs <- get_property formData "needs" ;;
  needs <- (if truthy needs then ToString needs else ok "Not specified") ;;
  ok (trim (NL ++
    "New Form Submission Received" ++ NL ++
    NL ++
    "Details:" ++ NL ++
    "Name: " ++ name ++ NL ++
    "Email: " ++ email ++ NL ++
    "Phone: " ++ phone ++ NL ++
    "Insurance Needs: " ++ needs ++ NL ++
    NL ++
    "Please follow up with the customer as needed." ++ NL ++
    "  ")).

(** *** JSON.stringify *)

Definition hex_digit (n : nat) : ascii :=
  match n with
  | 0 => "0" | 1 => "1" | 2 => "2" | 3 => "3" | 4 => "4" | 5 => "5"
  | 6 => "6" | 7 => "7" | 8 => "8" | 9 => "9" | 10 => "a" | 11 => "b"
  | 12 => "c" | 13 => "d" | 14 => "e" | _ => "f"
  end%nat%char.

Definition BACKSLASH : string := String "092"%char "".

Definition quote_code_unit (c : ascii) : string :=
  let n := nat_of_ascii c in
  match n with
  | 8 => BACKSLASH ++ "b"
  | 9 => BACKSLASH ++ "t"
  | 10 => BACKSLASH ++ "n"
  | 12 => BACKSLASH ++ "f"
  | 13 => BACKSLASH ++ "r"
  | 34 => BACKSLASH ++ String DQUOTE ""
  | 92 => BACKSLASH ++ BACKSLASH
  | _ => if (n <? 32)%nat
         then BACKSLASH ++ "u00" ++ String (hex_digit (n / 16)) (String (hex_digit (n mod 16)) "")
         else String c ""
  end%nat.

Fixpoint quote_body (s : string) : string :=
  match s with
  | String c s' => quote_code_unit c ++ quote_body s'
  | EmptyString => EmptyString
  end.

(** QuoteJSONString *)
Definition JSON_quote (s : string) : string :=
  String DQUOTE "" ++ quote_body s ++ String DQUOTE "".

Fixpoint join_with (sep : string) (l : list string) : string :=
  match l with
  | [] => ""
  | [x] => x
  | x :: rest => x ++ sep ++ join_with sep rest
  end.

(** [JSON.stringify(v)]; [None] stands for [undefined].  Properties whose
    value is [undefined] are left out, array holes print as [null]. *)
Fixpoint JSON_stringify (v : JsValue) : option string :=
  match v with
  | JUndefined => None
  | JNull => Some "null"
  | JBool true => Some "true"
  | JBool false => Some "false"
  | JNumber n => Some (num_toString n)
  | JString s => Some (JSON_quote s)
  | JArray items =>
      Some ("[" ++ join_with ","
             ((fix elems (l : list JsValue) : list string :=
                 match l with
                 | [] => []
                 | x :: rest => default "null" (JSON_stringify x) :: elems rest
                 end) items) ++ "]")
  | JObject fields =>
      Some ("{" ++ join_with ","
             ((fix props (l : list (string * JsValue)) : list string :=
                 match l with
                 | [] => []
                 | (k, x) :: rest =>
                     match JSON_stringify x with
                     | Some sx => (JSON_quote k ++ ":" ++ sx) :: props rest
                     | None => props rest
                     end
                 end) fields) ++ "}")
  end.

(** [JSON.stringify] of an object literal: always a string. *)
Definition stringify_object (fields : list (string * JsValue)) : string :=
  default "" (JSON_stringify (JObject fields)).

End FormPipeline.

Arguments JUndefined {Num}.
Arguments JNull {Num}.
Arguments JBool {Num} b.
Arguments JNumber {Num} n.
Arguments JString {Num} s.
Arguments JArray {Num} items.
Arguments JObject {Num} fields.

(** ** The mail subject *)

(** The local-time components of a [Date] that the program reads. *)
Record Date : Type := mkDate {
  getDate : Z;
  getMonth : Z;
  getFullYear : Z;
  getHours : Z;
  getMinutes : Z
}.

(** Ranges of the components of a valid [Date]. *)
Definition valid_date (d : Date) : Prop :=
  1 <= getDate d <= 31 /\ 0 <= getMonth d <= 11 /\
  -271821 <= getFullYear d <= 275760 /\
  0 <= getHours d <= 23 /\ 0 <= getMinutes d <= 59.

(** [String(n)] of an integral number. *)
Definition String_of_int (n : Z) : string :=
  DecimalString.NilZero.string_of_int (Z.to_int n).

Definition SUBJECT_PREFIX : string :=
  "New Form Submission - Insurance Quote Request #".

Definition timestamp (now : Date) : string :=
  let day := padStart (String_of_int (getDate now)) 2 "0" in
  let month := padStart (String_of_int (getMonth now + 1)) 2 "0" in
  let year := getFullYear now in
  let hours := padStart (String_of_int (getHours now)) 2 "0" in
  let minutes := padStart (String_of_int (getMinutes now)) 2 "0" in
  day ++ month ++ String_of_int year ++ hours ++ minutes.

(** [buildEmailSubject()], with the clock reading [new Date()] passed in. *)
Definition buildEmailSubject (now : Date) : string :=
  SUBJECT_PREFIX ++ timestamp now.

(** ** Multipart bodies (second handler of the repository) *)

Module Multipart.

Definition NAME_ATTR : string := "name=" ++ String DQUOTE "".

Fixpoint span_not_quote (s : string) : string * string :=
  match s with
  | String c s' =>
      if Ascii.eqb c DQUOTE then (EmptyString, s)
      else let (run, rest) := span_not_quote s' in (String c run, rest)
  | EmptyString => (EmptyString, EmptyString)
  end.

(** The pattern of the field declaration (the text [name=], a double
    quote, one or more code units other than a double quote, captured,
    and a closing double quote) anchored at the start of [s]: the greedy
    run must be non-empty and closed by a quote. *)
Definition match_name_here (s : string) : option string :=
  if startsWith s NAME_ATTR then
    match span_not_quote (drop 6 s) with
    | (String c run, String _ _) => Some (String c run)
    | _ => None
    end
  else None.

(** [part.match] with that pattern: capture group 1 of the leftmost
    match, [None] when there is no match. *)
Fixpoint match_name (s : string) : option string :=
  match match_name_here s with
  | Some g => Some g
  | None =>
      match s with
      | String _ s' => match_name s'
      | EmptyString => None
      end
  end.

Section Parser.
Context {Num : Type}.

Fixpoint replace_property (fields : list (string * JsValue Num)) (k : string)
    (v : JsValue Num) : list (string * JsValue Num) :=
  match fields with
  | [] => []
  | (k', v') :: rest =>
      if String.eqb k' k then (k', v) :: rest
      else (k', v') :: replace_property rest k v
  end.

(** [obj[k] = v] on an ordinary object holding string values: an existing
    key keeps its place, a new key is added last; assigning a string to
    [__proto__] changes nothing. *)
Definition set_property (fields : list (string * JsValue Num)) (k : string)
    (v : JsValue Num) : list (string * JsValue Num) :=
  if String.eqb k "__proto__" then fields
  else match own_property Num fields k with
       | Some _ => replace_property fields k v
       | None => (fields ++ [(k, v)])%list
       end.

(** Body of the loop over the parts. *)
Definition parse_part (formData : list (string * JsValue Num)) (part : string)
    : list (string * JsValue Num) :=
  if includes part "Content-Disposition: form-data" then
    match match_name part with
    | Some fieldName =>
        let valueStart := indexOf part (CRLF ++ CRLF) + 4 in
        let valueEnd := lastIndexOf part CRLF in
        if valueStart <? valueEnd
        then set_property formData fieldName
               (JString (trim (substring part valueStart valueEnd)))
        else formData
    | None => formData
    end
  else formData.

Definition parseMultipartFormData (body boundary : string) : JsValue Num :=
  let parts := split body ("--" ++ boundary) in
  JObject (fold_left parse_part parts []).

End Parser.

End Multipart.

(** ** Environment, request, response and the mail collaborator *)

Module Event.
(** The request as the platform hands it over: header names are lower
    case, [body] is [None] for [null]. *)
Record t : Type := mk {
  httpMethod : string;
  headers : gmap string string;
  body : option string
}.
End Event.

Module Response.
Record t : Type := mk {
  statusCode : Z;
  headers : gmap string string;
  body : string
}.
End Response.

Record MailOptions : Type := mkMailOptions {
  mail_from : option string;
  mail_to : string;
  mail_subject : string;
  mail_text : string
}.

Record SendInfo : Type := mkSendInfo { messageId : string }.

(** What [nodemailer] hands back: [sendMail] resolves or rejects. *)
Record Transporter : Type := mkTransporter {
  sendMail : MailOptions -> Result SendInfo
}.

Record TransportConfig : Type := mkTransportConfig {
  service : string;
  auth_user : option string;
  auth_pass : option string
}.

(** Effects of the handler: every message handed to [sendMail] is recorded
    in the outbox, and a computation may throw. *)
Definition Outbox : Type := list MailOptions.
Definition Eff (A : Type) : Type := Outbox -> Result A * Outbox.

Definition eret {A} (a : A) : Eff A := fun out => (ok a, out).
Definition ethrow {A} (e : Error) : Eff A := fun out => (throw e, out).
Definition elift {A} (r : Result A) : Eff A := fun out => (r, out).
Definition ebind {A B} (m : Eff A) (k : A -> Eff B) : Eff B :=
  fun out =>
    match m out with
    | (inl e, out') => (inl e, out')
    | (inr a, out') => k a out'
    end.

(** [await transporter.sendMail(mailOptions)] *)
Definition await_sendMail (t : Transporter) (m : MailOptions) : Eff SendInfo :=
  fun out => (sendMail t m, (out ++ [m])%list).

Declare Scope eff_scope.
Delimit Scope eff_scope with eff.
Notation "x <- m ;; k" := (ebind m (fun x => k))
  (at level 100, m at next level, right associativity) : eff_scope.

(** [process.env.K] is truthy: set and not empty. *)
Definition env_truthy (env : gmap string string) (k : string) : bool :=
  match env !! k with
  | Some v => negb (String.eqb v "")
  | None => false
  end.

Definition CORS_JSON_HEADERS : gmap string string :=
  {[ "Access-Control-Allow-Origin" := "*"; "Content-Type" := "application/json" ]}.

Definition PREFLIGHT_HEADERS : gmap string string :=
  {[ "Access-Control-Allow-Origin" := "*";
     "Access-Control-Allow-Methods" := "GET, POST, PUT, DELETE, OPTIONS";
     "Access-Control-Allow-Headers" := "Content-Type, Authorization" ]}.

Section Handler.

Variable Num : Type.
Variable num_truthy : Num -> bool.
Variable num_toString : Num -> string.
Variable isEmail : string -> bool.
Variable isMobilePhone : string -> string -> bool -> bool.

(** Built-ins of the platform: [JSON.parse(text)] and
    [new URLSearchParams(body).get(key)]. *)
Variable JSON_parse : string -> Result (JsValue Num).
Variable URLSearchParams_get : option string -> string -> option string.

(** [nodemailer.createTransporter(config)] *)
Variable nodemailer_createTransporter : TransportConfig -> Result Transporter.

Variable env : gmap string string.

Definition createTransporter : Result Transporter :=
  let config := {| service := "gmail";
                   auth_user := env !! "MAIL_USERNAME";
                   auth_pass := env !! "MAIL_PASSWORD" |} in
  nodemailer_createTransporter config.

Definition of_nullable (o : option string) : JsValue Num :=
  match o with
  | Some s => JString s
  | None => JNull
  end.

Definition form_of_params (body : option string) : JsValue Num :=
  JObject [ ("name", of_nullable (URLSearchParams_get body "name"));
            ("email", of_nullable (URLSearchParams_get body "email"));
            ("phone", of_nullable (URLSearchParams_get body "phone"));
            ("needs", of_nullable (URLSearchParams_get body "needs")) ].

(** [JSON.parse(event.body)]; a [null] body is converted to the text
    [null] first. *)
Definition parse_json_body (body : option string) : Result (JsValue Num) :=
  JSON_parse (default "null" body).

(** submit-form.js: JSON when the content type says so, form-encoded
    otherwise. *)
Definition parseFormData (event : Event.t) : Result (JsValue Num) :=
  if match Event.headers event !! "content-type" with
     | Some ct => includes ct "application/json"
     | None => false
     end
  then parse_json_body (Event.body event)
  else ok (form_of_params (Event.body event)).

(** Variant with multipart support. *)
Definition parseFormData_multipart (event : Event.t) : Result (JsValue Num) :=
  let contentType := default "" (Event.headers event !! "content-type") in
  if includes contentType "application/json" then
    parse_json_body (Event.body event)
  else if includes contentType "application/x-www-form-urlencoded" then
    ok (form_of_params (Event.body event))
  else if includes contentType "multipart/form-data" then
    match nth_error (split contentType "boundary=") 1 with
    | Some (String c b) =>
        match Event.body event with
        | Some body => ok (Multipart.parseMultipartFormData body (String c b))
        | None => throw (type_error_read "split" "null")
        end
    | _ => throw (mkError "No boundary found in multipart data")
    end
  else ok (form_of_params (Event.body event)).

Definition json_response (status : Z) (fields : list (string * JsValue Num)) : Response.t :=
  {| Response.statusCode := status;
     Response.headers := CORS_JSON_HEADERS;
     Response.body := stringify_object Num num_toString fields |}.

Definition preflight_response : Response.t :=
  {| Response.statusCode := 200;
     Response.headers := PREFLIGHT_HEADERS;
     Response.body := "" |}.

Definition method_not_allowed_response : Response.t :=
  json_response 405 [ ("status", JString "error");
                      ("message", JString "Method not allowed") ].

Definition validation_response (validationErrors : list string) : Response.t :=
  json_response 400 [ ("status", JString "error");
                      ("message", JString "Validation errors");
                      ("errors", JArray (map JString validationErrors)) ].

Definition success_response : Response.t :=
  json_response 200 [ ("status", JString "success");
                      ("message", JString "Form submitted successfully!") ].

(** The [catch] clause. *)
Definition error_response (error : Error) : Response.t :=
  json_response 500
    [ ("status", JString "error");
      ("message", JString "Internal server error. Please try again.");
      ("error", if bool_decide (env !! "NODE_ENV" = Some "development")
                then JString (message error) else JUndefined) ].

Local Open Scope eff_scope.

(** The [try] block, for a given way of reading the body. *)
Definition try_block (parse : Event.t -> Result (JsValue Num)) (now : Date)
    (event : Event.t) : Eff Response.t :=
  _ <- (if negb (env_truthy env "MAIL_USERNAME") || negb (env_truthy env "MAIL_PASSWORD")
        then ethrow (mkError "Missing required environment variables")
        else eret tt) ;;
  formData <- elift (parse event) ;;
  validationErrors <- elift (validateFormData Num num_truthy isEmail isMobilePhone formData) ;;
  if (0 <? length validationErrors)%nat then eret (validation_response validationErrors)
  else
    transporter <- elift createTransporter ;;
    let subject := buildEmailSubject now in
    text <- elift (buildEmailBody Num num_truthy num_toString formData) ;;
    let mailOptions := {| mail_from := env !! "MAIL_USERNAME";
                          mail_to := match env !! "EMAIL_TO" with
                                     | Some (String c a) => String c a
                                     | _ => "default@example.com"
                                     end;
                          mail_subject := subject;
                          mail_text := text |} in
    result <- await_sendMail transporter mailOptions ;;
    eret success_response.

Definition handle (parse : Event.t -> Result (JsValue Num)) (now : Date)
    (event : Event.t) : Response.t * Outbox :=
  if String.eqb (Event.httpMethod event) "OPTIONS" then (preflight_response, [])
  else if negb (String.eqb (Event.httpMethod event) "POST")
  then (method_not_allowed_response, [])
  else match try_block parse now event [] with
       | (inr response, out) => (response, out)
       | (inl error, out) => (error_response error, out)
       end.

(** [exports.handler] of netlify/functions/submit-form.js: the response
    and the messages handed to the mail transport, with [now] the reading
    of the clock. *)
Definition handler : Date -> Event.t -> Response.t * Outbox := handle parseFormData.

(** [exports.handler] of the variant with multipart support. *)
Definition handler_multipart : Date -> Event.t -> Response.t * Outbox :=
  handle parseFormData_multipart.

End Handler.

(** ** Properties of the validator *)

Section ValidatorProperties.

Context {Num : Type}.
Variable num_truthy : Num -> bool.
Variable isEmail : string -> bool.
Variable isMobilePhone : string -> string -> bool -> bool.

(** The value of field [k] of an object, [undefined] when it is missing. *)
Definition field (fields : list (string * JsValue Num)) (k : string) : JsValue Num :=
  default JUndefined (own_property Num fields k).

Definition text_or_missing (v : JsValue Num) : bool :=
  match v with
  | JUndefined | JNull | JString _ => true
  | _ => false
  end.

(** A FormSubmission: an object whose [name], [email] and [phone] are each
    a string, [null] or missing. *)
Definition is_form_submission (data : JsValue Num) : bool :=
  match data with
  | JObject fields =>
      text_or_missing (field fields "name") &&
      text_or_missing (field fields "email") &&
      text_or_missing (field fields "phone")
  | _ => false
  end.

(** The three rules, as the specification words them. *)
Definition name_rule (v : JsValue Num) : bool :=
  match v with
  | JString s => (2 <=? String.length (trim s))%nat
  | _ => false
  end.

Definition email_rule (v : JsValue Num) : bool :=
  match v with
  | JString s => negb (String.eqb s "") && isEmail s
  | _ => false
  end.

Definition phone_rule (v : JsValue Num) : bool :=
  match v with
  | JString s => negb (String.eqb s "") && isMobilePhone s "any" false
  | _ => false
  end.

(** The [name] field is missing, or shorter than two code units. *)
Definition name_missing_or_short (v : JsValue Num) : Prop :=
  match v with
  | JUndefined | JNull => True
  | JString s => (String.length s < 2)%nat
  | _ => False
  end.

Definition error_unless (rule : bool) (e : string) : list string :=
  if rule then [] else [e].

Definition rule_errors (fields : list (string * JsValue Num)) : list string :=
  (error_unless (name_rule (field fields "name")) NAME_ERROR ++
   error_unless (email_rule (field fields "email")) EMAIL_ERROR ++
   error_unless (phone_rule (field fields "phone")) PHONE_ERROR)%list.

Definition jo_submission : JsValue Num :=
  JObject [ ("name", JString "Jo"); ("email", JString "jo@x.com");
            ("phone", JString "+15555550123") ].

Definition FIXED_ERRORS : list string := [NAME_ERROR; EMAIL_ERROR; PHONE_ERROR].

End ValidatorProperties.

(** ** Reference renderings of the mail text and of the subject *)

Section MailText.

Context {Num : Type}.

(** The mail text once the template is trimmed. *)
Definition email_body_text (name email phone needs : string) : string :=
  "New Form Submission Received" ++ NL ++
  NL ++
  "Details:" ++ NL ++
  "Name: " ++ name ++ NL ++
  "Email: " ++ email ++ NL ++
  "Phone: " ++ phone ++ NL ++
  "Insurance Needs: " ++ needs ++ NL ++
  NL ++
  "Please follow up with the customer as needed.".

(** The object without its property [k]. *)
Fixpoint delete_property (fields : list (string * JsValue Num)) (k : string)
    : list (string * JsValue Num) :=
  match fields with
  | [] => []
  | (k', v) :: rest =>
      if String.eqb k' k then delete_property rest k
      else (k', v) :: delete_property rest k
  end.

End MailText.

Definition digit_char (d : Z) : ascii := ascii_of_nat (48 + Z.to_nat d).

(** The decimal numeral of [n] written on exactly [width] digits, with
    leading zeros. *)
Fixpoint zero_padded (width : nat) (n : Z) : string :=
  match width with
  | O => EmptyString
  | S w => zero_padded w (n / 10) ++ String (digit_char (n mod 10)) EmptyString
  end.

Definition is_digit (c : ascii) : bool :=
  (48 <=? nat_of_ascii c)%nat && (nat_of_ascii c <=? 57)%nat.

Fixpoint all_digits (s : string) : bool :=
  match s with
  | String c s' => is_digit c && all_digits s'
  | EmptyString => true
  end.

(** The number a string of decimal digits denotes, continuing from [acc]. *)
Fixpoint decimal_value (acc : Z) (s : string) : Z :=
  match s with
  | String c s' => decimal_value (10 * acc + (Z.of_nat (nat_of_ascii c) - 48)) s'
  | EmptyString => acc
  end.

(** The token in the format DDMMYYYYHHmm. *)
Definition DDMMYYYYHHmm (now : Date) : string :=
  zero_padded 2 (getDate now) ++ zero_padded 2 (getMonth now + 1) ++
  zero_padded 4 (getFullYear now) ++
  zero_padded 2 (getHours now) ++ zero_padded 2 (getMinutes now).

(** Checking a boolean property on every integer of a range. *)
Definition check_range (f : Z -> bool) (lo len : Z) : bool :=
  forallb (fun i => f (lo + Z.of_nat i)) (seq 0 (Z.to_nat len)).

(** The first minute of the year 10000. *)
Definition new_year_10000 : Date :=
  {| getDate := 1; getMonth := 0; getFullYear := 10000; getHours := 0; getMinutes := 0 |}.

(** ** Reference bodies of the 500 response *)

(** The debug-mode flag: [NODE_ENV] is [development]. *)
Definition debug_mode (env : gmap string string) : bool :=
  bool_decide (env !! "NODE_ENV" = Some "development").

Definition INTERNAL_ERROR_MESSAGE : string := "Internal server error. Please try again.".

(** The JSON text of the object with [status] error and the fixed
    [message], and nothing else. *)
Definition INTERNAL_ERROR_BODY : string :=
  Eval vm_compute in
    stringify_object Empty_set (fun n => match n with end)
      [ ("status", JString "error"); ("message", JString INTERNAL_ERROR_MESSAGE) ].

(** The same object with a third property [error] holding [detail]. *)
Definition INTERNAL_ERROR_BODY_WITH (detail : string) : string :=
  "{" ++ JSON_quote "status" ++ ":" ++ JSON_quote "error" ++ "," ++
  JSON_quote "message" ++ ":" ++ JSON_quote INTERNAL_ERROR_MESSAGE ++ "," ++
  JSON_quote "error" ++ ":" ++ JSON_quote detail ++ "}".

(** Both mail credentials are set. *)
Definition credentials_present (env : gmap string string) : bool :=
  env_truthy env "MAIL_USERNAME" && env_truthy env "MAIL_PASSWORD".

Definition MISSING_ENV_MESSAGE : string := "Missing required environment variables".

Definition ALLOWED_STATUS : list Z := [200; 400; 405; 500].

(** The key of the [error] property as it appears in a JSON text, after
    another property. *)
Definition ERROR_KEY : string := "," ++ JSON_quote "error" ++ ":".

(** ** Multipart bodies with the two text fields name and email *)

Definition boundary_marker (boundary : string) : string := "--" ++ boundary.

Definition DISPOSITION : string := "Content-Disposition: form-data; name=".

(** One part, from the end of the delimiter before it to the start of the
    next one: line break, field declaration, blank line, text, line break. *)
Definition form_part (fieldName value : string) : string :=
  CRLF ++ DISPOSITION ++ String DQUOTE fieldName ++ String DQUOTE "" ++
  CRLF ++ CRLF ++ value ++ CRLF.

(** The text before the value in a part. *)
Definition part_head (fieldName : string) : string :=
  CRLF ++ DISPOSITION ++ String DQUOTE fieldName ++ String DQUOTE "" ++ CRLF ++ CRLF.

Definition CLOSING : string := "--" ++ CRLF.

Definition two_field_body (boundary name email : string) : string :=
  boundary_marker boundary ++ form_part "name" name ++
  boundary_marker boundary ++ form_part "email" email ++
  boundary_marker boundary ++ CLOSING.

(** Where the three delimiters of such a body start. *)
Definition delimiter_positions (boundary name email : string) : list nat :=
  let m := String.length (boundary_marker boundary) in
  let p1 := String.length (form_part "name" name) in
  let p2 := String.length (form_part "email" email) in
  [0; m + p1; m + p1 + m + p2]%nat.

(** The content type announcing such a body. *)
Definition multipart_content_type (boundary : string) : string :=
  "multipart/form-data; boundary=" ++ boundary.

(** A boundary that the dispatch on the content type reads back as it is:
    not empty, and containing neither the name of another body format nor
    the text [boundary=]. *)
Definition plain_boundary (boundary : string) : bool :=
  negb (String.eqb boundary "") &&
  negb (includes boundary "application/json") &&
  negb (includes boundary "application/x-www-form-urlencoded") &&
  negb (includes boundary "boundary=").

(** Property [k] of a value that is an object. *)
Definition object_field {Num : Type} (v : JsValue Num) (k : string) : JsValue Num :=
  match v with
  | JObject fields => field fields k
  | _ => JUndefined
  end.

(** The binding a part contributes: none when its text is empty. *)
Definition bound_text {Num : Type} (fieldName value : string)
    : list (string * JsValue Num) :=
  match value with
  | EmptyString => []
  | _ => [(fieldName, JString (trim value))]
  end.

(** ** A concrete platform

    Stand-ins for the built-ins and packages the handler is parameterised
    by, used to run the model on concrete requests: integers for numbers, a
    JSON reader for texts without escapes and fractions, a query-string
    reader for bodies without percent-escapes, simple recognisers for mail
    addresses and phone numbers, and two mail packages. *)

Module Sample.

Definition num_truthy (n : Z) : bool := negb (n =? 0).
Definition num_toString (n : Z) : string := String_of_int n.

(** local@domain with a dot inside the domain. *)
Definition isEmail (s : string) : bool :=
  match split s "@" with
  | [String _ _; domain] =>
      match split domain "." with
      | String _ _ :: String _ _ :: _ => negb (includes s " ")
      | _ => false
      end
  | _ => false
  end.

(** An optional plus sign and seven to fifteen digits. *)
Definition isMobilePhone (s locale : string) (strictMode : bool) : bool :=
  let digits := match s with
                | String "+" d => d
                | _ => if strictMode then "" else s
                end in
  all_digits digits && (7 <=? String.length digits)%nat &&
  (String.length digits <=? 15)%nat.

Definition syntax_error (what : string) : Error :=
  mkError ("Unexpected " ++ what).

Fixpoint span_digits (s : string) : string * string :=
  match s with
  | String c s' =>
      if is_digit c then let (d, rest) := span_digits s' in (String c d, rest)
      else (EmptyString, s)
  | EmptyString => (EmptyString, EmptyString)
  end.

(** One JSON value at the head of the text, and the rest of the text. *)
Fixpoint parse_value (fuel : nat) (s : string) : Result (JsValue Z * string) :=
  match fuel with
  | O => throw (syntax_error "end of JSON input")
  | S fuel' =>
      let s := trimStart s in
      if startsWith s "null" then ok (JNull, drop 4 s)
      else if startsWith s "true" then ok (JBool true, drop 4 s)
      else if startsWith s "false" then ok (JBool false, drop 5 s)
      else
        match s with
        | EmptyString => throw (syntax_error "end of JSON input")
        | String c s' =>
            if Ascii.eqb c DQUOTE then
              match Multipart.span_not_quote s' with
              | (str, String _ rest) =>
                  if includes str "\" then throw (syntax_error "token \ in JSON")
                  else ok (JString str, rest)
              | _ => throw (syntax_error "end of JSON input")
              end
            else if Ascii.eqb c "[" then
              (fix items (n : nat) (s : string) (acc : list (JsValue Z))
                   : Result (JsValue Z * string) :=
                 match n with
                 | O => throw (syntax_error "end of JSON input")
                 | S n' =>
                     match trimStart s with
                     | String "]" rest =>
                         match acc with
                         | [] => ok (JArray [], rest)
                         | _ => throw (syntax_error "token ] in JSON")
                         end
                     | _ =>
                         match parse_value fuel' s with
                         | inl e => inl e
                         | inr (v, rest) =>
                             match trimStart rest with
                             | String "," rest' => items n' rest' (acc ++ [v])%list
                             | String "]" rest' => ok (JArray (acc ++ [v])%list, rest')
                             | _ => throw (syntax_error "token in JSON")
                             end
                         end
                     end
                 end) fuel' s' []
            else if Ascii.eqb c "{" then
              (fix members (n : nat) (s : string) (acc : list (string * JsValue Z))
                   : Result (JsValue Z * string) :=
                 match n with
                 | O => throw (syntax_error "end of JSON input")
                 | S n' =>
                     match trimStart s with
                     | String "}" rest =>
                         match acc with
                         | [] => ok (JObject [], rest)
                         | _ => throw (syntax_error "token } in JSON")
                         end
                     | String q s1 =>
                         if Ascii.eqb q DQUOTE then
                           match Multipart.span_not_quote s1 with
                           | (key, String _ s2) =>
                               match trimStart s2 with
                               | String ":" s3 =>
                                   match parse_value fuel' s3 with
                                   | inl e => inl e
                                   | inr (v, rest) =>
                                       let acc' := ((key, v) :: acc) in
                                       match trimStart rest with
                                       | String "," rest' => members n' rest' acc'
                                       | String "}" rest' => ok (JObject acc', rest')
                                       | _ => throw (syntax_error "token in JSON")
                                       end
                                   end
                               | _ => throw (syntax_error "token in JSON")
                               end
                           | _ => throw (syntax_error "end of JSON input")
                           end
                         else throw (syntax_error "token in JSON")
                     | EmptyString => throw (syntax_error "end of JSON input")
                     end
                 end) fuel' s' []
            else
              match span_digits s with
              | (String d ds, rest) => ok (JNumber (decimal_value 0 (String d ds)), rest)
              | _ => throw (syntax_error ("token " ++ String c " in JSON"))
              end
        end
  end.

(** Members are kept most recent first, so that the last of two equal
    keys is the one found. *)
Definition JSON_parse (text : string) : Result (JsValue Z) :=
  match parse_value (S (String.length text)) text with
  | inl e => inl e
  | inr (v, rest) =>
      match trimStart rest with
      | EmptyString => ok v
      | _ => throw (syntax_error "non-whitespace character after JSON")
      end
  end.

Fixpoint lookup_pair (pairs : list string) (key : string) : option string :=
  match pairs with
  | [] => None
  | p :: rest =>
      match split p "=" with
      | k :: v => if String.eqb k key then Some (join_with "=" v)
                  else lookup_pair rest key
      | [] => lookup_pair rest key
      end
  end.

Definition URLSearchParams_get (body : option string) (key : string) : option string :=
  match body with
  | Some (String c b) => lookup_pair (split (String c b) "&") key
  | _ => None
  end.

(** A mail package whose transport accepts every message. *)
Definition accepting_transporter : Transporter :=
  {| sendMail := fun _ => ok {| messageId := "<1@localhost>" |} |}.

Definition nodemailer_accepting (config : TransportConfig) : Result Transporter :=
  ok accepting_transporter.

(** A mail package whose transport fails with a given message. *)
Definition nodemailer_failing (why : string) (config : TransportConfig)
    : Result Transporter :=
  ok {| sendMail := fun _ => throw (mkError why) |}.

Definition env_ready : gmap string string :=
  {[ "MAIL_USERNAME" := "forms@example.com"; "MAIL_PASSWORD" := "secret" ]}.

Definition env_ready_debug : gmap string string :=
  <[ "NODE_ENV" := "development" ]> env_ready.

Definition env_debug_only : gmap string string :=
  {[ "NODE_ENV" := "development" ]}.

Definition noon : Date :=
  {| getDate := 3; getMonth := 10; getFullYear := 2025; getHours := 12; getMinutes := 0 |}.

Definition json_headers : gmap string string :=
  {[ "content-type" := "application/json" ]}.

Definition quoted (s : string) : string := String DQUOTE s ++ String DQUOTE "".

(** The JSON text of the submission of Jo. *)
Definition jo_json : string :=
  "{" ++ quoted "name" ++ ":" ++ quoted "Jo" ++ "," ++
  quoted "email" ++ ":" ++ quoted "jo@x.com" ++ "," ++
  quoted "phone" ++ ":" ++ quoted "+15555550123" ++ "}".

Definition post_json (body : string) : Event.t :=
  {| Event.httpMethod := "POST"; Event.headers := json_headers; Event.body := Some body |}.

(** The handlers on this platform. *)
Definition handler (nodemailer : TransportConfig -> Result Transporter)
    (env : gmap string string) : Date -> Event.t -> Response.t * Outbox :=
  handler Z num_truthy num_toString isEmail isMobilePhone JSON_parse
    URLSearchParams_get nodemailer env.

Definition handler_multipart (nodemailer : TransportConfig -> Result Transporter)
    (env : gmap string string) : Date -> Event.t -> Response.t * Outbox :=
  handler_multipart Z num_truthy num_toString isEmail isMobilePhone JSON_parse
    URLSearchParams_get nodemailer env.

End Sample.

(** ** The first handler of the repository

    The earliest [exports.handler]: it does not check the credentials, its
    [catch] clause never reports the error, and its default recipient is
    another address.  Gate, parsing, validation and formatting are the
    same. *)

Section FirstHandler.

Variable Num : Type.
Variable num_truthy : Num -> bool.
Variable num_toString : Num -> string.
Variable isEmail : string -> bool.
Variable isMobilePhone : string -> string -> bool -> bool.
Variable JSON_parse : string -> Result (JsValue Num).
Variable URLSearchParams_get : option string -> string -> option string.
Variable nodemailer_createTransporter : TransportConfig -> Result Transporter.
Variable env : gmap string string.

(** The [catch] clause. *)
Definition error_response_first : Response.t :=
  json_response Num num_toString 500
    [ ("status", JString "error");
      ("message", JString "Internal server error. Please try again.") ].

Local Open Scope eff_scope.

(** The [try] block. *)
Definition try_block_first (now : Date) (event : Event.t) : Eff Response.t :=
  formData <- elift (parseFormData Num JSON_parse URLSearchParams_get event) ;;
  validationErrors <- elift (validateFormData Num num_truthy isEmail isMobilePhone formData) ;;
  if (0 <? length validationErrors)%nat
  then eret (validation_response Num num_toString validationErrors)
  else
    transporter <- elift (createTransporter nodemailer_createTransporter env) ;;
    let subject := buildEmailSubject now in
    text <- elift (buildEmailBody Num num_truthy num_toString formData) ;;
    let mailOptions := {| mail_from := env !! "MAIL_USERNAME";
                          mail_to := match env !! "EMAIL_TO" with
                                     | Some (String c a) => String c a
                                     | _ => "abcd@gmail.com"
                                     end;
                          mail_subject := subject;
                          mail_text := text |} in
    result <- await_sendMail transporter mailOptions ;;
    eret (success_response Num num_toString).

Definition handler_first (now : Date) (event : Event.t) : Response.t * Outbox :=
  if String.eqb (Event.httpMethod event) "OPTIONS" then (preflight_response, [])
  else if negb (String.eqb (Event.httpMethod event) "POST")
  then (method_not_allowed_response Num num_toString, [])
  else match try_block_first now event [] with
       | (inr response, out) => (response, out)
       | (inl error, out) => (error_response_first, out)
       end.

End FirstHandler.

(** ** Reference values for the responses and the message *)

(** The message the handlers build: sender, recipient with its fallback,
    subject of the moment and text. *)
Definition mail_options (fallback : string) (env : gmap string string) (now : Date)
    (text : string) : MailOptions :=
  {| mail_from := env !! "MAIL_USERNAME";
     mail_to := match env !! "EMAIL_TO" with
                | Some (String c a) => String c a
                | _ => fallback
                end;
     mail_subject := buildEmailSubject now;
     mail_text := text |}.

Definition DEFAULT_RECIPIENT : string := "default@example.com".
Definition FIRST_DEFAULT_RECIPIENT : string := "abcd@gmail.com".

Definition METHOD_NOT_ALLOWED_BODY : string :=
  "{" ++ JSON_quote "status" ++ ":" ++ JSON_quote "error" ++ "," ++
  JSON_quote "message" ++ ":" ++ JSON_quote "Method not allowed" ++ "}".

Definition SUCCESS_BODY : string :=
  "{" ++ JSON_quote "status" ++ ":" ++ JSON_quote "success" ++ "," ++
  JSON_quote "message" ++ ":" ++ JSON_quote "Form submitted successfully!" ++ "}".

(** The body of the 400 response for a list of errors. *)
Definition VALIDATION_BODY (errors : list string) : string :=
  "{" ++ JSON_quote "status" ++ ":" ++ JSON_quote "error" ++ "," ++
  JSON_quote "message" ++ ":" ++ JSON_quote "Validation errors" ++ "," ++
  JSON_quote "errors" ++ ":[" ++ join_with "," (map JSON_quote errors) ++ "]}".

Section ValidatorEdges.

Context {Num : Type}.
Variable num_truthy : Num -> bool.

Definition is_string (v : JsValue Num) : bool :=
  match v with
  | JString _ => true
  | _ => false
  end.

(** A field value on which the validator throws: truthy and not a string. *)
Definition unusable (v : JsValue Num) : bool :=
  truthy Num num_truthy v && negb (is_string v).

(** The inputs on which the validator throws. *)
Definition validator_throws (data : JsValue Num) : bool :=
  match data with
  | JUndefined | JNull => true
  | JObject fields =>
      unusable (field fields "name") || unusable (field fields "email") ||
      unusable (field fields "phone")
  | _ => false
  end.

(** A value without properties that is neither [null] nor [undefined]. *)
Definition is_scalar_or_array (data : JsValue Num) : bool :=
  match data with
  | JBool _ | JNumber _ | JString _ | JArray _ => true
  | _ => false
  end.

End ValidatorEdges.

Fixpoint all_white_space (s : string) : bool :=
  match s with
  | String c s' => is_white_space c && all_white_space s'
  | EmptyString => true
  end.

(** ** Multipart bodies with any number of text fields *)

(** No code unit of [s] is [c]. *)
Fixpoint free_of (c : ascii) (s : string) : bool :=
  match s with
  | String d s' => negb (Ascii.eqb d c) && free_of c s'
  | EmptyString => true
  end.

(** A field name that a declaration can carry: not empty, without double
    quote and without carriage return. *)
Definition simple_name (fieldName : string) : bool :=
  negb (String.eqb fieldName "") && free_of DQUOTE fieldName && free_of CR fieldName.

(** The body after its first delimiter: each part followed by a delimiter,
    then the closing. *)
Fixpoint parts_tail (marker : string) (parts : list (string * string)) : string :=
  match parts with
  | [] => CLOSING
  | (fieldName, value) :: rest =>
      form_part fieldName value ++ marker ++ parts_tail marker rest
  end.

Definition multipart_body (boundary : string) (parts : list (string * string)) : string :=
  boundary_marker boundary ++ parts_tail (boundary_marker boundary) parts.

(** Where the delimiters after the first one start, [offset] being where
    the first part starts. *)
Fixpoint later_delimiters (m : nat) (parts : list (string * string)) (offset : nat)
    : list nat :=
  match parts with
  | [] => []
  | (fieldName, value) :: rest =>
      let o := (offset + String.length (form_part fieldName value))%nat in
      o :: later_delimiters m rest (o + m)
  end.

Definition all_delimiters (boundary : string) (parts : list (string * string)) : list nat :=
  let m := String.length (boundary_marker boundary) in
  O :: later_delimiters m parts m.

(** What one part does to the object under construction. *)
Definition bind_part {Num : Type} (formData : list (string * JsValue Num))
    (part : string * string) : list (string * JsValue Num) :=
  match snd part with
  | EmptyString => formData
  | value => Multipart.set_property formData (fst part) (JString (trim value))
  end.

(** The pieces the body is cut into, after the empty first one. *)
Fixpoint pieces (parts : list (string * string)) : list string :=
  match parts with
  | [] => [CLOSING]
  | (fieldName, value) :: rest => form_part fieldName value :: pieces rest
  end.

(** The text of the last part named [fieldName] whose text is not empty. *)
Fixpoint last_text (fieldName : string) (parts : list (string * string)) : option string :=
  match parts with
  | [] => None
  | (f, v) :: rest =>
      match last_text fieldName rest with
      | Some later => Some later
      | None =>
          if String.eqb f fieldName && negb (String.eqb v "") then Some v else None
      end
  end.

(** What a part without blank line binds its field to: its own declaration
    line, from the fourth code unit of the part on. *)
Definition headless_value (fieldName : string) : string :=
  "ontent-Disposition: form-data; name=" ++ String DQUOTE fieldName ++ String DQUOTE "".

(** A part that has its field declaration but no blank line after it. *)
Definition headless_part (fieldName : string) : string :=
  CRLF ++ DISPOSITION ++ String DQUOTE fieldName ++ String DQUOTE "" ++ CRLF.

(** The request announces a JSON body. *)
Definition announces_json (event : Event.t) : bool :=
  match Event.headers event !! "content-type" with
  | Some contentType => includes contentType "application/json"
  | None => false
  end.

(** The content type as the multipart variant reads it. *)
Definition content_type (event : Event.t) : string :=
  default "" (Event.headers event !! "content-type").

Definition NO_BOUNDARY_MESSAGE : string := "No boundary found in multipart data".

(** A date whose year is written with four digits. *)
Definition four_digit_year (d : Date) : Prop := 1000 <= getFullYear d <= 9999.

(** ** More of the concrete platform *)

(** A mail package without the function the handlers call. *)
Definition nodemailer_missing (config : TransportConfig) : Result Transporter :=
  throw (mkError "nodemailer.createTransporter is not a function").

(** Credentials, recipient and no debug mode. *)
Definition env_complete : gmap string string :=
  <[ "EMAIL_TO" := "sales@example.com" ]> Sample.env_ready.

Definition form_headers : gmap string string :=
  {[ "content-type" := "application/x-www-form-urlencoded" ]}.

Definition post_form (body : string) : Event.t :=
  {| Event.httpMethod := "POST"; Event.headers := form_headers; Event.body := Some body |}.

Definition request (method : string) : Event.t :=
  {| Event.httpMethod := method; Event.headers := ∅; Event.body := None |}.

Definition post_multipart (contentType body : string) : Event.t :=
  {| Event.httpMethod := "POST";
     Event.headers := {[ "content-type" := contentType ]};
     Event.body := Some body |}.

(** The message built for Jo at noon, to a given recipient. *)
Definition jo_message (recipient : string) : MailOptions :=
  {| mail_from := Some "forms@example.com";
     mail_to := recipient;
     mail_subject := buildEmailSubject Sample.noon;
     mail_text := email_body_text "Jo" "jo@x.com" "+15555550123" "Not specified" |}.

Definition four_parts : list (string * string) :=
  [ ("name", "Jo"); ("email", " jo@x.com "); ("phone", "+15555550123"); ("needs", "") ].

Definition repeated_parts : list (string * string) :=
  [ ("name", "Jo"); ("name", "Joan"); ("name", "") ].

(** The first handler on the concrete platform. *)
Definition sample_handler_first (nodemailer : TransportConfig -> Result Transporter)
    (env : gmap string string) : Date -> Event.t -> Response.t * Outbox :=
  handler_first Z Sample.num_truthy Sample.num_toString Sample.isEmail
    Sample.isMobilePhone Sample.JSON_parse Sample.URLSearchParams_get nodemailer env.

(** * Proofs *)

Local Arguments String.append : simpl nomatch.

(** ** Strings *)

Section StringFacts.

Lemma append_cons (c : ascii) (s t : string) : String c s ++ t = String c (s ++ t).
Proof. reflexivity. Qed.

Lemma append_nil_r (s : string) : s ++ "" = s.
Proof. induction s as [|c s IH]; cbn; [reflexivity | now rewrite IH]. Qed.

Lemma append_assoc (s t u : string) : (s ++ t) ++ u = s ++ (t ++ u).
Proof. induction s as [|c s IH]; cbn; [reflexivity | now rewrite IH]. Qed.

Lemma append_length (s t : string) :
  String.length (s ++ t) = (String.length s + String.length t)%nat.
Proof. induction s as [|c s IH]; cbn; [reflexivity | now rewrite IH]. Qed.

Lemma trimEnd_app (s t : string) :
  trimEnd t <> "" -> trimEnd (s ++ t) = s ++ trimEnd t.
Proof.
  intros Ht. induction s as [|c s IH]; cbn; [reflexivity|].
  rewrite IH. destruct (s ++ trimEnd t) eqn:E; [|reflexivity].
  destruct s; cbn in E; [contradiction | discriminate].
Qed.

Lemma trimEnd_app_nonempty (s t : string) :
  trimEnd t <> "" -> trimEnd (s ++ t) <> "".
Proof.
  intros Ht. rewrite trimEnd_app by assumption.
  destruct s; [assumption | discriminate].
Qed.

Lemma trimStart_length (s : string) :
  (String.length (trimStart s) <= String.length s)%nat.
Proof.
  induction s as [|c s IH]; cbn; [lia|].
  destruct (is_white_space c); cbn; lia.
Qed.

Lemma trimEnd_length (s : string) :
  (String.length (trimEnd s) <= String.length s)%nat.
Proof.
  induction s as [|c s IH]; cbn; [lia|].
  destruct (trimEnd s); [destruct (is_white_space c)|]; cbn in *; lia.
Qed.

Lemma trim_length (s : string) :
  (String.length (trim s) <= String.length s)%nat.
Proof.
  unfold trim. pose proof (trimStart_length (trimEnd s)).
  pose proof (trimEnd_length s). lia.
Qed.

Lemma substring_middle (a v b : string) :
  String.substring (String.length a) (String.length v) (a ++ v ++ b) = v.
Proof.
  induction a as [|c a IH]; cbn [String.length String.substring].
  - change ("" ++ v ++ b) with (v ++ b).
    induction v as [|d v IHv]; cbn; [now destruct b | now rewrite IHv].
  - exact IH.
Qed.

Lemma js_substring_middle (a v b : string) :
  substring (a ++ v ++ b) (Z.of_nat (String.length a))
    (Z.of_nat (String.length a) + Z.of_nat (String.length v)) = v.
Proof.
  unfold substring. rewrite !append_length.
  set (la := String.length a). set (lv := String.length v). set (lb := String.length b).
  replace (Z.min (Z.max (Z.of_nat la) 0) (Z.of_nat (la + (lv + lb))))
    with (Z.of_nat la) by lia.
  replace (Z.min (Z.max (Z.of_nat la + Z.of_nat lv) 0) (Z.of_nat (la + (lv + lb))))
    with (Z.of_nat la + Z.of_nat lv) by lia.
  replace (Z.min (Z.of_nat la) (Z.of_nat la + Z.of_nat lv)) with (Z.of_nat la) by lia.
  replace (Z.max (Z.of_nat la) (Z.of_nat la + Z.of_nat lv))
    with (Z.of_nat la + Z.of_nat lv) by lia.
  replace (Z.of_nat la + Z.of_nat lv - Z.of_nat la) with (Z.of_nat lv) by lia.
  rewrite !Nat2Z.id. apply substring_middle.
Qed.

End StringFacts.

Section ValidatorProofs.

Context {Num : Type}.
Variable num_truthy : Num -> bool.
Variable isEmail : string -> bool.
Variable isMobilePhone : string -> string -> bool -> bool.

Local Abbreviation validate := (validateFormData Num num_truthy isEmail isMobilePhone).
Local Abbreviation rules := (rule_errors isEmail isMobilePhone).

Lemma get_property_object (fields : list (string * JsValue Num)) k :
  get_property Num (JObject fields) k = ok (field fields k).
Proof. reflexivity. Qed.

(** On a FormSubmission the validator returns, and what it returns is the
    concatenation of the verdicts of the three rules. *)
Lemma validate_form_submission (fields : list (string * JsValue Num)) :
  is_form_submission (JObject fields) = true ->
  validate (JObject fields) = ok (rules fields).
Proof.
  unfold is_form_submission, validateFormData, rule_errors.
  rewrite !get_property_object. cbn [rbind ok].
  intros H. apply andb_prop in H as [H Hp]. apply andb_prop in H as [Hn He].
  destruct (field fields "name") as [| | | |n| |]; try discriminate Hn;
  destruct (field fields "email") as [| | | |e| |]; try discriminate He;
  destruct (field fields "phone") as [| | | |p| |]; try discriminate Hp;
  cbn; unfold push;
  repeat match goal with
  | |- context [String.eqb ?s ""] => destruct (String.eqb_spec s ""); [subst s|]; cbn
  | |- context [String.length ?t] => destruct (String.length t) as [|[|?]]; cbn
  | |- context [isEmail ?s] => destruct (isEmail s); cbn
  | |- context [isMobilePhone ?s ?l ?m] => destruct (isMobilePhone s l m); cbn
  end; reflexivity.
Qed.

Lemma rbind_inr {A B} (m : Result A) (k : A -> Result B) (b : B) :
  rbind m k = inr b -> exists a, m = inr a /\ k a = inr b.
Proof. destruct m as [e|a]; cbn; [discriminate | eauto]. Qed.

Lemma name_step_shape (v : JsValue Num) (errors r : list string) :
  (if negb (truthy Num num_truthy v) then ok (push errors NAME_ERROR)
   else rbind (call_trim Num "data.name" v)
          (fun t => if (String.length t <? 2)%nat then ok (push errors NAME_ERROR)
                    else ok errors)) = inr r ->
  exists b : bool, r = (errors ++ error_unless b NAME_ERROR)%list.
Proof.
  destruct (negb (truthy Num num_truthy v)).
  - intros [= <-]. now exists false.
  - intros H. apply rbind_inr in H as (t & _ & H).
    destruct (String.length t <? 2)%nat; injection H as <-.
    + now exists false.
    + exists true. cbn. now rewrite app_nil_r.
Qed.

Lemma check_step_shape (v : JsValue Num) (check : string -> bool) (e : string)
    (errors r : list string) :
  (if negb (truthy Num num_truthy v) then ok (push errors e)
   else rbind (assertString Num v)
          (fun s => if negb (check s) then ok (push errors e) else ok errors)) = inr r ->
  exists b : bool, r = (errors ++ error_unless b e)%list.
Proof.
  destruct (negb (truthy Num num_truthy v)).
  - intros [= <-]. now exists false.
  - intros H. apply rbind_inr in H as (t & _ & H).
    destruct (negb (check t)); injection H as <-.
    + now exists false.
    + exists true. cbn. now rewrite app_nil_r.
Qed.

(** Whatever the input, a returned list is made of the three verdicts in
    their fixed order. *)
Lemma validate_shape (data : JsValue Num) (errs : list string) :
  validate data = inr errs ->
  exists a b c : bool,
    errs = (error_unless a NAME_ERROR ++ error_unless b EMAIL_ERROR ++
            error_unless c PHONE_ERROR)%list.
Proof.
  unfold validateFormData. intros H.
  apply rbind_inr in H as (name & _ & H).
  apply rbind_inr in H as (e1 & H1 & H).
  apply rbind_inr in H as (email & _ & H).
  apply rbind_inr in H as (e2 & H2 & H).
  apply rbind_inr in H as (phone & _ & H).
  apply rbind_inr in H as (e3 & H3 & H).
  injection H as <-.
  apply name_step_shape in H1 as [a ->].
  apply check_step_shape in H2 as [b ->].
  apply (check_step_shape phone (fun s => isMobilePhone s "any" false)) in H3 as [c ->].
  exists a, b, c. now rewrite <- app_assoc.
Qed.

Lemma validate_throws_not_form (data : JsValue Num) (e : Error) :
  validate data = inl e -> is_form_submission data = false.
Proof.
  intros H. destruct (is_form_submission data) eqn:Hf; [|reflexivity].
  destruct data; try discriminate Hf.
  rewrite (validate_form_submission _ Hf) in H. discriminate H.
Qed.

Lemma error_unless_In (b : bool) (e x : string) :
  In x (error_unless b e) <-> b = false /\ x = e.
Proof. destruct b; cbn; intuition congruence. Qed.

Lemma rule_errors_In (fields : list (string * JsValue Num)) :
  (In NAME_ERROR (rules fields) <-> name_rule (field fields "name") = false) /\
  (In EMAIL_ERROR (rules fields) <-> email_rule isEmail (field fields "email") = false) /\
  (In PHONE_ERROR (rules fields) <-> phone_rule isMobilePhone (field fields "phone") = false).
Proof.
  unfold rule_errors. rewrite !in_app_iff, !error_unless_In.
  repeat split; intros; intuition (try discriminate; auto).
Qed.

(** C2. The validator is a function of the submission alone; on every
    FormSubmission it returns, and its result lists the verdict of each of
    the three rules whatever the verdicts of the others: a rule's error is
    in the list exactly when that rule is violated.  For the submission
    name Jo, email jo@x.com, phone +15555550123 (which the validator package
    accepts) the list is empty. *)
Theorem validateFormData_reports_every_rule :
  isEmail "jo@x.com" = true ->
  isMobilePhone "+15555550123" "any" false = true ->
  (forall fields : list (string * JsValue Num),
      is_form_submission (JObject fields) = true ->
      validate (JObject fields) = ok (rules fields) /\
      (In NAME_ERROR (rules fields) <-> name_rule (field fields "name") = false) /\
      (In EMAIL_ERROR (rules fields) <->
         email_rule isEmail (field fields "email") = false) /\
      (In PHONE_ERROR (rules fields) <->
         phone_rule isMobilePhone (field fields "phone") = false)) /\
  validate jo_submission = ok [].
Proof.
  intros He Hp. split.
  - intros fields Hf. split; [now apply validate_form_submission|].
    apply rule_errors_In.
  - unfold jo_submission. rewrite validate_form_submission by reflexivity.
    unfold rule_errors. cbn. rewrite He, Hp. reflexivity.
Qed.

(** C3. For every FormSubmission whose name is missing or shorter than two
    code units the validator returns a list that contains the name
    error. *)
Theorem validateFormData_short_name (fields : list (string * JsValue Num)) :
  is_form_submission (JObject fields) = true ->
  name_missing_or_short (field fields "name") ->
  exists errs, validate (JObject fields) = ok errs /\ In NAME_ERROR errs.
Proof.
  intros Hf Hn. exists (rules fields).
  split; [now apply validate_form_submission|].
  apply rule_errors_In.
  destruct (field fields "name") as [| | | |s| |]; try reflexivity; try contradiction.
  unfold name_missing_or_short in Hn. unfold name_rule.
  pose proof (trim_length s). apply Nat.leb_gt. lia.
Qed.

(** C10. Whatever the input, the validator either throws (which it never
    does on a FormSubmission) or returns a list of at most three
    elements, each one of the three fixed messages, without repetition, in
    the order name, email, phone. *)
Theorem validateFormData_result_shape (data : JsValue Num) :
  match validate data with
  | inl _ => is_form_submission data = false
  | inr errs =>
      (length errs <= 3)%nat /\
      Forall (fun e => In e FIXED_ERRORS) errs /\
      NoDup errs /\
      sublist errs FIXED_ERRORS
  end.
Proof.
  destruct (validate data) as [e|errs] eqn:H.
  - now apply validate_throws_not_form in H.
  - apply validate_shape in H as (a & b & c & ->).
    unfold FIXED_ERRORS.
    destruct a, b, c; cbn; (split; [lia|]); (split; [|split]).
    all: try (repeat (constructor; [cbn; auto 6|]); constructor).
    all: try (apply NoDup_ListNoDup; repeat constructor; cbn; intuition discriminate).
    all: repeat (apply sublist_skip || apply sublist_cons || apply sublist_nil).
Qed.

End ValidatorProofs.

(** ** The mail text *)

Section MailTextProofs.

Context {Num : Type}.
Variable num_truthy : Num -> bool.
Variable num_toString : Num -> string.

Local Abbreviation body_of := (buildEmailBody Num num_truthy num_toString).
Local Abbreviation to_string := (ToString Num num_toString).

(** Trimming the template removes its first line break and its last line
    break and indentation, and nothing of the interpolated values. *)
Lemma trim_template (name email phone needs : string) :
  trim (NL ++
    "New Form Submission Received" ++ NL ++
    NL ++
    "Details:" ++ NL ++
    "Name: " ++ name ++ NL ++
    "Email: " ++ email ++ NL ++
    "Phone: " ++ phone ++ NL ++
    "Insurance Needs: " ++ needs ++ NL ++
    NL ++
    "Please follow up with the customer as needed." ++ NL ++
    "  ") = email_body_text name email phone needs.
Proof.
  unfold trim, email_body_text.
  remember ("Please follow up with the customer as needed." ++ NL ++ "  ")
    as tail eqn:Etail.
  assert (Htail : trimEnd tail = "Please follow up with the customer as needed.")
    by (subst tail; reflexivity).
  clear Etail.
  repeat (rewrite trimEnd_app;
          [| repeat apply trimEnd_app_nonempty; rewrite Htail; discriminate ]).
  rewrite Htail. reflexivity.
Qed.

Lemma field_delete_eq (fields : list (string * JsValue Num)) (k : string) :
  field (delete_property fields k) k = JUndefined.
Proof.
  unfold field. induction fields as [|[k' v] rest IH]; cbn; [reflexivity|].
  destruct (String.eqb_spec k' k) as [->|Hne]; [assumption|].
  cbn. destruct (String.eqb_spec k' k); [contradiction | assumption].
Qed.

Lemma field_delete_ne (fields : list (string * JsValue Num)) (k k' : string) :
  k <> k' -> field (delete_property fields k) k' = field fields k'.
Proof.
  intros Hne. unfold field.
  induction fields as [|[k0 v] rest IH]; cbn; [reflexivity|].
  destruct (String.eqb_spec k0 k) as [->|Hk].
  - destruct (String.eqb_spec k k'); [contradiction | assumption].
  - cbn. destruct (String.eqb_spec k0 k'); [reflexivity | assumption].
Qed.

(** The mail text of an object whose three contact fields convert to
    strings. *)
Lemma buildEmailBody_object (fields : list (string * JsValue Num))
    (name email phone : string) :
  to_string (field fields "name") = ok name ->
  to_string (field fields "email") = ok email ->
  to_string (field fields "phone") = ok phone ->
  body_of (JObject fields) =
  rbind (if truthy Num num_truthy (field fields "needs")
         then to_string (field fields "needs") else ok "Not specified")
        (fun needs => ok (email_body_text name email phone needs)).
Proof.
  intros Hn He Hp. unfold buildEmailBody.
  rewrite !get_property_object. cbn [rbind ok].
  rewrite Hn. cbn [rbind ok]. rewrite He. cbn [rbind ok]. rewrite Hp. cbn [rbind ok].
  destruct (if truthy Num num_truthy (field fields "needs")
            then to_string (field fields "needs") else ok "Not specified") as [err|needs];
    cbn [rbind ok]; [reflexivity|].
  now rewrite trim_template.
Qed.

(** C9. In the mail text a [needs] field holding the empty string, or any
    other falsy value, is rendered as Not specified, and the text is the
    one obtained from the same submission without a [needs] field; a
    non-empty [needs] string is rendered as it is. *)
Theorem buildEmailBody_needs (fields : list (string * JsValue Num))
    (name email phone : string) :
  to_string (field fields "name") = ok name ->
  to_string (field fields "email") = ok email ->
  to_string (field fields "phone") = ok phone ->
  (truthy Num num_truthy (field fields "needs") = false ->
     body_of (JObject fields) = ok (email_body_text name email phone "Not specified") /\
     body_of (JObject (delete_property fields "needs")) = body_of (JObject fields)) /\
  (forall s, field fields "needs" = JString s -> s <> "" ->
     body_of (JObject fields) = ok (email_body_text name email phone s)).
Proof.
  intros Hn He Hp. split.
  - intros Hfalsy.
    rewrite (buildEmailBody_object fields name email phone) by assumption.
    rewrite (buildEmailBody_object (delete_property fields "needs") name email phone)
      by (rewrite field_delete_ne by discriminate; assumption).
    rewrite field_delete_eq, Hfalsy. split; reflexivity.
  - intros s Hs Hne.
    rewrite (buildEmailBody_object fields name email phone) by assumption.
    rewrite Hs. cbn. destruct (String.eqb_spec s ""); [contradiction | reflexivity].
Qed.

End MailTextProofs.

(** ** The subject *)

Section SubjectProofs.

Lemma check_range_sound (f : Z -> bool) (lo len : Z) :
  check_range f lo len = true ->
  forall z, lo <= z < lo + len -> f z = true.
Proof.
  unfold check_range. rewrite forallb_forall. intros H z Hz.
  replace z with (lo + Z.of_nat (Z.to_nat (z - lo))) by lia.
  apply H, in_seq. lia.
Qed.

Lemma padStart_two_digits (z : Z) :
  0 <= z <= 99 -> padStart (String_of_int z) 2 "0" = zero_padded 2 z.
Proof.
  intros Hz. apply String.eqb_eq.
  apply (check_range_sound
           (fun z => String.eqb (padStart (String_of_int z) 2 "0") (zero_padded 2 z))
           0 100); [vm_compute; reflexivity | lia].
Qed.

Lemma String_of_four_digits (z : Z) :
  1000 <= z <= 9999 -> String_of_int z = zero_padded 4 z.
Proof.
  intros Hz. apply String.eqb_eq.
  apply (check_range_sound
           (fun z => String.eqb (String_of_int z) (zero_padded 4 z))
           1000 9000); [vm_compute; reflexivity | lia].
Qed.

Lemma zero_padded_length (w : nat) (n : Z) : String.length (zero_padded w n) = w.
Proof.
  revert n. induction w as [|w IH]; intros n; cbn; [reflexivity|].
  rewrite append_length, IH. cbn. lia.
Qed.

Lemma all_digits_app (s t : string) :
  all_digits (s ++ t) = all_digits s && all_digits t.
Proof.
  induction s as [|c s IH]; cbn; [reflexivity|].
  now rewrite IH, andb_assoc.
Qed.

Lemma digit_char_is_digit (d : Z) : 0 <= d <= 9 -> is_digit (digit_char d) = true.
Proof.
  intros Hd. unfold is_digit, digit_char.
  rewrite nat_ascii_embedding by lia.
  apply andb_true_iff. split; apply Nat.leb_le; lia.
Qed.

Lemma zero_padded_digits (w : nat) (n : Z) : all_digits (zero_padded w n) = true.
Proof.
  revert n. induction w as [|w IH]; intros n; cbn; [reflexivity|].
  rewrite all_digits_app, IH. cbn.
  rewrite digit_char_is_digit; [reflexivity|].
  pose proof (Z.mod_pos_bound n 10). lia.
Qed.

(** The token of any valid date: only the year is not padded. *)
Lemma timestamp_valid (now : Date) :
  valid_date now ->
  timestamp now =
    zero_padded 2 (getDate now) ++ zero_padded 2 (getMonth now + 1) ++
    String_of_int (getFullYear now) ++
    zero_padded 2 (getHours now) ++ zero_padded 2 (getMinutes now).
Proof.
  intros (Hd & Hm & _ & Hh & Hmin). unfold timestamp.
  rewrite !padStart_two_digits by lia. reflexivity.
Qed.

Lemma decimal_value_app (s t : string) (acc : Z) :
  decimal_value acc (s ++ t) = decimal_value (decimal_value acc s) t.
Proof.
  revert acc. induction s as [|c s IH]; intros acc; cbn; [reflexivity | apply IH].
Qed.

(** A zero-padded numeral denotes the number it was made from. *)
Lemma zero_padded_value (w : nat) (n : Z) :
  0 <= n < 10 ^ Z.of_nat w -> decimal_value 0 (zero_padded w n) = n.
Proof.
  revert n. induction w as [|w IH]; intros n Hn.
  - cbn in *. lia.
  - rewrite Nat2Z.inj_succ, Z.pow_succ_r in Hn by lia.
    cbn [zero_padded]. rewrite decimal_value_app, IH.
    + cbn [decimal_value]. unfold digit_char.
      pose proof (Z.mod_pos_bound n 10 ltac:(lia)).
      rewrite nat_ascii_embedding by lia.
      pose proof (Z.div_mod n 10 ltac:(lia)). lia.
    + split; [apply Z.div_pos; lia | apply Z.div_lt_upper_bound; lia].
Qed.

(** The five fields of a twelve-character token. *)
Lemma token_fields (a b c d e : string) :
  String.length a = 2%nat -> String.length b = 2%nat -> String.length c = 4%nat ->
  String.length d = 2%nat -> String.length e = 2%nat ->
  substring (a ++ b ++ c ++ d ++ e) 0 2 = a /\
  substring (a ++ b ++ c ++ d ++ e) 2 4 = b /\
  substring (a ++ b ++ c ++ d ++ e) 4 8 = c /\
  substring (a ++ b ++ c ++ d ++ e) 8 10 = d /\
  substring (a ++ b ++ c ++ d ++ e) 10 12 = e.
Proof.
  intros Ha Hb Hc Hd He. repeat split.
  - pose proof (js_substring_middle "" a (b ++ c ++ d ++ e)) as H.
    cbn [String.length] in H. rewrite Ha in H. exact H.
  - pose proof (js_substring_middle a b (c ++ d ++ e)) as H.
    rewrite Ha, Hb in H. exact H.
  - pose proof (js_substring_middle (a ++ b) c (d ++ e)) as H.
    rewrite append_length, Ha, Hb, Hc, !append_assoc in H. exact H.
  - pose proof (js_substring_middle (a ++ b ++ c) d e) as H.
    rewrite !append_length, Ha, Hb, Hc, Hd, !append_assoc in H. exact H.
  - pose proof (js_substring_middle (a ++ b ++ c ++ d) e "") as H.
    rewrite !append_length, Ha, Hb, Hc, Hd, He, !append_assoc, append_nil_r in H.
    exact H.
Qed.

(** C6, as amended.  For every valid date whose year has four digits, the
    subject is the fixed prefix followed by the token DDMMYYYYHHmm: twelve
    decimal digits, the zero-padded day, month, year, hour and minute, which
    read back as the components of the date. *)
Theorem buildEmailSubject_four_digit_year (now : Date) :
  valid_date now ->
  1000 <= getFullYear now <= 9999 ->
  buildEmailSubject now = SUBJECT_PREFIX ++ DDMMYYYYHHmm now /\
  String.length (DDMMYYYYHHmm now) = 12%nat /\
  all_digits (DDMMYYYYHHmm now) = true /\
  decimal_value 0 (substring (timestamp now) 0 2) = getDate now /\
  decimal_value 0 (substring (timestamp now) 2 4) = getMonth now + 1 /\
  decimal_value 0 (substring (timestamp now) 4 8) = getFullYear now /\
  decimal_value 0 (substring (timestamp now) 8 10) = getHours now /\
  decimal_value 0 (substring (timestamp now) 10 12) = getMinutes now.
Proof.
  intros Hv Hy. unfold buildEmailSubject.
  assert (Ht : timestamp now = DDMMYYYYHHmm now).
  { rewrite timestamp_valid by assumption.
    now rewrite String_of_four_digits by assumption. }
  rewrite Ht. unfold DDMMYYYYHHmm.
  split; [reflexivity|]. split.
  { rewrite !append_length, !zero_padded_length. reflexivity. }
  split.
  { rewrite !all_digits_app, !zero_padded_digits. reflexivity. }
  destruct Hv as (Hd & Hm & _ & Hh & Hmin).
  destruct (token_fields (zero_padded 2 (getDate now)) (zero_padded 2 (getMonth now + 1))
              (zero_padded 4 (getFullYear now)) (zero_padded 2 (getHours now))
              (zero_padded 2 (getMinutes now)))
    as (-> & -> & -> & -> & ->); try apply zero_padded_length.
  rewrite !zero_padded_value by (cbn; lia). repeat split.
Qed.

(** C6 fails as stated: in the first minute of the year 10000 the token
    has thirteen digits. *)
Lemma buildEmailSubject_year_10000 :
  ~ (forall now : Date,
       valid_date now ->
       exists token,
         buildEmailSubject now = SUBJECT_PREFIX ++ token /\
         String.length token = 12%nat).
Proof.
  intros H. destruct (H new_year_10000) as (token & Hs & Hl).
  - unfold valid_date, new_year_10000; cbn; lia.
  - unfold buildEmailSubject in Hs.
    apply (String.app_inj SUBJECT_PREFIX) in Hs. subst token.
    vm_compute in Hl. discriminate Hl.
Qed.

End SubjectProofs.

(** ** The handler *)

Section HandlerProofs.

Variable Num : Type.
Variable num_truthy : Num -> bool.
Variable num_toString : Num -> string.
Variable isEmail : string -> bool.
Variable isMobilePhone : string -> string -> bool -> bool.
Variable JSON_parse : string -> Result (JsValue Num).
Variable URLSearchParams_get : option string -> string -> option string.
Variable nodemailer_createTransporter : TransportConfig -> Result Transporter.
Variable env : gmap string string.

Local Abbreviation run_try parse :=
  (try_block Num num_truthy num_toString isEmail isMobilePhone
     nodemailer_createTransporter env parse).
Local Abbreviation run_handle parse :=
  (handle Num num_truthy num_toString isEmail isMobilePhone
     nodemailer_createTransporter env parse).
Local Abbreviation on_error := (error_response Num num_toString env).

Lemma handle_post parse (now : Date) (event : Event.t) :
  Event.httpMethod event = "POST" ->
  run_handle parse now event =
    match run_try parse now event [] with
    | (inr response, out) => (response, out)
    | (inl error, out) => (on_error error, out)
    end.
Proof. intros H. unfold handle. rewrite H. reflexivity. Qed.

Lemma error_response_body (error : Error) :
  Response.body (on_error error) =
    if debug_mode env then INTERNAL_ERROR_BODY_WITH (message error)
    else INTERNAL_ERROR_BODY.
Proof.
  unfold error_response, debug_mode, json_response. cbn [Response.body].
  destruct (bool_decide (env !! "NODE_ENV" = Some "development")); reflexivity.
Qed.

Lemma error_response_status (error : Error) :
  Response.statusCode (on_error error) = 500 /\
  Response.headers (on_error error) = CORS_JSON_HEADERS.
Proof. split; reflexivity. Qed.

Lemma try_block_no_credentials parse (now : Date) (event : Event.t) (out : Outbox) :
  credentials_present env = false ->
  run_try parse now event out = (inl (mkError MISSING_ENV_MESSAGE), out).
Proof.
  unfold credentials_present, try_block. intros H.
  apply andb_false_iff in H.
  replace (negb (env_truthy env "MAIL_USERNAME") || negb (env_truthy env "MAIL_PASSWORD"))
    with true by (destruct H as [-> | ->]; cbn; [|rewrite orb_true_r]; reflexivity).
  reflexivity.
Qed.

Lemma try_block_credentials parse (now : Date) (event : Event.t) (out : Outbox) :
  credentials_present env = true ->
  run_try parse now event out =
    ebind (elift (parse event)) (fun formData =>
    ebind (elift (validateFormData Num num_truthy isEmail isMobilePhone formData))
      (fun validationErrors =>
    if (0 <? length validationErrors)%nat
    then eret (validation_response Num num_toString validationErrors)
    else
      ebind (elift (createTransporter nodemailer_createTransporter env)) (fun transporter =>
      ebind (elift (buildEmailBody Num num_truthy num_toString formData)) (fun text =>
      ebind (await_sendMail transporter
               {| mail_from := env !! "MAIL_USERNAME";
                  mail_to := match env !! "EMAIL_TO" with
                             | Some (String c a) => String c a
                             | _ => "default@example.com"
                             end;
                  mail_subject := buildEmailSubject now;
                  mail_text := text |}) (fun _ =>
      eret (success_response Num num_toString)))))) out.
Proof.
  unfold credentials_present, try_block. intros H.
  apply andb_true_iff in H as [-> ->]. reflexivity.
Qed.

Lemma try_block_parse_failure parse (now : Date) (event : Event.t) (out : Outbox)
    (error : Error) :
  credentials_present env = true ->
  parse event = inl error ->
  run_try parse now event out = (inl error, out).
Proof.
  intros Hc Hp. rewrite try_block_credentials by assumption.
  unfold ebind, elift. rewrite Hp. reflexivity.
Qed.

(** A response returned from inside the [try] block is the 400 or the 200
    one, and at most one message is handed to the transport. *)
Lemma try_block_returns parse (now : Date) (event : Event.t) (out out' : Outbox)
    (response : Response.t) :
  run_try parse now event out = (inr response, out') ->
  (Response.statusCode response = 400 \/ Response.statusCode response = 200) /\
  Response.headers response = CORS_JSON_HEADERS.
Proof.
  destruct (credentials_present env) eqn:Hc.
  2: { rewrite try_block_no_credentials by assumption. discriminate. }
  rewrite try_block_credentials by assumption.
  unfold ebind, elift, eret, await_sendMail.
  destruct (parse event) as [e|formData]; [discriminate|].
  destruct (validateFormData _ _ _ _ formData) as [e|errs]; [discriminate|].
  destruct (0 <? length errs)%nat.
  { intros [= <- <-]. split; [left|]; reflexivity. }
  destruct (createTransporter _ _) as [e|t]; [discriminate|].
  destruct (buildEmailBody _ _ _ formData) as [e|text]; [discriminate|].
  destruct (sendMail t _) as [e|info]; [discriminate|].
  intros [= <- <-]. split; [right|]; reflexivity.
Qed.

Lemma handle_failure parse (now : Date) (event : Event.t) (error : Error)
    (out : Outbox) :
  Event.httpMethod event = "POST" ->
  run_try parse now event [] = (inl error, out) ->
  run_handle parse now event = (on_error error, out).
Proof. intros Hm Ht. rewrite handle_post by assumption. now rewrite Ht. Qed.

Lemma handle_no_credentials parse (now : Date) (event : Event.t) :
  Event.httpMethod event = "POST" ->
  credentials_present env = false ->
  run_handle parse now event = (on_error (mkError MISSING_ENV_MESSAGE), []).
Proof.
  intros Hm Hc. apply handle_failure; [assumption|].
  now apply try_block_no_credentials.
Qed.

Lemma handle_parse_failure parse (now : Date) (event : Event.t) (error : Error) :
  Event.httpMethod event = "POST" ->
  parse event = inl error ->
  run_handle parse now event =
    (on_error (if credentials_present env then error else mkError MISSING_ENV_MESSAGE), []).
Proof.
  intros Hm Hp. destruct (credentials_present env) eqn:Hc.
  - apply handle_failure; [assumption|]. now apply try_block_parse_failure.
  - now apply handle_no_credentials.
Qed.

Lemma handle_headers_status parse (now : Date) (event : Event.t) :
  Event.httpMethod event <> "OPTIONS" ->
  Response.headers (run_handle parse now event).1 = CORS_JSON_HEADERS /\
  In (Response.statusCode (run_handle parse now event).1) ALLOWED_STATUS.
Proof.
  intros Hm. unfold handle.
  destruct (String.eqb_spec (Event.httpMethod event) "OPTIONS"); [contradiction|].
  destruct (negb (Event.httpMethod event =? "POST")%string).
  { split; [reflexivity | cbn; auto]. }
  destruct (run_try parse now event []) as [[error|response] out] eqn:Ht.
  - split; [reflexivity | cbn; auto].
  - apply try_block_returns in Ht as [Hs Hh]. cbn [fst].
    split; [assumption|]. destruct Hs as [-> | ->]; cbn; auto.
Qed.

Lemma json_content_type_parse (event : Event.t) (contentType : string) :
  Event.headers event !! "content-type" = Some contentType ->
  includes contentType "application/json" = true ->
  parseFormData Num JSON_parse URLSearchParams_get event =
    parse_json_body Num JSON_parse (Event.body event) /\
  parseFormData_multipart Num JSON_parse URLSearchParams_get event =
    parse_json_body Num JSON_parse (Event.body event).
Proof.
  intros Hh Hj. unfold parseFormData, parseFormData_multipart.
  rewrite Hh. cbn. rewrite Hj. split; reflexivity.
Qed.

Local Abbreviation the_handler :=
  (handler Num num_truthy num_toString isEmail isMobilePhone JSON_parse
     URLSearchParams_get nodemailer_createTransporter env).
Local Abbreviation the_handler_multipart :=
  (handler_multipart Num num_truthy num_toString isEmail isMobilePhone JSON_parse
     URLSearchParams_get nodemailer_createTransporter env).

(** C1, as amended.  While a mail credential is absent (or empty), every
    POST, whatever its headers and body, is answered with status 500 and
    hands no message to the mail transport; the body is the fixed error
    object, to which debug mode adds the [error] property naming the
    missing environment variables. *)
Theorem handler_missing_credentials (now : Date) (event : Event.t) :
  Event.httpMethod event = "POST" ->
  credentials_present env = false ->
  let (response, sent) := the_handler now event in
  Response.statusCode response = 500 /\
  sent = [] /\
  Response.body response =
    if debug_mode env then INTERNAL_ERROR_BODY_WITH MISSING_ENV_MESSAGE
    else INTERNAL_ERROR_BODY.
Proof.
  intros Hm Hc. unfold handler.
  rewrite handle_no_credentials by assumption.
  rewrite error_response_body. repeat split.
Qed.

(** C4, as amended.  A POST announced as JSON whose body [JSON.parse]
    rejects (the empty body is one) is answered with status 500 and the
    JSON headers, and no message is handed to the mail transport; the body
    is the fixed error object, to which debug mode adds the [error]
    property holding the message of the error that was caught. *)
Theorem handler_malformed_json (now : Date) (event : Event.t)
    (contentType : string) (error : Error) :
  Event.httpMethod event = "POST" ->
  Event.headers event !! "content-type" = Some contentType ->
  includes contentType "application/json" = true ->
  JSON_parse (default "null" (Event.body event)) = inl error ->
  let (response, sent) := the_handler now event in
  Response.statusCode response = 500 /\
  Response.headers response = CORS_JSON_HEADERS /\
  sent = [] /\
  Response.body response =
    if debug_mode env
    then INTERNAL_ERROR_BODY_WITH
           (if credentials_present env then message error else MISSING_ENV_MESSAGE)
    else INTERNAL_ERROR_BODY.
Proof.
  intros Hm Hh Hj Hp. unfold handler.
  destruct (json_content_type_parse event contentType Hh Hj) as [Hparse _].
  rewrite (handle_parse_failure _ now event error Hm) by (now rewrite Hparse).
  rewrite error_response_body.
  destruct (credentials_present env); repeat split.
Qed.

(** C7. Every response to a request whose method is not OPTIONS carries
    the headers Content-Type: application/json and
    Access-Control-Allow-Origin: *, and its status is one of 200, 400, 405
    and 500. *)
Theorem handler_response_headers (now : Date) (event : Event.t) :
  Event.httpMethod event <> "OPTIONS" ->
  let response := (the_handler now event).1 in
  Response.headers response !! "Content-Type" = Some "application/json" /\
  Response.headers response !! "Access-Control-Allow-Origin" = Some "*" /\
  In (Response.statusCode response) ALLOWED_STATUS.
Proof.
  intros Hm. cbv zeta. unfold handler.
  destruct (handle_headers_status (parseFormData Num JSON_parse URLSearchParams_get)
              now event Hm) as [-> Hs].
  split; [reflexivity|]. split; [reflexivity | assumption].
Qed.

(** The variant with multipart support answers in the same way. *)
Lemma handler_multipart_missing_credentials (now : Date) (event : Event.t) :
  Event.httpMethod event = "POST" ->
  credentials_present env = false ->
  the_handler_multipart now event = (on_error (mkError MISSING_ENV_MESSAGE), []).
Proof. intros Hm Hc. now apply handle_no_credentials. Qed.

Lemma handler_multipart_response_headers (now : Date) (event : Event.t) :
  Event.httpMethod event <> "OPTIONS" ->
  Response.headers (the_handler_multipart now event).1 = CORS_JSON_HEADERS /\
  In (Response.statusCode (the_handler_multipart now event).1) ALLOWED_STATUS.
Proof. intros Hm. now apply handle_headers_status. Qed.

(** A [null] body announced as JSON parses to [null]; reading its [name]
    then throws, and the answer is again the 500 one. *)
Lemma handler_null_json_body (now : Date) (event : Event.t) (contentType : string) :
  Event.httpMethod event = "POST" ->
  Event.headers event !! "content-type" = Some contentType ->
  includes contentType "application/json" = true ->
  Event.body event = None ->
  JSON_parse "null" = ok JNull ->
  the_handler now event =
    (on_error (if credentials_present env then type_error_read "name" "null"
               else mkError MISSING_ENV_MESSAGE), []).
Proof.
  intros Hm Hh Hj Hb Hnull. unfold handler.
  destruct (credentials_present env) eqn:Hc; [|now apply handle_no_credentials].
  apply handle_failure; [assumption|].
  rewrite try_block_credentials by assumption.
  destruct (json_content_type_parse event contentType Hh Hj) as [-> _].
  unfold parse_json_body. rewrite Hb. cbn [default from_option id].
  unfold ebind, elift. rewrite Hnull. reflexivity.
Qed.

(** Whatever happens, at most one message is handed to the transport. *)
Lemma handle_sends_at_most_once parse (now : Date) (event : Event.t) :
  (length (run_handle parse now event).2 <= 1)%nat.
Proof.
  unfold handle.
  destruct (Event.httpMethod event =? "OPTIONS")%string; [cbn; lia|].
  destruct (negb (Event.httpMethod event =? "POST")%string); [cbn; lia|].
  destruct (credentials_present env) eqn:Hc.
  2: { rewrite try_block_no_credentials by assumption. cbn. lia. }
  rewrite try_block_credentials by assumption.
  unfold ebind, elift, eret, await_sendMail.
  destruct (parse event) as [e|formData]; [cbn; lia|].
  destruct (validateFormData _ _ _ _ formData) as [e|errs]; [cbn; lia|].
  destruct (0 <? length errs)%nat; [cbn; lia|].
  destruct (createTransporter _ _) as [e|t]; [cbn; lia|].
  destruct (buildEmailBody _ _ _ formData) as [e|text]; [cbn; lia|].
  destruct (sendMail t _) as [e|info]; cbn; lia.
Qed.

End HandlerProofs.

(** ** Error detail and debug mode *)

Section ErrorDetail.

Variable Num : Type.
Variable num_truthy : Num -> bool.
Variable num_toString : Num -> string.
Variable isEmail : string -> bool.
Variable isMobilePhone : string -> string -> bool -> bool.
Variable JSON_parse : string -> Result (JsValue Num).
Variable URLSearchParams_get : option string -> string -> option string.

Local Abbreviation post_try nodemailer env :=
  (try_block Num num_truthy num_toString isEmail isMobilePhone nodemailer env
     (parseFormData Num JSON_parse URLSearchParams_get)).
Local Abbreviation handler_on nodemailer env :=
  (handler Num num_truthy num_toString isEmail isMobilePhone JSON_parse
     URLSearchParams_get nodemailer env).

Lemma error_key_in_debug_body (detail : string) :
  includes (INTERNAL_ERROR_BODY_WITH detail) ERROR_KEY = true.
Proof. reflexivity. Qed.

Lemma error_key_not_in_fixed_body : includes INTERNAL_ERROR_BODY ERROR_KEY = false.
Proof. reflexivity. Qed.

(** C8. When the [try] block of a POST fails, the 500 body has an [error]
    property exactly when debug mode is on, and that property then holds
    the message of the error; with debug mode off the body is the fixed
    error object, so two failing runs, whatever their errors, give the same
    body. *)
Theorem error_detail_only_in_debug_mode
    (nodemailer nodemailer' : TransportConfig -> Result Transporter)
    (env env' : gmap string string) (now now' : Date) (event event' : Event.t)
    (error error' : Error) (sent sent' : Outbox) :
  Event.httpMethod event = "POST" ->
  Event.httpMethod event' = "POST" ->
  post_try nodemailer env now event [] = (inl error, sent) ->
  post_try nodemailer' env' now' event' [] = (inl error', sent') ->
  let response := (handler_on nodemailer env now event).1 in
  let response' := (handler_on nodemailer' env' now' event').1 in
  Response.statusCode response = 500 /\
  Response.body response =
    (if debug_mode env then INTERNAL_ERROR_BODY_WITH (message error)
     else INTERNAL_ERROR_BODY) /\
  includes (Response.body response) ERROR_KEY = debug_mode env /\
  (debug_mode env = false -> debug_mode env' = false ->
   Response.body response = Response.body response').
Proof.
  intros Hm Hm' Ht Ht'. cbv zeta. unfold handler.
  rewrite (handle_failure _ _ _ _ _ _ _ _ _ _ _ _ Hm Ht).
  rewrite (handle_failure _ _ _ _ _ _ _ _ _ _ _ _ Hm' Ht').
  cbn [fst]. rewrite !error_response_body.
  split; [reflexivity|]. split; [reflexivity|]. split.
  - destruct (debug_mode env);
      [apply error_key_in_debug_body | apply error_key_not_in_fixed_body].
  - intros -> ->. reflexivity.
Qed.

End ErrorDetail.

(** ** Splitting on a separator *)

Section SplitProofs.

Lemma startsWith_app (p t : string) : startsWith (p ++ t) p = true.
Proof.
  induction p as [|c p IH]; cbn; [reflexivity|].
  now rewrite Ascii.eqb_refl.
Qed.

Lemma drop_app (a b : string) (j : nat) :
  drop (String.length a + j) (a ++ b) = drop j b.
Proof. induction a as [|c a IH]; cbn; [reflexivity | assumption]. Qed.

Lemma drop_app_exact (a b : string) : drop (String.length a) (a ++ b) = b.
Proof.
  rewrite <- (Nat.add_0_r (String.length a)), drop_app. now destruct b.
Qed.

Lemma occurrences_from_spec (s sub : string) (i j : nat) :
  In j (occurrences_from s sub i) <->
  (i <= j <= i + String.length s)%nat /\ startsWith (drop (j - i) s) sub = true.
Proof.
  revert i. induction s as [|c s IH]; intros i; cbn [occurrences_from].
  - rewrite app_nil_r. cbn [String.length].
    destruct (startsWith "" sub) eqn:E; cbn.
    + split.
      * intros [<- | []]. rewrite Nat.sub_diag. cbn [drop]. split; [lia | assumption].
      * intros [H _]. left. lia.
    + split; [intros [] |].
      intros [H1 H2]. replace (j - i)%nat with 0%nat in H2 by lia.
      cbn [drop] in H2. congruence.
  - rewrite in_app_iff, IH. cbn [String.length]. split.
    + intros [H | [H1 H2]].
      * destruct (startsWith (String c s) sub) eqn:E; [|destruct H].
        destruct H as [<- | []]. rewrite Nat.sub_diag. cbn [drop]. split; [lia | assumption].
      * split; [lia|]. replace (j - i)%nat with (S (j - S i)) by lia. exact H2.
    + intros [H1 H2]. destruct (Nat.eq_dec j i) as [-> | Hne].
      * left. rewrite Nat.sub_diag in H2. cbn [drop] in H2. rewrite H2. now left.
      * right. split; [lia|].
        replace (j - i)%nat with (S (j - S i)) in H2 by lia. exact H2.
Qed.

Lemma occurrences_spec (s sub : string) (j : nat) :
  In j (occurrences s sub) <->
  (j <= String.length s)%nat /\ startsWith (drop j s) sub = true.
Proof.
  unfold occurrences. rewrite occurrences_from_spec, Nat.sub_0_r.
  split; intros [H1 H2]; (split; [lia | assumption]).
Qed.

Lemma split_scan_skip (sep t rest : string) :
  split_scan sep (t ++ rest) (String.length t) = split_scan sep rest O.
Proof.
  induction t as [|c t IH]; cbn; [|assumption].
  destruct rest; reflexivity.
Qed.

(** A separator that does not occur before the end of [p] cuts off
    exactly [p]. *)
Lemma split_scan_first (sep p rest : string) :
  sep <> "" ->
  (forall j, (j < String.length p)%nat ->
             startsWith (drop j (p ++ sep ++ rest)) sep = false) ->
  split_scan sep (p ++ sep ++ rest) O = p :: split_scan sep rest O.
Proof.
  intros Hsep. induction p as [|c p IH]; intros Hfree.
  - destruct sep as [|a sep']; [contradiction|].
    change ("" ++ String a sep' ++ rest) with (String a (sep' ++ rest)).
    cbn [split_scan].
    change (String a (sep' ++ rest)) with (String a sep' ++ rest) at 1.
    rewrite startsWith_app. cbn [String.length Nat.pred].
    now rewrite split_scan_skip.
  - change (String c p ++ sep ++ rest) with (String c (p ++ sep ++ rest)).
    cbn [split_scan].
    change (String c (p ++ sep ++ rest)) with (String c p ++ sep ++ rest) at 1.
    pose proof (Hfree O ltac:(cbn; lia)) as H0. cbn [drop] in H0. rewrite H0.
    rewrite IH; [reflexivity|].
    intros j Hj. apply (Hfree (S j)). cbn. lia.
Qed.

(** Without any occurrence of the separator there is a single piece. *)
Lemma split_scan_none (sep s : string) :
  (forall j, (j <= String.length s)%nat -> startsWith (drop j s) sep = false) ->
  split_scan sep s O = [s].
Proof.
  induction s as [|c s IH]; intros Hfree; [reflexivity|].
  cbn [split_scan].
  pose proof (Hfree O ltac:(lia)) as H0. cbn [drop] in H0. rewrite H0.
  rewrite IH; [reflexivity|].
  intros j Hj. apply (Hfree (S j)). cbn. lia.
Qed.

End SplitProofs.

(** ** The multipart parser *)

Section MultipartProofs.

Context {Num : Type}.

Lemma lastIndexOf_from_CRLF (s : string) (i best : Z) :
  lastIndexOf_from (s ++ CRLF) CRLF i best = i + Z.of_nat (String.length s).
Proof.
  revert i best. induction s as [|c s IH]; intros i best.
  - cbn. lia.
  - change (String c s ++ CRLF) with (String c (s ++ CRLF)).
    cbn [lastIndexOf_from]. rewrite IH. cbn [String.length]. lia.
Qed.

Lemma form_part_split (fieldName value : string) :
  form_part fieldName value = part_head fieldName ++ value ++ CRLF.
Proof.
  unfold form_part, part_head. now rewrite !append_assoc.
Qed.

(** What the parser reads off the head of a part, whatever follows it. *)
Lemma part_head_facts (fieldName rest : string) :
  fieldName = "name" \/ fieldName = "email" ->
  includes (part_head fieldName ++ rest) "Content-Disposition: form-data" = true /\
  Multipart.match_name (part_head fieldName ++ rest) = Some fieldName /\
  indexOf (part_head fieldName ++ rest) (CRLF ++ CRLF) + 4 =
    Z.of_nat (String.length (part_head fieldName)).
Proof.
  intros [-> | ->]; repeat split; reflexivity.
Qed.

Lemma parse_part_form_part (formData : list (string * JsValue Num))
    (fieldName value : string) :
  fieldName = "name" \/ fieldName = "email" ->
  Multipart.parse_part formData (form_part fieldName value) =
    match value with
    | EmptyString => formData
    | _ => Multipart.set_property formData fieldName (JString (trim value))
    end.
Proof.
  intros Hf. rewrite form_part_split. unfold Multipart.parse_part.
  destruct (part_head_facts fieldName (value ++ CRLF) Hf) as (-> & -> & ->).
  unfold lastIndexOf. rewrite <- append_assoc, lastIndexOf_from_CRLF.
  rewrite append_length, Nat2Z.inj_add, Z.add_0_l.
  rewrite append_assoc, js_substring_middle.
  destruct value as [|c value]; cbn [String.length].
  - rewrite Z.add_0_r, Z.ltb_irrefl. reflexivity.
  - replace (_ <? _) with true by (symmetry; apply Z.ltb_lt; lia). reflexivity.
Qed.

Lemma parse_part_empty (formData : list (string * JsValue Num)) :
  Multipart.parse_part formData "" = formData.
Proof. reflexivity. Qed.

Lemma parse_part_closing (formData : list (string * JsValue Num)) :
  Multipart.parse_part formData CLOSING = formData.
Proof. reflexivity. Qed.

(** The pieces of a two-field body whose delimiters are the only
    occurrences of the boundary marker. *)
Lemma split_two_field_body (boundary name email : string) :
  occurrences (two_field_body boundary name email) (boundary_marker boundary) =
    delimiter_positions boundary name email ->
  split (two_field_body boundary name email) (boundary_marker boundary) =
    [ ""; form_part "name" name; form_part "email" email; CLOSING ].
Proof.
  intros Hocc.
  set (M := boundary_marker boundary) in *.
  set (P1 := form_part "name" name) in *.
  set (P2 := form_part "email" email) in *.
  set (body := two_field_body boundary name email) in *.
  assert (HM : (2 <= String.length M)%nat) by (subst M; cbn; lia).
  assert (Hsep : M <> "") by (subst M; discriminate).
  assert (Hlen : String.length body =
                 (String.length M + String.length P1 + String.length M +
                  String.length P2 + String.length M + String.length CLOSING)%nat).
  { subst body. unfold two_field_body. fold M P1 P2.
    rewrite !append_length. lia. }
  assert (Hfree : forall a b j,
             body = a ++ b ->
             (String.length a + j <= String.length body)%nat ->
             ~ In (String.length a + j)%nat (delimiter_positions boundary name email) ->
             startsWith (drop j b) M = false).
  { intros a b j Hab Hle Hnot.
    destruct (startsWith (drop j b) M) eqn:E; [|reflexivity].
    exfalso. apply Hnot. rewrite <- Hocc. apply occurrences_spec.
    split; [assumption|]. rewrite Hab, drop_app. exact E. }
  unfold delimiter_positions in Hfree. fold M P1 P2 in Hfree. cbn [In] in Hfree.
  replace (split body M) with (split_scan M body O)
    by (subst M; reflexivity).
  change body with ("" ++ M ++ P1 ++ M ++ P2 ++ M ++ CLOSING).
  rewrite split_scan_first; [|assumption|cbn; intros; lia].
  rewrite split_scan_first; [|assumption|].
  2: { intros j Hj. apply (Hfree M _ j); [reflexivity | lia | lia]. }
  rewrite split_scan_first; [|assumption|].
  2: { intros j Hj. apply (Hfree (M ++ P1 ++ M) _ j).
       - subst body. unfold two_field_body. fold M P1 P2. now rewrite !append_assoc.
       - rewrite !append_length. lia.
       - rewrite !append_length. lia. }
  rewrite split_scan_none; [reflexivity|].
  intros j Hj. apply (Hfree (M ++ P1 ++ M ++ P2 ++ M) _ j).
  - subst body. unfold two_field_body. fold M P1 P2. now rewrite !append_assoc.
  - rewrite !append_length. lia.
  - rewrite !append_length. lia.
Qed.

Lemma includes_false_drop (s sub : string) (j : nat) :
  includes s sub = false -> startsWith (drop j s) sub = false.
Proof.
  revert j. induction s as [|c s IH]; intros j H; cbn [includes] in H.
  - destruct (startsWith "" sub) eqn:E; [discriminate|]. now destruct j.
  - destruct (startsWith (String c s) sub) eqn:E; [discriminate|].
    destruct j as [|j]; [exact E | now apply IH].
Qed.

(** The dispatch of the multipart handler on a plain boundary. *)
Lemma parseFormData_multipart_boundary
    (JSON_parse : string -> Result (JsValue Num))
    (URLSearchParams_get : option string -> string -> option string)
    (event : Event.t) (boundary body : string) :
  Event.headers event !! "content-type" = Some (multipart_content_type boundary) ->
  Event.body event = Some body ->
  plain_boundary boundary = true ->
  parseFormData_multipart Num JSON_parse URLSearchParams_get event =
    ok (Multipart.parseMultipartFormData body boundary).
Proof.
  intros Hh Hb Hplain. unfold plain_boundary in Hplain.
  apply andb_prop in Hplain as [Hplain Hsep].
  apply andb_prop in Hplain as [Hplain Hurl].
  apply andb_prop in Hplain as [Hne Hjson].
  apply negb_true_iff in Hsep, Hurl, Hjson, Hne.
  unfold parseFormData_multipart. rewrite Hh, Hb. cbv [default from_option id].
  replace (includes (multipart_content_type boundary) "application/json")
    with (includes boundary "application/json") by reflexivity.
  rewrite Hjson.
  replace (includes (multipart_content_type boundary) "application/x-www-form-urlencoded")
    with (includes boundary "application/x-www-form-urlencoded") by reflexivity.
  rewrite Hurl.
  replace (includes (multipart_content_type boundary) "multipart/form-data")
    with true by reflexivity.
  replace (split (multipart_content_type boundary) "boundary=")
    with ["multipart/form-data; "; boundary].
  - cbn [nth_error]. destruct boundary; [discriminate Hne | reflexivity].
  - symmetry. change (split (multipart_content_type boundary) "boundary=")
      with (split_scan "boundary=" ("multipart/form-data; " ++ "boundary=" ++ boundary) O).
    rewrite split_scan_first; [|discriminate|].
    + rewrite split_scan_none; [reflexivity|].
      intros j _. now apply includes_false_drop.
    + intros j Hj. cbn in Hj.
      do 21 (destruct j as [|j]; [reflexivity|]). lia.
Qed.

(** C5, as amended.  For a body made of the parts of the fields name and
    email, delimited by the boundary of the request (the marker occurs at
    the three delimiters only), the parser returns the object that binds
    each field whose text is not empty to that text, trimmed; a field whose
    text is empty is left out.  The handler obtains the same object when
    the content type announces that boundary. *)
Theorem parseMultipartFormData_two_fields (boundary name email : string) :
  occurrences (two_field_body boundary name email) (boundary_marker boundary) =
    delimiter_positions boundary name email ->
  Multipart.parseMultipartFormData (two_field_body boundary name email) boundary =
    JObject (Num:=Num) (bound_text "name" name ++ bound_text "email" email)%list /\
  forall (JSON_parse : string -> Result (JsValue Num))
         (URLSearchParams_get : option string -> string -> option string)
         (event : Event.t),
    Event.headers event !! "content-type" = Some (multipart_content_type boundary) ->
    Event.body event = Some (two_field_body boundary name email) ->
    plain_boundary boundary = true ->
    parseFormData_multipart Num JSON_parse URLSearchParams_get event =
      ok (JObject (bound_text "name" name ++ bound_text "email" email)%list).
Proof.
  intros Hocc.
  assert (Hparse :
    Multipart.parseMultipartFormData (two_field_body boundary name email) boundary =
    JObject (Num:=Num) (bound_text "name" name ++ bound_text "email" email)%list).
  { unfold Multipart.parseMultipartFormData.
    fold (boundary_marker boundary). rewrite split_two_field_body by assumption.
    cbn [fold_left]. rewrite parse_part_empty, parse_part_closing.
    rewrite !parse_part_form_part by auto.
    destruct name, email; reflexivity. }
  split; [exact Hparse|].
  intros JSON_parse URLSearchParams_get event Hh Hb Hplain.
  rewrite (parseFormData_multipart_boundary _ _ event boundary _ Hh Hb Hplain).
  now rewrite Hparse.
Qed.

End MultipartProofs.

(** ** Concrete runs *)

(** The submission of Jo passes validation on the concrete platform. *)
Lemma validateFormData_reports_every_rule_jo :
  Sample.isEmail "jo@x.com" = true /\
  Sample.isMobilePhone "+15555550123" "any" false = true /\
  validateFormData Z Sample.num_truthy Sample.isEmail Sample.isMobilePhone
    jo_submission = ok [].
Proof.
  split; [reflexivity|]. split; [reflexivity|].
  apply (validateFormData_reports_every_rule
           Sample.num_truthy Sample.isEmail Sample.isMobilePhone);
    reflexivity.
Defined.

(** A one-letter name is reported. *)
Lemma validateFormData_short_name_J :
  let fields : list (string * JsValue Z) :=
    [ ("name", JString "J"); ("email", JString "j@x.com") ] in
  is_form_submission (JObject fields) = true /\
  name_missing_or_short (field fields "name") /\
  exists errs,
    validateFormData Z Sample.num_truthy Sample.isEmail Sample.isMobilePhone
      (JObject fields) = ok errs /\ In NAME_ERROR errs.
Proof.
  cbv zeta. split; [reflexivity|]. split; [cbn; lia|].
  apply (validateFormData_short_name
           Sample.num_truthy Sample.isEmail Sample.isMobilePhone);
    [reflexivity | cbn; lia].
Defined.

(** An empty [needs] reads Not specified. *)
Lemma buildEmailBody_needs_empty :
  let fields : list (string * JsValue Z) :=
    [ ("name", JString "Jo"); ("email", JString "jo@x.com");
      ("phone", JString "+15555550123"); ("needs", JString "") ] in
  ToString Z Sample.num_toString (field fields "name") = ok "Jo" /\
  ToString Z Sample.num_toString (field fields "email") = ok "jo@x.com" /\
  ToString Z Sample.num_toString (field fields "phone") = ok "+15555550123" /\
  (truthy Z Sample.num_truthy (field fields "needs") = false ->
     buildEmailBody Z Sample.num_truthy Sample.num_toString (JObject fields) =
       ok (email_body_text "Jo" "jo@x.com" "+15555550123" "Not specified") /\
     buildEmailBody Z Sample.num_truthy Sample.num_toString
       (JObject (delete_property fields "needs")) =
     buildEmailBody Z Sample.num_truthy Sample.num_toString (JObject fields)) /\
  (forall s, field fields "needs" = JString s -> s <> "" ->
     buildEmailBody Z Sample.num_truthy Sample.num_toString (JObject fields) =
       ok (email_body_text "Jo" "jo@x.com" "+15555550123" s)).
Proof.
  cbv zeta. split; [reflexivity|]. split; [reflexivity|]. split; [reflexivity|].
  apply (buildEmailBody_needs Sample.num_truthy Sample.num_toString); reflexivity.
Defined.

(** The subject at noon on 3 November 2025. *)
Lemma buildEmailSubject_noon :
  valid_date Sample.noon /\
  1000 <= getFullYear Sample.noon <= 9999 /\
  buildEmailSubject Sample.noon = SUBJECT_PREFIX ++ "031120251200" /\
  String.length (DDMMYYYYHHmm Sample.noon) = 12%nat.
Proof.
  assert (Hv : valid_date Sample.noon) by (unfold valid_date; cbn; lia).
  assert (Hy : 1000 <= getFullYear Sample.noon <= 9999) by (cbn; lia).
  split; [exact Hv|]. split; [exact Hy|].
  destruct (buildEmailSubject_four_digit_year Sample.noon Hv Hy) as (Hs & Hl & _).
  split; [exact Hs | exact Hl].
Defined.

(** The first minute of the year 10000 is a valid date whose token has
    thirteen digits. *)
Example timestamp_year_10000 :
  timestamp new_year_10000 = "0101100000000".
Proof. reflexivity. Qed.

(** Without credentials and outside debug mode the answer is the fixed
    error object. *)
Lemma handler_missing_credentials_empty_env :
  let event := Sample.post_json Sample.jo_json in
  Event.httpMethod event = "POST" /\
  credentials_present ∅ = false /\
  let (response, sent) := Sample.handler Sample.nodemailer_accepting ∅ Sample.noon event in
  Response.statusCode response = 500 /\
  sent = [] /\
  Response.body response =
    if debug_mode ∅ then INTERNAL_ERROR_BODY_WITH MISSING_ENV_MESSAGE
    else INTERNAL_ERROR_BODY.
Proof.
  cbv zeta. split; [reflexivity|]. split; [reflexivity|].
  apply (handler_missing_credentials Z Sample.num_truthy Sample.num_toString
           Sample.isEmail Sample.isMobilePhone Sample.JSON_parse
           Sample.URLSearchParams_get Sample.nodemailer_accepting ∅
           Sample.noon (Sample.post_json Sample.jo_json));
    reflexivity.
Defined.

(** C1 fails as stated: in debug mode the body of the 500 response is not
    the object with [status] and [message] only, it also names the missing
    environment variables. *)
Lemma handler_missing_credentials_debug_body :
  ~ (forall (env : gmap string string) (now : Date) (event : Event.t),
       Event.httpMethod event = "POST" ->
       env !! "MAIL_USERNAME" = None \/ env !! "MAIL_PASSWORD" = None ->
       let (response, sent) := Sample.handler Sample.nodemailer_accepting env now event in
       Response.statusCode response = 500 /\
       Response.body response = INTERNAL_ERROR_BODY /\
       sent = []).
Proof.
  intros H.
  specialize (H Sample.env_debug_only Sample.noon (Sample.post_json Sample.jo_json)
                eq_refl (or_introl eq_refl)).
  vm_compute in H. destruct H as (_ & Hbody & _). discriminate Hbody.
Qed.

(** An empty JSON body with the credentials set, outside debug mode. *)
Lemma handler_malformed_json_empty_body :
  let event := Sample.post_json "" in
  Event.httpMethod event = "POST" /\
  Event.headers event !! "content-type" = Some "application/json" /\
  includes "application/json" "application/json" = true /\
  Sample.JSON_parse (default "null" (Event.body event)) =
    inl (mkError "Unexpected end of JSON input") /\
  let (response, sent) :=
    Sample.handler Sample.nodemailer_accepting Sample.env_ready Sample.noon event in
  Response.statusCode response = 500 /\
  Response.headers response = CORS_JSON_HEADERS /\
  sent = [] /\
  Response.body response =
    if debug_mode Sample.env_ready
    then INTERNAL_ERROR_BODY_WITH
           (if credentials_present Sample.env_ready
            then "Unexpected end of JSON input" else MISSING_ENV_MESSAGE)
    else INTERNAL_ERROR_BODY.
Proof.
  cbv zeta. split; [reflexivity|]. split; [reflexivity|].
  split; [reflexivity|]. split; [reflexivity|].
  apply (handler_malformed_json Z Sample.num_truthy Sample.num_toString
           Sample.isEmail Sample.isMobilePhone Sample.JSON_parse
           Sample.URLSearchParams_get Sample.nodemailer_accepting Sample.env_ready
           Sample.noon (Sample.post_json "") "application/json"
           (mkError "Unexpected end of JSON input"));
    reflexivity.
Defined.

(** C4 fails as stated: in debug mode the body of the 500 response is not
    the fixed error object, it carries the message of the parse error. *)
Lemma handler_malformed_json_debug_body :
  ~ (forall (env : gmap string string) (now : Date) (body : string) (error : Error),
       Sample.JSON_parse body = inl error ->
       let (response, sent) :=
         Sample.handler Sample.nodemailer_accepting env now (Sample.post_json body) in
       Response.statusCode response = 500 /\
       Response.body response = INTERNAL_ERROR_BODY /\
       sent = []).
Proof.
  intros H.
  specialize (H Sample.env_ready_debug Sample.noon ""
                (mkError "Unexpected end of JSON input") eq_refl).
  vm_compute in H. destruct H as (_ & Hbody & _). discriminate Hbody.
Qed.

(** A GET request is answered 405 with the JSON headers. *)
Lemma handler_response_headers_get :
  let event := {| Event.httpMethod := "GET"; Event.headers := ∅; Event.body := None |} in
  Event.httpMethod event <> "OPTIONS" /\
  let response :=
    (Sample.handler Sample.nodemailer_accepting Sample.env_ready Sample.noon event).1 in
  Response.headers response !! "Content-Type" = Some "application/json" /\
  Response.headers response !! "Access-Control-Allow-Origin" = Some "*" /\
  In (Response.statusCode response) ALLOWED_STATUS.
Proof.
  cbv zeta. split; [discriminate|].
  apply (handler_response_headers Z Sample.num_truthy Sample.num_toString
           Sample.isEmail Sample.isMobilePhone Sample.JSON_parse
           Sample.URLSearchParams_get Sample.nodemailer_accepting Sample.env_ready
           Sample.noon
           {| Event.httpMethod := "GET"; Event.headers := ∅; Event.body := None |}).
  discriminate.
Defined.

(** Two failing runs outside debug mode: a parse error and a transport
    error give the same body. *)
Lemma error_detail_parse_and_transport :
  let event := Sample.post_json "" in
  let event' := Sample.post_json Sample.jo_json in
  let response :=
    (Sample.handler Sample.nodemailer_accepting Sample.env_ready Sample.noon event).1 in
  let response' :=
    (Sample.handler (Sample.nodemailer_failing "Connection timeout") Sample.env_ready
       Sample.noon event').1 in
  Response.statusCode response = 500 /\
  Response.body response =
    (if debug_mode Sample.env_ready
     then INTERNAL_ERROR_BODY_WITH "Unexpected end of JSON input"
     else INTERNAL_ERROR_BODY) /\
  includes (Response.body response) ERROR_KEY = debug_mode Sample.env_ready /\
  (debug_mode Sample.env_ready = false -> debug_mode Sample.env_ready = false ->
   Response.body response = Response.body response').
Proof.
  cbv zeta.
  apply (error_detail_only_in_debug_mode Z Sample.num_truthy Sample.num_toString
           Sample.isEmail Sample.isMobilePhone Sample.JSON_parse
           Sample.URLSearchParams_get
           Sample.nodemailer_accepting (Sample.nodemailer_failing "Connection timeout")
           Sample.env_ready Sample.env_ready Sample.noon Sample.noon
           (Sample.post_json "") (Sample.post_json Sample.jo_json)
           (mkError "Unexpected end of JSON input") (mkError "Connection timeout")
           [] [ {| mail_from := Some "forms@example.com";
                   mail_to := "default@example.com";
                   mail_subject := buildEmailSubject Sample.noon;
                   mail_text := email_body_text "Jo" "jo@x.com" "+15555550123"
                                  "Not specified" |} ]);
    reflexivity.
Defined.

(** A two-field body with boundary X. *)
Lemma parseMultipartFormData_two_fields_X :
  occurrences (two_field_body "X" "Jo" " jo@x.com ") (boundary_marker "X") =
    delimiter_positions "X" "Jo" " jo@x.com " /\
  Multipart.parseMultipartFormData (two_field_body "X" "Jo" " jo@x.com ") "X" =
    JObject (Num:=Z) [ ("name", JString "Jo"); ("email", JString "jo@x.com") ].
Proof.
  split; [reflexivity|].
  apply (parseMultipartFormData_two_fields (Num:=Z) "X" "Jo" " jo@x.com ").
  reflexivity.
Defined.

(** C5 fails as stated: a part whose text is empty leaves its field
    unbound. *)
Lemma parseMultipartFormData_empty_text :
  ~ (forall boundary name email : string,
       occurrences (two_field_body boundary name email) (boundary_marker boundary) =
         delimiter_positions boundary name email ->
       let formData : JsValue Z :=
         Multipart.parseMultipartFormData (two_field_body boundary name email) boundary in
       object_field formData "name" = JString (trim name) /\
       object_field formData "email" = JString (trim email)).
Proof.
  intros H. specialize (H "X" "Jo" "" eq_refl).
  vm_compute in H. destruct H as [_ Hemail]. discriminate Hemail.
Qed.


(** * Further properties of the handlers *)

(** ** Outcomes of a request *)

Section HandlerOutcomes.

Variable Num : Type.
Variable num_truthy : Num -> bool.
Variable num_toString : Num -> string.
Variable isEmail : string -> bool.
Variable isMobilePhone : string -> string -> bool -> bool.
Variable JSON_parse : string -> Result (JsValue Num).
Variable URLSearchParams_get : option string -> string -> option string.
Variable nodemailer_createTransporter : TransportConfig -> Result Transporter.
Variable env : gmap string string.

Local Abbreviation run_try parse :=
  (try_block Num num_truthy num_toString isEmail isMobilePhone
     nodemailer_createTransporter env parse).
Local Abbreviation run_handle parse :=
  (handle Num num_truthy num_toString isEmail isMobilePhone
     nodemailer_createTransporter env parse).
Local Abbreviation on_error := (error_response Num num_toString env).
Local Abbreviation validate := (validateFormData Num num_truthy isEmail isMobilePhone).
Local Abbreviation body_of := (buildEmailBody Num num_truthy num_toString).
Local Abbreviation transporter := (createTransporter nodemailer_createTransporter env).
Local Abbreviation parse_form := (parseFormData Num JSON_parse URLSearchParams_get).
Local Abbreviation parse_multipart :=
  (parseFormData_multipart Num JSON_parse URLSearchParams_get).
Local Abbreviation the_handler :=
  (handler Num num_truthy num_toString isEmail isMobilePhone JSON_parse
     URLSearchParams_get nodemailer_createTransporter env).
Local Abbreviation the_handler_multipart :=
  (handler_multipart Num num_truthy num_toString isEmail isMobilePhone JSON_parse
     URLSearchParams_get nodemailer_createTransporter env).
Local Abbreviation the_handler_first :=
  (handler_first Num num_truthy num_toString isEmail isMobilePhone JSON_parse
     URLSearchParams_get nodemailer_createTransporter env).

(** The outcome of the [try] block once the credentials are there, stage
    by stage. *)
Lemma try_block_outcome parse (now : Date) (event : Event.t) :
  credentials_present env = true ->
  run_try parse now event [] =
    match parse event with
    | inl e => (inl e, [])
    | inr formData =>
        match validate formData with
        | inl e => (inl e, [])
        | inr [] =>
            match transporter with
            | inl e => (inl e, [])
            | inr t =>
                match body_of formData with
                | inl e => (inl e, [])
                | inr text =>
                    let m := mail_options DEFAULT_RECIPIENT env now text in
                    match sendMail t m with
                    | inl e => (inl e, [m])
                    | inr _ => (inr (success_response Num num_toString), [m])
                    end
                end
            end
        | inr errors => (inr (validation_response Num num_toString errors), [])
        end
    end.
Proof.
  intros Hc. rewrite try_block_credentials by assumption.
  unfold ebind, elift, eret, await_sendMail.
  destruct (parse event) as [e|formData]; [reflexivity|].
  destruct (validate formData) as [e|[|err errs]]; [reflexivity| |reflexivity].
  cbn [length Nat.ltb Nat.leb].
  destruct transporter as [e|t]; [reflexivity|].
  destruct (body_of formData) as [e|text]; [reflexivity|].
  unfold mail_options, DEFAULT_RECIPIENT. cbv zeta.
  destruct (sendMail t _); reflexivity.
Qed.

Lemma stringify_strings (l : list string) :
  JSON_stringify Num num_toString (JArray (map JString l)) =
    Some ("[" ++ join_with "," (map JSON_quote l) ++ "]").
Proof.
  cbn [JSON_stringify]. do 4 f_equal.
  induction l as [|x l IH]; [reflexivity|].
  cbn [map]. cbn [JSON_stringify default from_option id]. f_equal. exact IH.
Qed.

Lemma validation_response_body (errors : list string) :
  Response.body (validation_response Num num_toString errors) = VALIDATION_BODY errors.
Proof.
  assert (H : forall v sv,
             JSON_stringify Num num_toString v = Some sv ->
             stringify_object Num num_toString
               [ ("status", JString "error"); ("message", JString "Validation errors");
                 ("errors", v) ] =
             "{" ++ JSON_quote "status" ++ ":" ++ JSON_quote "error" ++ "," ++
             JSON_quote "message" ++ ":" ++ JSON_quote "Validation errors" ++ "," ++
             JSON_quote "errors" ++ ":" ++ sv ++ "}").
  { intros v sv Hv. unfold stringify_object. cbn [JSON_stringify].
    rewrite Hv. reflexivity. }
  unfold validation_response, json_response, VALIDATION_BODY. cbn [Response.body].
  rewrite (H _ _ (stringify_strings errors)).
  rewrite !append_assoc. reflexivity.
Qed.

Lemma handle_with_credentials parse (now : Date) (event : Event.t) :
  Event.httpMethod event = "POST" ->
  credentials_present env = true ->
  run_handle parse now event =
    match parse event with
    | inl e => (on_error e, [])
    | inr formData =>
        match validate formData with
        | inl e => (on_error e, [])
        | inr [] =>
            match transporter with
            | inl e => (on_error e, [])
            | inr t =>
                match body_of formData with
                | inl e => (on_error e, [])
                | inr text =>
                    let m := mail_options DEFAULT_RECIPIENT env now text in
                    match sendMail t m with
                    | inl e => (on_error e, [m])
                    | inr _ => (success_response Num num_toString, [m])
                    end
                end
            end
        | inr errors => (validation_response Num num_toString errors, [])
        end
    end.
Proof.
  intros Hm Hc. rewrite handle_post by assumption.
  rewrite try_block_outcome by assumption.
  destruct (parse event) as [e|formData]; [reflexivity|].
  destruct (validate formData) as [e|[|err errs]]; [reflexivity| |reflexivity].
  destruct transporter as [e|t]; [reflexivity|].
  destruct (body_of formData) as [e|text]; [reflexivity|].
  cbv zeta. destruct (sendMail t _); reflexivity.
Qed.

(** X1. A preflight request (method OPTIONS) is answered by each of the
    three handlers with status 200, an empty body and the three CORS headers
    (no Content-Type), whatever the environment, the headers and the body of
    the request; no message is handed to the mail transport. *)
Theorem preflight_ignores_everything (now : Date) (event : Event.t) :
  Event.httpMethod event = "OPTIONS" ->
  the_handler now event = (preflight_response, []) /\
  the_handler_multipart now event = (preflight_response, []) /\
  the_handler_first now event = (preflight_response, []) /\
  Response.statusCode preflight_response = 200 /\
  Response.body preflight_response = "" /\
  Response.headers preflight_response !! "Access-Control-Allow-Origin" = Some "*" /\
  Response.headers preflight_response !! "Access-Control-Allow-Methods" =
    Some "GET, POST, PUT, DELETE, OPTIONS" /\
  Response.headers preflight_response !! "Access-Control-Allow-Headers" =
    Some "Content-Type, Authorization" /\
  Response.headers preflight_response !! "Content-Type" = None.
Proof.
  intros Hm. unfold handler, handler_multipart, handle, handler_first.
  rewrite Hm. repeat split.
Qed.

(** X2. A request whose method is neither OPTIONS nor POST is answered 405
    with the JSON headers and the fixed body, before the credentials are
    looked at and without any message handed to the mail transport. *)
Theorem other_methods_not_allowed (now : Date) (event : Event.t) :
  Event.httpMethod event <> "OPTIONS" ->
  Event.httpMethod event <> "POST" ->
  let (response, sent) := the_handler now event in
  Response.statusCode response = 405 /\
  Response.headers response = CORS_JSON_HEADERS /\
  Response.body response = METHOD_NOT_ALLOWED_BODY /\
  sent = [] /\
  the_handler_multipart now event = (response, sent) /\
  the_handler_first now event = (response, sent).
Proof.
  intros Ho Hp. unfold handler, handler_multipart, handle, handler_first.
  destruct (String.eqb_spec (Event.httpMethod event) "OPTIONS"); [contradiction|].
  destruct (String.eqb_spec (Event.httpMethod event) "POST"); [contradiction|].
  cbn [negb]. repeat split.
Qed.

(** X3. A POST whose body parses to a submission with validation errors is
    answered 400 with the JSON headers and a body listing exactly those
    errors, in order; no transport is created and no message is sent. *)
Theorem validation_errors_answered_400 (now : Date) (event : Event.t)
    (formData : JsValue Num) (error : string) (errors : list string) :
  Event.httpMethod event = "POST" ->
  credentials_present env = true ->
  parse_form event = ok formData ->
  validate formData = ok (error :: errors) ->
  let (response, sent) := the_handler now event in
  Response.statusCode response = 400 /\
  Response.headers response = CORS_JSON_HEADERS /\
  Response.body response = VALIDATION_BODY (error :: errors) /\
  sent = [].
Proof.
  intros Hm Hc Hp Hv. unfold handler.
  rewrite handle_with_credentials by assumption.
  unfold ok in *. rewrite Hp. cbv beta iota. rewrite Hv.
  rewrite validation_response_body. repeat split.
Qed.

(** X4. A POST with the credentials set, a body that parses and passes
    validation, a transport that is created and accepts the message, is
    answered 200 with the success body, and exactly one message was sent:
    from the configured account, to the configured recipient or the default
    one, with the subject of the moment and the text built from the
    submission. *)
Theorem valid_submission_sent_once (now : Date) (event : Event.t)
    (formData : JsValue Num) (t : Transporter) (text : string) (info : SendInfo) :
  Event.httpMethod event = "POST" ->
  credentials_present env = true ->
  parse_form event = ok formData ->
  validate formData = ok [] ->
  transporter = ok t ->
  body_of formData = ok text ->
  sendMail t (mail_options DEFAULT_RECIPIENT env now text) = ok info ->
  let (response, sent) := the_handler now event in
  Response.statusCode response = 200 /\
  Response.headers response = CORS_JSON_HEADERS /\
  Response.body response = SUCCESS_BODY /\
  sent = [mail_options DEFAULT_RECIPIENT env now text].
Proof.
  intros Hm Hc Hp Hv Ht Hb Hs. unfold handler.
  rewrite handle_with_credentials by assumption.
  unfold ok in *. rewrite Hp. cbv beta iota. rewrite Hv, Ht. cbv beta iota.
  rewrite Hb. cbv beta iota zeta. rewrite Hs. repeat split.
Qed.

(** X5. When the transport rejects the message, the answer is the 500
    response built from that error, and the message was handed over exactly
    once: there is no second attempt. *)
Theorem rejected_message_not_retried (now : Date) (event : Event.t)
    (formData : JsValue Num) (t : Transporter) (text : string) (error : Error) :
  Event.httpMethod event = "POST" ->
  credentials_present env = true ->
  parse_form event = ok formData ->
  validate formData = ok [] ->
  transporter = ok t ->
  body_of formData = ok text ->
  sendMail t (mail_options DEFAULT_RECIPIENT env now text) = throw error ->
  the_handler now event = (on_error error, [mail_options DEFAULT_RECIPIENT env now text]) /\
  Response.statusCode (on_error error) = 500.
Proof.
  intros Hm Hc Hp Hv Ht Hb Hs. unfold handler.
  rewrite handle_with_credentials by assumption.
  unfold ok, throw in *. rewrite Hp. cbv beta iota. rewrite Hv, Ht. cbv beta iota.
  rewrite Hb. cbv beta iota zeta. rewrite Hs. split; reflexivity.
Qed.

(** X6. When the mail package fails to create the transport, a valid
    submission is answered with the 500 response built from that error and
    nothing is sent. *)
Theorem transport_creation_failure (now : Date) (event : Event.t)
    (formData : JsValue Num) (error : Error) :
  Event.httpMethod event = "POST" ->
  credentials_present env = true ->
  parse_form event = ok formData ->
  validate formData = ok [] ->
  transporter = throw error ->
  the_handler now event = (on_error error, []) /\
  Response.statusCode (on_error error) = 500.
Proof.
  intros Hm Hc Hp Hv Ht. unfold handler.
  rewrite handle_with_credentials by assumption.
  unfold ok, throw in *. rewrite Hp. cbv beta iota. rewrite Hv, Ht.
  split; reflexivity.
Qed.

(** X7. A message reaches the mail transport only for a POST with both
    credentials set whose body parsed and passed validation without any
    error; the message is then the one built from that submission, its
    sender is the configured account and its recipient is not empty. *)
Theorem message_sent_only_when_valid (now : Date) (event : Event.t)
    (response : Response.t) (m : MailOptions) (sent : Outbox) :
  the_handler now event = (response, m :: sent) ->
  Event.httpMethod event = "POST" /\
  credentials_present env = true /\
  sent = [] /\
  exists formData text,
    parse_form event = ok formData /\
    validate formData = ok [] /\
    body_of formData = ok text /\
    m = mail_options DEFAULT_RECIPIENT env now text /\
    mail_from m = env !! "MAIL_USERNAME" /\
    mail_to m <> "".
Proof.
  unfold handler, handle.
  destruct (String.eqb_spec (Event.httpMethod event) "OPTIONS"); [discriminate|].
  destruct (String.eqb_spec (Event.httpMethod event) "POST") as [Hm|]; [|discriminate].
  cbn [negb]. destruct (credentials_present env) eqn:Hc.
  2: { rewrite try_block_no_credentials by assumption. discriminate. }
  rewrite try_block_outcome by assumption.
  destruct (parse_form event) as [e|formData] eqn:Hp; [discriminate|].
  destruct (validate formData) as [e|[|err errs]] eqn:Hv; [discriminate| |discriminate].
  destruct transporter as [e|t]; [discriminate|].
  destruct (body_of formData) as [e|text] eqn:Hb; [discriminate|].
  cbv zeta. intros H.
  assert (Hsent : m :: sent = [mail_options DEFAULT_RECIPIENT env now text]).
  { destruct (sendMail t (mail_options DEFAULT_RECIPIENT env now text));
      injection H as _ H; congruence. }
  injection Hsent as -> ->.
  split; [assumption|]. split; [reflexivity|]. split; [reflexivity|].
  exists formData, text.
  do 5 (split; [first [reflexivity | assumption]|]).
  unfold mail_options, DEFAULT_RECIPIENT. cbn [mail_to].
  destruct (env !! "EMAIL_TO") as [[|c a]|]; discriminate.
Qed.

(** X8. A 200 answer to a request that is not a preflight means that the
    transport was created, was handed exactly one message and accepted
    it. *)
Theorem success_means_accepted (now : Date) (event : Event.t)
    (response : Response.t) (sent : Outbox) :
  Event.httpMethod event <> "OPTIONS" ->
  the_handler now event = (response, sent) ->
  Response.statusCode response = 200 ->
  exists t m info,
    transporter = ok t /\ sent = [m] /\ sendMail t m = ok info /\
    Response.body response = SUCCESS_BODY.
Proof.
  intros Ho. unfold handler, handle.
  destruct (String.eqb_spec (Event.httpMethod event) "OPTIONS"); [contradiction|].
  destruct (String.eqb_spec (Event.httpMethod event) "POST") as [Hm|].
  2: { cbn [negb]. intros [= <- <-]. discriminate. }
  cbn [negb]. destruct (credentials_present env) eqn:Hc.
  2: { rewrite try_block_no_credentials by assumption. intros [= <- <-]. discriminate. }
  rewrite try_block_outcome by assumption.
  destruct (parse_form event) as [e|formData]; [intros [= <- <-]; discriminate|].
  destruct (validate formData) as [e|[|err errs]];
    [intros [= <- <-]; discriminate| |intros [= <- <-]; discriminate].
  destruct transporter as [e|t] eqn:Ht; [intros [= <- <-]; discriminate|].
  destruct (body_of formData) as [e|text]; [intros [= <- <-]; discriminate|].
  cbv zeta. destruct (sendMail t _) as [e|info] eqn:Hs; intros [= <- <-]; [discriminate|].
  intros _. exists t, (mail_options DEFAULT_RECIPIENT env now text), info.
  split; [reflexivity|]. split; [reflexivity|]. split; [assumption | reflexivity].
Qed.

End HandlerOutcomes.

(** ** Edge behaviour of the validator *)

Section ValidatorEdgeProofs.

Context {Num : Type}.
Variable num_truthy : Num -> bool.
Variable num_toString : Num -> string.
Variable isEmail : string -> bool.
Variable isMobilePhone : string -> string -> bool -> bool.

Local Abbreviation validate := (validateFormData Num num_truthy isEmail isMobilePhone).
Local Abbreviation body_of := (buildEmailBody Num num_truthy num_toString).
Local Abbreviation is_unusable := (unusable num_truthy).

Lemma name_step_throws (v : JsValue Num) (errors : list string) :
  match (if negb (truthy Num num_truthy v) then ok (push errors NAME_ERROR)
         else rbind (call_trim Num "data.name" v)
                (fun t => if (String.length t <? 2)%nat then ok (push errors NAME_ERROR)
                          else ok errors)) with
  | inl _ => is_unusable v = true
  | inr _ => is_unusable v = false
  end.
Proof.
  unfold unusable.
  destruct v as [| |b|n|s|l|fs]; cbn; try reflexivity.
  - destruct b; reflexivity.
  - destruct (num_truthy n); reflexivity.
  - repeat (match goal with
            | |- context [if ?c then _ else _] =>
                match type of c with bool => destruct c end
            end; cbn); rewrite ?andb_false_r; reflexivity.
Qed.

Lemma check_step_throws (v : JsValue Num) (check : string -> bool) (e : string)
    (errors : list string) :
  match (if negb (truthy Num num_truthy v) then ok (push errors e)
         else rbind (assertString Num v)
                (fun s => if negb (check s) then ok (push errors e) else ok errors)) with
  | inl _ => is_unusable v = true
  | inr _ => is_unusable v = false
  end.
Proof.
  unfold unusable.
  destruct v as [| |b|n|s|l|fs]; cbn; try reflexivity.
  - destruct b; reflexivity.
  - destruct (num_truthy n); reflexivity.
  - repeat (match goal with
            | |- context [if ?c then _ else _] =>
                match type of c with bool => destruct c end
            end; cbn); rewrite ?andb_false_r; reflexivity.
Qed.

(** The validator throws on exactly the inputs [validator_throws]
    describes. *)
Lemma validate_throws_cases (data : JsValue Num) :
  match validate data with
  | inl _ => validator_throws num_truthy data = true
  | inr _ => validator_throws num_truthy data = false
  end.
Proof.
  destruct data as [| |b|n|s|l|fields]; try reflexivity.
  unfold validateFormData, validator_throws. rewrite !get_property_object.
  cbn [rbind ok].
  pose proof (name_step_throws (field fields "name") []) as Hn.
  destruct (if negb (truthy Num num_truthy (field fields "name")) then _ else _)
    as [en|e1]; cbn [rbind]; [now rewrite Hn|].
  rewrite Hn. cbn [orb].
  pose proof (check_step_throws (field fields "email") isEmail EMAIL_ERROR e1) as He.
  destruct (if negb (truthy Num num_truthy (field fields "email")) then _ else _)
    as [ee|e2]; cbn [rbind]; [now rewrite He|].
  rewrite He. cbn [orb].
  pose proof (check_step_throws (field fields "phone")
                (fun s => isMobilePhone s "any" false) PHONE_ERROR e2) as Hp.
  destruct (if negb (truthy Num num_truthy (field fields "phone")) then _ else _)
    as [ep|e3]; cbn [rbind]; exact Hp.
Qed.

(** X9. The validator throws instead of returning exactly when its input
    is [null] or [undefined], or is an object one of whose name, email and
    phone is truthy without being a string (a number, [true], an array, an
    object); on every other input it returns a list. *)
Theorem validateFormData_throws_iff (data : JsValue Num) :
  (exists e, validate data = throw e) <-> validator_throws num_truthy data = true.
Proof.
  pose proof (validate_throws_cases data) as H.
  destruct (validate data) as [e|errs]; split.
  - intros _. exact H.
  - intros _. now exists e.
  - intros [e He]. discriminate He.
  - intros Ht. rewrite Ht in H. discriminate H.
Qed.

Lemma name_step_rule (v : JsValue Num) (errors r : list string) :
  (if negb (truthy Num num_truthy v) then ok (push errors NAME_ERROR)
   else rbind (call_trim Num "data.name" v)
          (fun t => if (String.length t <? 2)%nat then ok (push errors NAME_ERROR)
                    else ok errors)) = inr r ->
  r = (errors ++ error_unless (name_rule v) NAME_ERROR)%list.
Proof.
  unfold name_rule, error_unless, push.
  destruct v as [| |b|n|s|l|fs]; cbn [truthy negb call_trim rbind ok throw].
  1,2: now intros [= <-].
  - destruct b; cbn; [discriminate | now intros [= <-]].
  - destruct (num_truthy n); cbn; [discriminate | now intros [= <-]].
  - destruct (String.eqb_spec s "") as [-> | Hne]; cbn [negb].
    + now intros [= <-].
    + destruct (Nat.ltb_spec (String.length (trim s)) 2) as [Hlt | Hge];
        intros [= <-].
      * replace (2 <=? String.length (trim s))%nat with false
          by (symmetry; apply Nat.leb_gt; lia). reflexivity.
      * replace (2 <=? String.length (trim s))%nat with true
          by (symmetry; apply Nat.leb_le; lia). now rewrite app_nil_r.
  - discriminate.
  - discriminate.
Qed.

Lemma check_step_rule (v : JsValue Num) (check : string -> bool) (e : string)
    (errors r : list string) :
  (if negb (truthy Num num_truthy v) then ok (push errors e)
   else rbind (assertString Num v)
          (fun s => if negb (check s) then ok (push errors e) else ok errors)) = inr r ->
  r = (errors ++ error_unless
                   match v with
                   | JString s => negb (String.eqb s "") && check s
                   | _ => false
                   end e)%list.
Proof.
  unfold error_unless, push.
  destruct v as [| |b|n|s|l|fs]; cbn [truthy negb assertString rbind ok throw].
  1,2: now intros [= <-].
  - destruct b; cbn; [discriminate | now intros [= <-]].
  - destruct (num_truthy n); cbn; [discriminate | now intros [= <-]].
  - destruct (String.eqb s ""); cbn [negb andb].
    + now intros [= <-].
    + destruct (check s); cbn [negb]; intros [= <-]; [now rewrite app_nil_r | reflexivity].
  - discriminate.
  - discriminate.
Qed.

(** Whenever the validator returns on an object, the list is the one the
    three rules describe. *)
Lemma validate_object_rules (fields : list (string * JsValue Num)) (errs : list string) :
  validate (JObject fields) = inr errs ->
  errs = rule_errors isEmail isMobilePhone fields.
Proof.
  unfold validateFormData. rewrite !get_property_object. cbn [rbind ok].
  intros H.
  apply rbind_inr in H as (e1 & H1 & H).
  apply rbind_inr in H as (e2 & H2 & H).
  apply rbind_inr in H as (e3 & H3 & H).
  injection H as <-.
  apply name_step_rule in H1. cbn [app] in H1. subst e1.
  apply check_step_rule in H2. subst e2.
  apply (check_step_rule _ (fun s => isMobilePhone s "any" false)) in H3. subst e3.
  unfold rule_errors, email_rule, phone_rule. now rewrite <- app_assoc.
Qed.

Lemma all_white_space_trim (s : string) : all_white_space s = true -> trim s = "".
Proof.
  intros H. unfold trim.
  assert (Hend : trimEnd s = "").
  { induction s as [|c s IH]; [reflexivity|].
    cbn in H. apply andb_prop in H as [Hc Hs].
    cbn. rewrite (IH Hs), Hc. reflexivity. }
  now rewrite Hend.
Qed.

(** X10. A name made of white space only, however long, is reported: the
    length that counts is the one after trimming. *)
Theorem validateFormData_blank_name (fields : list (string * JsValue Num)) (s : string) :
  is_form_submission (JObject fields) = true ->
  field fields "name" = JString s ->
  all_white_space s = true ->
  exists errs, validate (JObject fields) = ok errs /\ In NAME_ERROR errs.
Proof.
  intros Hf Hn Hw. exists (rule_errors isEmail isMobilePhone fields).
  split; [now apply validate_form_submission|].
  apply rule_errors_In. rewrite Hn. unfold name_rule.
  now rewrite all_white_space_trim.
Qed.

(** X11. A submission that passes validation is an object whose name,
    email and phone are strings accepted by the three rules, and its mail
    text carries these three strings as they are (the name is not trimmed);
    building the text can then only fail on the conversion of [needs]. *)
Theorem validated_submission_text (data : JsValue Num) :
  validate data = ok [] ->
  exists fields name email phone,
    data = JObject fields /\
    field fields "name" = JString name /\
    field fields "email" = JString email /\
    field fields "phone" = JString phone /\
    (2 <= String.length (trim name))%nat /\
    isEmail email = true /\
    isMobilePhone phone "any" false = true /\
    body_of data =
      rbind (if truthy Num num_truthy (field fields "needs")
             then ToString Num num_toString (field fields "needs")
             else ok "Not specified")
            (fun needs => ok (email_body_text name email phone needs)).
Proof.
  intros Hv.
  destruct data as [| |b|n|s|l|fields]; try discriminate Hv.
  pose proof (validate_object_rules fields [] Hv) as Hr.
  unfold rule_errors, error_unless in Hr.
  destruct (name_rule (field fields "name")) eqn:Hn; [|discriminate Hr].
  destruct (email_rule isEmail (field fields "email")) eqn:He; [|discriminate Hr].
  destruct (phone_rule isMobilePhone (field fields "phone")) eqn:Hp; [|discriminate Hr].
  destruct (field fields "name") as [| | | |name| |] eqn:En; try discriminate Hn.
  destruct (field fields "email") as [| | | |email| |] eqn:Ee; try discriminate He.
  destruct (field fields "phone") as [| | | |phone| |] eqn:Ep; try discriminate Hp.
  unfold name_rule in Hn. unfold email_rule in He. unfold phone_rule in Hp.
  apply andb_prop in He as [_ He]. apply andb_prop in Hp as [_ Hp].
  exists fields, name, email, phone.
  do 4 (split; [first [reflexivity | assumption]|]).
  split; [now apply Nat.leb_le|]. split; [exact He|]. split; [exact Hp|].
  apply buildEmailBody_object; [now rewrite En | now rewrite Ee | now rewrite Ep].
Qed.

End ValidatorEdgeProofs.


(** ** Edge cases of the request *)

Section HandlerEdges.

Variable Num : Type.
Variable num_truthy : Num -> bool.
Variable num_toString : Num -> string.
Variable isEmail : string -> bool.
Variable isMobilePhone : string -> string -> bool -> bool.
Variable JSON_parse : string -> Result (JsValue Num).
Variable URLSearchParams_get : option string -> string -> option string.
Variable nodemailer_createTransporter : TransportConfig -> Result Transporter.
Variable env : gmap string string.

Local Abbreviation run_handle parse :=
  (handle Num num_truthy num_toString isEmail isMobilePhone
     nodemailer_createTransporter env parse).
Local Abbreviation on_error := (error_response Num num_toString env).
Local Abbreviation validate := (validateFormData Num num_truthy isEmail isMobilePhone).
Local Abbreviation body_of := (buildEmailBody Num num_truthy num_toString).
Local Abbreviation transporter := (createTransporter nodemailer_createTransporter env).
Local Abbreviation parse_form := (parseFormData Num JSON_parse URLSearchParams_get).
Local Abbreviation parse_multipart :=
  (parseFormData_multipart Num JSON_parse URLSearchParams_get).
Local Abbreviation form_fields := (form_of_params Num URLSearchParams_get).
Local Abbreviation the_handler :=
  (handler Num num_truthy num_toString isEmail isMobilePhone JSON_parse
     URLSearchParams_get nodemailer_createTransporter env).
Local Abbreviation the_handler_multipart :=
  (handler_multipart Num num_truthy num_toString isEmail isMobilePhone JSON_parse
     URLSearchParams_get nodemailer_createTransporter env).
Local Abbreviation the_handler_first :=
  (handler_first Num num_truthy num_toString isEmail isMobilePhone JSON_parse
     URLSearchParams_get nodemailer_createTransporter env).

Lemma parseFormData_cases (event : Event.t) :
  parse_form event =
    if announces_json event then parse_json_body Num JSON_parse (Event.body event)
    else ok (form_fields (Event.body event)).
Proof. reflexivity. Qed.

Lemma validate_without_properties (data : JsValue Num) :
  is_scalar_or_array data = true \/ data = JObject [] ->
  validate data = ok FIXED_ERRORS.
Proof.
  intros [H | ->]; [|reflexivity].
  destruct data; try discriminate H; reflexivity.
Qed.

(** X12. A JSON body that is valid JSON but not an object with fields (a
    number, a string, [true], an array, or the empty object) is not an
    internal error: it is answered 400 with all three validation errors, and
    nothing is sent. *)
Theorem json_without_fields_answered_400 (now : Date) (event : Event.t)
    (data : JsValue Num) :
  Event.httpMethod event = "POST" ->
  credentials_present env = true ->
  announces_json event = true ->
  JSON_parse (default "null" (Event.body event)) = ok data ->
  is_scalar_or_array data = true \/ data = JObject [] ->
  let (response, sent) := the_handler now event in
  Response.statusCode response = 400 /\
  Response.body response = VALIDATION_BODY [NAME_ERROR; EMAIL_ERROR; PHONE_ERROR] /\
  sent = [].
Proof.
  intros Hm Hc Hj Hp Hd. unfold handler.
  rewrite handle_with_credentials by assumption.
  rewrite parseFormData_cases, Hj. unfold parse_json_body, ok in *. rewrite Hp.
  cbv beta iota. rewrite (validate_without_properties data Hd).
  unfold ok, FIXED_ERRORS. cbv beta iota.
  rewrite validation_response_body. repeat split.
Qed.

Lemma form_fields_submission (body : option string) :
  is_form_submission (form_fields body) = true.
Proof.
  unfold form_of_params, is_form_submission, field. cbn.
  destruct (URLSearchParams_get body "name"), (URLSearchParams_get body "email"),
    (URLSearchParams_get body "phone"); reflexivity.
Qed.

Lemma form_fields_text (body : option string) :
  exists text, body_of (form_fields body) = ok text.
Proof.
  unfold form_of_params, buildEmailBody. cbn.
  destruct (URLSearchParams_get body "name"), (URLSearchParams_get body "email"),
    (URLSearchParams_get body "phone"), (URLSearchParams_get body "needs") as [[|c n]|];
    cbn; eauto.
Qed.

(** X13. On the form-encoded path (any content type that does not announce
    JSON) neither parsing, nor validation, nor building the mail text can
    throw: the request is answered 400 exactly when a rule is violated, and
    otherwise the outcome is decided by the mail package alone. *)
Theorem form_encoded_outcome (now : Date) (event : Event.t) :
  Event.httpMethod event = "POST" ->
  credentials_present env = true ->
  announces_json event = false ->
  exists fields text,
    form_fields (Event.body event) = JObject fields /\
    body_of (JObject fields) = ok text /\
    the_handler now event =
      match rule_errors isEmail isMobilePhone fields with
      | [] =>
          match transporter with
          | inl e => (on_error e, [])
          | inr t =>
              let m := mail_options DEFAULT_RECIPIENT env now text in
              match sendMail t m with
              | inl e => (on_error e, [m])
              | inr _ => (success_response Num num_toString, [m])
              end
          end
      | errors => (validation_response Num num_toString errors, [])
      end.
Proof.
  intros Hm Hc Hj.
  destruct (form_fields_text (Event.body event)) as [text Ht].
  pose proof (form_fields_submission (Event.body event)) as Hf.
  remember (form_fields (Event.body event)) as fd eqn:Efd.
  assert (Hobj : exists fields, fd = JObject fields)
    by (subst fd; unfold form_of_params; eauto).
  destruct Hobj as [fields ->].
  exists fields, text. split; [reflexivity|]. split; [exact Ht|].
  unfold handler. rewrite handle_with_credentials by assumption.
  rewrite parseFormData_cases, Hj, <- Efd. unfold ok. cbv beta iota.
  rewrite (validate_form_submission _ _ _ fields Hf). unfold ok in *.
  cbv beta iota.
  destruct (rule_errors isEmail isMobilePhone fields); [|reflexivity].
  destruct transporter; [reflexivity|]. rewrite Ht. reflexivity.
Qed.

Lemma handle_ext parse parse' (now : Date) (event : Event.t) :
  parse event = parse' event ->
  run_handle parse now event = run_handle parse' now event.
Proof.
  intros H. unfold handle, try_block, ebind, elift. now rewrite H.
Qed.

Lemma announces_json_content_type (event : Event.t) :
  announces_json event = includes (content_type event) "application/json".
Proof.
  unfold announces_json, content_type.
  destruct (Event.headers event !! "content-type"); reflexivity.
Qed.

(** X14. The variant with multipart support answers every request exactly
    as the handler of submit-form.js does, unless the content type names
    multipart/form-data without also naming JSON or the URL-encoded
    format. *)
Theorem multipart_variant_agrees (now : Date) (event : Event.t) :
  includes (content_type event) "application/json" = true \/
  includes (content_type event) "application/x-www-form-urlencoded" = true \/
  includes (content_type event) "multipart/form-data" = false ->
  the_handler_multipart now event = the_handler now event.
Proof.
  intros H. unfold handler_multipart, handler. apply handle_ext.
  rewrite parseFormData_cases, announces_json_content_type.
  unfold parseFormData_multipart. fold (content_type event). cbv zeta.
  destruct (includes (content_type event) "application/json"); [reflexivity|].
  destruct (includes (content_type event) "application/x-www-form-urlencoded");
    [reflexivity|].
  destruct H as [H | [H | H]]; try discriminate H. now rewrite H.
Qed.

(** X15. A multipart request whose content type carries no boundary
    parameter is answered by the multipart variant with the 500 response
    built from the error No boundary found in multipart data; the body is
    not read and nothing is sent. *)
Theorem multipart_without_boundary (now : Date) (event : Event.t) :
  Event.httpMethod event = "POST" ->
  credentials_present env = true ->
  includes (content_type event) "application/json" = false ->
  includes (content_type event) "application/x-www-form-urlencoded" = false ->
  includes (content_type event) "multipart/form-data" = true ->
  includes (content_type event) "boundary=" = false ->
  the_handler_multipart now event = (on_error (mkError NO_BOUNDARY_MESSAGE), []) /\
  Response.statusCode (on_error (mkError NO_BOUNDARY_MESSAGE)) = 500.
Proof.
  intros Hm Hc Hj Hu Hmp Hb. split; [|reflexivity].
  unfold handler_multipart. rewrite handle_with_credentials by assumption.
  assert (Hparse : parse_multipart event = inl (mkError NO_BOUNDARY_MESSAGE)).
  { unfold parseFormData_multipart. fold (content_type event). cbv zeta.
    rewrite Hj, Hu, Hmp.
    replace (split (content_type event) "boundary=") with [content_type event].
    - reflexivity.
    - symmetry. apply (split_scan_none "boundary=").
      intros j _. now apply includes_false_drop. }
  rewrite Hparse. reflexivity.
Qed.

Local Abbreviation on_error_first := (error_response_first Num num_toString).

(** The outcome of a POST under the first handler, stage by stage. *)
Lemma handler_first_outcome (now : Date) (event : Event.t) :
  Event.httpMethod event = "POST" ->
  the_handler_first now event =
    match parse_form event with
    | inl _ => (on_error_first, [])
    | inr formData =>
        match validate formData with
        | inl _ => (on_error_first, [])
        | inr [] =>
            match transporter with
            | inl _ => (on_error_first, [])
            | inr t =>
                match body_of formData with
                | inl _ => (on_error_first, [])
                | inr text =>
                    let m := mail_options FIRST_DEFAULT_RECIPIENT env now text in
                    match sendMail t m with
                    | inl _ => (on_error_first, [m])
                    | inr _ => (success_response Num num_toString, [m])
                    end
                end
            end
        | inr errors => (validation_response Num num_toString errors, [])
        end
    end.
Proof.
  intros Hm. unfold handler_first, try_block_first. rewrite Hm. cbn [String.eqb negb].
  replace (("POST" =? "OPTIONS")%string) with false by reflexivity.
  replace (negb ("POST" =? "POST")%string) with false by reflexivity.
  unfold ebind, elift, eret, await_sendMail.
  destruct (parse_form event) as [e|formData]; [reflexivity|].
  destruct (validate formData) as [e|[|err errs]]; [reflexivity| |reflexivity].
  cbn [length Nat.ltb Nat.leb].
  destruct transporter as [e|t]; [reflexivity|].
  destruct (body_of formData) as [e|text]; [reflexivity|].
  unfold mail_options, FIRST_DEFAULT_RECIPIENT. cbv zeta.
  destruct (sendMail t _); reflexivity.
Qed.

(** X16. The first handler never reports an error to the caller: each of
    its 500 responses has the fixed body, whatever NODE_ENV is; like the
    later handlers it answers every request other than a preflight with the
    JSON headers and one of the four statuses. *)
Theorem first_handler_hides_errors (now : Date) (event : Event.t) :
  Event.httpMethod event <> "OPTIONS" ->
  let response := (the_handler_first now event).1 in
  Response.headers response = CORS_JSON_HEADERS /\
  In (Response.statusCode response) ALLOWED_STATUS /\
  (Response.statusCode response = 500 -> Response.body response = INTERNAL_ERROR_BODY).
Proof.
  intros Ho. cbv zeta.
  assert (Herr : Response.headers on_error_first = CORS_JSON_HEADERS /\
                 In (Response.statusCode on_error_first) ALLOWED_STATUS /\
                 (Response.statusCode on_error_first = 500 ->
                  Response.body on_error_first = INTERNAL_ERROR_BODY)).
  { split; [reflexivity|]. split; [cbn; auto 6 | intros _; reflexivity]. }
  assert (Hother : forall r : Response.t,
             Response.headers r = CORS_JSON_HEADERS ->
             In (Response.statusCode r) [200; 400; 405] ->
             Response.headers r = CORS_JSON_HEADERS /\
             In (Response.statusCode r) ALLOWED_STATUS /\
             (Response.statusCode r = 500 -> Response.body r = INTERNAL_ERROR_BODY)).
  { intros r Hh Hs. split; [exact Hh|]. split.
    - cbn in *. intuition.
    - intros H5. rewrite H5 in Hs. cbn in Hs. intuition discriminate. }
  destruct (String.eqb_spec (Event.httpMethod event) "POST") as [Hm | Hm].
  - rewrite handler_first_outcome by assumption.
    destruct (parse_form event) as [e|formData]; [exact Herr|].
    destruct (validate formData) as [e|[|err errs]]; [exact Herr| |].
    2: { apply Hother; [reflexivity | cbn; auto]. }
    destruct transporter as [e|t]; [exact Herr|].
    destruct (body_of formData) as [e|text]; [exact Herr|].
    cbv zeta. destruct (sendMail t _); [exact Herr|].
    apply Hother; [reflexivity | cbn; auto].
  - unfold handler_first.
    destruct (String.eqb_spec (Event.httpMethod event) "OPTIONS"); [contradiction|].
    destruct (String.eqb_spec (Event.httpMethod event) "POST"); [contradiction|].
    apply Hother; [reflexivity | cbn; auto].
Qed.

Lemma error_response_without_debug (error : Error) :
  debug_mode env = false -> on_error error = on_error_first.
Proof.
  unfold debug_mode, error_response, error_response_first. now intros ->.
Qed.

Lemma mail_options_recipient_set (fallback fallback' : string) (now : Date) (text : string) :
  env_truthy env "EMAIL_TO" = true ->
  mail_options fallback env now text = mail_options fallback' env now text.
Proof.
  unfold env_truthy, mail_options.
  destruct (env !! "EMAIL_TO") as [[|c a]|]; [discriminate|reflexivity|discriminate].
Qed.

(** X17. With both credentials and a recipient configured and debug mode
    off, the first handler and the handler of submit-form.js give the same
    response and send the same messages for every request. *)
Theorem first_handler_agrees (now : Date) (event : Event.t) :
  credentials_present env = true ->
  env_truthy env "EMAIL_TO" = true ->
  debug_mode env = false ->
  the_handler_first now event = the_handler now event.
Proof.
  intros Hc Hto Hd.
  destruct (String.eqb_spec (Event.httpMethod event) "POST") as [Hm | Hm].
  - rewrite handler_first_outcome by assumption.
    unfold handler. rewrite handle_with_credentials by assumption.
    destruct (parse_form event) as [e|formData];
      [now rewrite error_response_without_debug|].
    destruct (validate formData) as [e|[|err errs]];
      [now rewrite error_response_without_debug| |reflexivity].
    destruct transporter as [e|t]; [now rewrite error_response_without_debug|].
    destruct (body_of formData) as [e|text];
      [now rewrite error_response_without_debug|].
    cbv zeta.
    rewrite (mail_options_recipient_set FIRST_DEFAULT_RECIPIENT DEFAULT_RECIPIENT)
      by assumption.
    destruct (sendMail t _); [now rewrite error_response_without_debug | reflexivity].
  - unfold handler_first, handler, handle.
    destruct (Event.httpMethod event =? "OPTIONS")%string; [reflexivity|].
    destruct (String.eqb_spec (Event.httpMethod event) "POST"); [contradiction|].
    reflexivity.
Qed.

(** X18. The first handler does not look at the credentials: without them
    a valid submission is still handed to the mail transport (with whatever
    sender the environment gives), where the handler of submit-form.js sends
    nothing. *)
Theorem first_handler_sends_without_credentials (now : Date) (event : Event.t)
    (formData : JsValue Num) (t : Transporter) (text : string) :
  Event.httpMethod event = "POST" ->
  credentials_present env = false ->
  parse_form event = ok formData ->
  validate formData = ok [] ->
  transporter = ok t ->
  body_of formData = ok text ->
  (the_handler_first now event).2 = [mail_options FIRST_DEFAULT_RECIPIENT env now text] /\
  (the_handler now event).2 = [].
Proof.
  intros Hm Hc Hp Hv Ht Hb. split.
  - rewrite handler_first_outcome by assumption.
    unfold ok in *. rewrite Hp. cbv beta iota. rewrite Hv, Ht. cbv beta iota.
    rewrite Hb. cbv beta iota zeta. destruct (sendMail t _); reflexivity.
  - unfold handler. rewrite handle_no_credentials by assumption. reflexivity.
Qed.

End HandlerEdges.

(** ** Multipart bodies with any number of parts *)

Section MultipartGeneral.

Context {Num : Type}.

Lemma span_not_quote_app (f t : string) :
  free_of DQUOTE f = true ->
  Multipart.span_not_quote (f ++ String DQUOTE t) = (f, String DQUOTE t).
Proof.
  induction f as [|c f IH]; intros H; [reflexivity|].
  cbn in H. apply andb_prop in H as [Hc Hf].
  change (String c f ++ String DQUOTE t) with (String c (f ++ String DQUOTE t)).
  cbn [Multipart.span_not_quote].
  apply negb_true_iff in Hc. rewrite Hc, (IH Hf). reflexivity.
Qed.

Lemma indexOf_from_skip (f t sub : string) (i : Z) :
  free_of CR f = true ->
  indexOf_from (f ++ t) (String CR sub) i =
  indexOf_from t (String CR sub) (i + Z.of_nat (String.length f)).
Proof.
  revert i. induction f as [|c f IH]; intros i H.
  - cbn [String.length]. change ("" ++ t) with t. f_equal. lia.
  - cbn in H. apply andb_prop in H as [Hc Hf]. apply negb_true_iff in Hc.
    change (String c f ++ t) with (String c (f ++ t)).
    cbn [indexOf_from startsWith].
    rewrite Ascii.eqb_sym, Hc. cbn [andb].
    rewrite (IH _ Hf). cbn [String.length]. f_equal. lia.
Qed.

(** A part, seen as the text before the field name, the name, and the
    text from the closing quote on. *)
Lemma form_part_shape (fieldName value : string) :
  form_part fieldName value =
    (CRLF ++ DISPOSITION ++ String DQUOTE "") ++ fieldName ++
    String DQUOTE (CRLF ++ CRLF ++ value ++ CRLF).
Proof. unfold form_part. now rewrite !append_assoc. Qed.

Lemma headless_part_shape (fieldName : string) :
  headless_part fieldName =
    (CRLF ++ DISPOSITION ++ String DQUOTE "") ++ fieldName ++ String DQUOTE CRLF.
Proof. unfold headless_part. now rewrite !append_assoc. Qed.

(** What the parser reads off the declaration of a simple field name. *)
Lemma declaration_facts (fieldName rest : string) :
  simple_name fieldName = true ->
  let part := (CRLF ++ DISPOSITION ++ String DQUOTE "") ++ fieldName ++
              String DQUOTE rest in
  includes part "Content-Disposition: form-data" = true /\
  Multipart.match_name part = Some fieldName /\
  indexOf part (CRLF ++ CRLF) =
    indexOf_from rest (CRLF ++ CRLF) (41 + Z.of_nat (String.length fieldName)).
Proof.
  intros H. unfold simple_name in H.
  apply andb_prop in H as [H Hcr]. apply andb_prop in H as [Hne Hq].
  cbv zeta. split; [reflexivity|]. split.
  - change (Multipart.match_name
              ((CRLF ++ DISPOSITION ++ String DQUOTE "") ++ fieldName ++ String DQUOTE rest))
      with (match Multipart.match_name_here
                    (Multipart.NAME_ATTR ++ fieldName ++ String DQUOTE rest) with
            | Some g => Some g
            | None => Multipart.match_name
                        (drop 1 (Multipart.NAME_ATTR ++ fieldName ++ String DQUOTE rest))
            end).
    unfold Multipart.match_name_here.
    replace (startsWith (Multipart.NAME_ATTR ++ fieldName ++ String DQUOTE rest)
               Multipart.NAME_ATTR) with true by reflexivity.
    change (drop 6 (Multipart.NAME_ATTR ++ fieldName ++ String DQUOTE rest))
      with (fieldName ++ String DQUOTE rest).
    rewrite span_not_quote_app by assumption.
    destruct fieldName; [discriminate Hne | reflexivity].
  - unfold indexOf.
    change (indexOf_from
              ((CRLF ++ DISPOSITION ++ String DQUOTE "") ++ fieldName ++ String DQUOTE rest)
              (CRLF ++ CRLF) 0)
      with (indexOf_from (fieldName ++ String DQUOTE rest) (String CR (String LF CRLF)) 40).
    rewrite indexOf_from_skip by assumption.
    cbn [indexOf_from startsWith]. cbn [Ascii.eqb]. 
    replace (Ascii.eqb CR DQUOTE) with false by reflexivity. cbn [andb].
    f_equal. lia.
Qed.

Lemma form_part_length (fieldName value : string) :
  String.length (form_part fieldName value) =
    (47 + String.length fieldName + String.length value)%nat.
Proof.
  unfold form_part. rewrite !append_length. cbn. lia.
Qed.

(** On the part of a simple field name the loop body binds the trimmed
    text, or does nothing when the text is empty. *)
Lemma parse_part_simple (formData : list (string * JsValue Num))
    (fieldName value : string) :
  simple_name fieldName = true ->
  Multipart.parse_part formData (form_part fieldName value) =
    bind_part formData (fieldName, value).
Proof.
  intros Hs. unfold Multipart.parse_part, bind_part. cbn [fst snd].
  destruct (declaration_facts fieldName (CRLF ++ CRLF ++ value ++ CRLF) Hs)
    as (Hi & Hm & Hx).
  rewrite <- form_part_shape in Hi, Hm, Hx. rewrite Hi, Hm, Hx.
  replace (indexOf_from (CRLF ++ CRLF ++ value ++ CRLF) (CRLF ++ CRLF)
             (41 + Z.of_nat (String.length fieldName)))
    with (41 + Z.of_nat (String.length fieldName)) by reflexivity.
  assert (Hhead : String.length (part_head fieldName) = (45 + String.length fieldName)%nat).
  { unfold part_head. rewrite !append_length. cbn. lia. }
  rewrite form_part_split.
  unfold lastIndexOf. rewrite <- append_assoc, lastIndexOf_from_CRLF.
  rewrite append_length, Nat2Z.inj_add, Z.add_0_l, append_assoc.
  replace (41 + Z.of_nat (String.length fieldName) + 4)
    with (Z.of_nat (String.length (part_head fieldName))) by lia.
  rewrite js_substring_middle.
  destruct value as [|c value]; cbn [String.length].
  - rewrite Z.add_0_r, Z.ltb_irrefl. reflexivity.
  - replace (_ <? _) with true by (symmetry; apply Z.ltb_lt; lia). reflexivity.
Qed.

Lemma later_delimiters_ge (m : nat) (parts : list (string * string)) (offset x : nat) :
  In x (later_delimiters m parts offset) -> (offset < x)%nat.
Proof.
  revert offset. induction parts as [|[f v] rest IH]; intros offset; cbn [later_delimiters].
  - intros [].
  - cbv zeta. pose proof (form_part_length f v) as Hlen.
    intros [<- | H]; [lia|]. apply IH in H. lia.
Qed.

(** The pieces of the body after its first delimiter, when the marker
    occurs at the delimiters only. *)
Lemma split_parts_tail (marker : string) (parts : list (string * string)) (offset : nat) :
  marker <> "" ->
  (forall j, (j <= String.length (parts_tail marker parts))%nat ->
             ~ In (offset + j)%nat (later_delimiters (String.length marker) parts offset) ->
             startsWith (drop j (parts_tail marker parts)) marker = false) ->
  split_scan marker (parts_tail marker parts) O = pieces parts.
Proof.
  intros Hsep. revert offset.
  induction parts as [|[f v] rest IH]; intros offset Hfree.
  - cbn [parts_tail pieces]. apply split_scan_none.
    intros j Hj. apply Hfree; [exact Hj | intros []].
  - cbn [parts_tail pieces later_delimiters] in *. cbv zeta in Hfree.
    rewrite split_scan_first; [|assumption|].
    + f_equal.
      apply (IH (offset + String.length (form_part f v) + String.length marker)%nat).
      intros j Hj Hnot.
      pose proof (Hfree (String.length (form_part f v) + (String.length marker + j))%nat)
        as H.
      rewrite drop_app, drop_app in H. apply H.
      * rewrite !append_length. lia.
      * intros [Heq | Hin].
        -- destruct marker; [contradiction | cbn [String.length] in Heq; lia].
        -- apply Hnot.
           replace (offset + String.length (form_part f v) + String.length marker + j)%nat
             with (offset + (String.length (form_part f v) + (String.length marker + j)))%nat
             by lia.
           exact Hin.
    + intros j Hj. apply Hfree.
      * rewrite !append_length. lia.
      * intros [Heq | Hin]; [lia|]. apply later_delimiters_ge in Hin. lia.
Qed.

Lemma split_multipart_body (boundary : string) (parts : list (string * string)) :
  occurrences (multipart_body boundary parts) (boundary_marker boundary) =
    all_delimiters boundary parts ->
  split (multipart_body boundary parts) (boundary_marker boundary) =
    "" :: pieces parts.
Proof.
  intros Hocc.
  set (M := boundary_marker boundary) in *.
  assert (Hsep : M <> "") by (subst M; discriminate).
  replace (split (multipart_body boundary parts) M)
    with (split_scan M (multipart_body boundary parts) O) by (subst M; reflexivity).
  unfold multipart_body. fold M.
  change (M ++ parts_tail M parts) with ("" ++ M ++ parts_tail M parts).
  rewrite split_scan_first; [|assumption|cbn; intros; lia].
  f_equal. apply (split_parts_tail M parts (String.length M) Hsep).
  intros j Hj Hnot.
  destruct (startsWith (drop j (parts_tail M parts)) M) eqn:E; [|reflexivity].
  exfalso. apply Hnot.
  assert (Hin : In (String.length M + j)%nat (all_delimiters boundary parts)).
  { rewrite <- Hocc. apply occurrences_spec. unfold multipart_body. fold M. split.
    - rewrite append_length. lia.
    - rewrite drop_app. exact E. }
  unfold all_delimiters in Hin. fold M in Hin. cbv zeta in Hin.
  destruct Hin as [H0 | Hin]; [|exact Hin].
  destruct M; [contradiction | cbn [String.length] in H0; lia].
Qed.

Lemma fold_pieces (parts : list (string * string)) (formData : list (string * JsValue Num)) :
  Forall (fun part => simple_name (fst part) = true) parts ->
  fold_left Multipart.parse_part (pieces parts) formData = fold_left bind_part parts formData.
Proof.
  intros H. revert formData.
  induction H as [|[f v] rest Hs _ IH]; intros formData; cbn [pieces fold_left].
  - apply parse_part_closing.
  - cbn [fst] in Hs. rewrite parse_part_simple by assumption. apply IH.
Qed.

(** The object the parser builds from a well-delimited body. *)
Lemma parse_multipart_body (boundary : string) (parts : list (string * string)) :
  Forall (fun part => simple_name (fst part) = true) parts ->
  occurrences (multipart_body boundary parts) (boundary_marker boundary) =
    all_delimiters boundary parts ->
  Multipart.parseMultipartFormData (multipart_body boundary parts) boundary =
    JObject (Num:=Num) (fold_left bind_part parts []).
Proof.
  intros Hs Hocc. unfold Multipart.parseMultipartFormData.
  fold (boundary_marker boundary). rewrite split_multipart_body by assumption.
  cbn [fold_left]. rewrite parse_part_empty. now rewrite fold_pieces.
Qed.

(** X19. For a body made of any number of parts with simple field names
    (name, email, phone, needs, ...), delimited by the boundary of the
    request, the parser goes through the parts in order and binds each field
    whose text is not empty to that text, trimmed; the multipart variant of
    the handler obtains this object when the content type announces the
    boundary. *)
Theorem parseMultipartFormData_any_fields (boundary : string)
    (parts : list (string * string)) :
  Forall (fun part => simple_name (fst part) = true) parts ->
  occurrences (multipart_body boundary parts) (boundary_marker boundary) =
    all_delimiters boundary parts ->
  Multipart.parseMultipartFormData (multipart_body boundary parts) boundary =
    JObject (Num:=Num) (fold_left bind_part parts []) /\
  forall (JSON_parse : string -> Result (JsValue Num))
         (URLSearchParams_get : option string -> string -> option string)
         (event : Event.t),
    Event.headers event !! "content-type" = Some (multipart_content_type boundary) ->
    Event.body event = Some (multipart_body boundary parts) ->
    plain_boundary boundary = true ->
    parseFormData_multipart Num JSON_parse URLSearchParams_get event =
      ok (JObject (fold_left bind_part parts [])).
Proof.
  intros Hs Hocc. split; [now apply parse_multipart_body|].
  intros JSON_parse URLSearchParams_get event Hh Hb Hplain.
  rewrite (parseFormData_multipart_boundary _ _ event boundary _ Hh Hb Hplain).
  now rewrite parse_multipart_body.
Qed.

Lemma own_property_replace_eq (fd : list (string * JsValue Num)) (k : string)
    (v x : JsValue Num) :
  own_property Num fd k = Some x ->
  own_property Num (Multipart.replace_property fd k v) k = Some v.
Proof.
  induction fd as [|[k0 v0] fd IH]; cbn; [discriminate|].
  destruct (String.eqb_spec k0 k) as [-> | Hne]; cbn.
  - now rewrite String.eqb_refl.
  - destruct (String.eqb_spec k0 k); [contradiction | exact IH].
Qed.

Lemma own_property_replace_ne (fd : list (string * JsValue Num)) (k k' : string)
    (v : JsValue Num) :
  k <> k' ->
  own_property Num (Multipart.replace_property fd k v) k' = own_property Num fd k'.
Proof.
  intros Hne. induction fd as [|[k0 v0] fd IH]; cbn; [reflexivity|].
  destruct (String.eqb_spec k0 k) as [-> | Hk]; cbn.
  - destruct (String.eqb_spec k k'); [contradiction | reflexivity].
  - destruct (String.eqb_spec k0 k'); [reflexivity | exact IH].
Qed.

Lemma own_property_app (fd : list (string * JsValue Num)) (k k' : string)
    (v : JsValue Num) :
  own_property Num (fd ++ [(k, v)])%list k' =
    match own_property Num fd k' with
    | Some x => Some x
    | None => if String.eqb k k' then Some v else None
    end.
Proof.
  induction fd as [|[k0 v0] fd IH]; cbn; [reflexivity|].
  destruct (String.eqb k0 k'); [reflexivity | exact IH].
Qed.

(** Reading back after an assignment. *)
Lemma own_property_set (fd : list (string * JsValue Num)) (k k' : string)
    (v : JsValue Num) :
  k' <> "__proto__" ->
  own_property Num (Multipart.set_property fd k v) k' =
    if String.eqb k k' then Some v else own_property Num fd k'.
Proof.
  intros Hp. unfold Multipart.set_property.
  destruct (String.eqb_spec k "__proto__") as [-> | Hk].
  - destruct (String.eqb_spec "__proto__" k'); [congruence | reflexivity].
  - destruct (own_property Num fd k) as [x|] eqn:E.
    + destruct (String.eqb_spec k k') as [<- | Hne].
      * now apply own_property_replace_eq with x.
      * now apply own_property_replace_ne.
    + rewrite own_property_app.
      destruct (String.eqb_spec k k') as [<- | Hne]; [now rewrite E|].
      now destruct (own_property Num fd k').
Qed.

Lemma own_property_fold (parts : list (string * string))
    (fd : list (string * JsValue Num)) (fieldName : string) :
  fieldName <> "__proto__" ->
  own_property Num (fold_left bind_part parts fd) fieldName =
    match last_text fieldName parts with
    | Some v => Some (JString (trim v))
    | None => own_property Num fd fieldName
    end.
Proof.
  intros Hp. revert fd.
  induction parts as [|[f v] rest IH]; intros fd; cbn [fold_left last_text];
    [reflexivity|].
  rewrite IH. destruct (last_text fieldName rest); [reflexivity|].
  unfold bind_part. cbn [fst snd].
  destruct v as [|c v].
  - cbn. now rewrite andb_false_r.
  - rewrite own_property_set by assumption.
    replace (negb (String c v =? "")%string) with true by reflexivity.
    rewrite andb_true_r. now destruct (f =? fieldName)%string.
Qed.

(** X20. When several parts of a well-delimited body carry the same field
    name, the object the parser returns holds for that field the trimmed
    text of the last such part with a non-empty text; a field no part gives a
    text for is absent. *)
Theorem multipart_last_part_wins (boundary : string) (parts : list (string * string))
    (fieldName : string) :
  Forall (fun part => simple_name (fst part) = true) parts ->
  occurrences (multipart_body boundary parts) (boundary_marker boundary) =
    all_delimiters boundary parts ->
  fieldName <> "__proto__" ->
  object_field (Num:=Num)
    (Multipart.parseMultipartFormData (multipart_body boundary parts) boundary) fieldName =
    match last_text fieldName parts with
    | Some v => JString (trim v)
    | None => JUndefined
    end.
Proof.
  intros Hs Hocc Hp. rewrite parse_multipart_body by assumption.
  unfold object_field, field. rewrite own_property_fold by assumption.
  now destruct (last_text fieldName parts).
Qed.

Lemma trim_untouched (s : string) (c d : ascii) :
  is_white_space c = false -> is_white_space d = false ->
  trim (String c (s ++ String d "")) = String c (s ++ String d "").
Proof.
  intros Hc Hd. unfold trim.
  assert (Hend : trimEnd (String c (s ++ String d "")) = String c (s ++ String d "")).
  { change (String c (s ++ String d "")) with (String c s ++ String d "").
    rewrite trimEnd_app; cbn [trimEnd]; rewrite Hd; [reflexivity | discriminate]. }
  rewrite Hend. cbn [trimStart]. now rewrite Hc.
Qed.

(** X21. The parser does not notice a part that lacks the blank line
    between its declaration and its text: for a part made of the declaration
    line only, the search for the blank line fails, the value is taken from
    offset 3, and the field is bound to its own declaration line without its
    first letter. *)
Theorem parse_part_without_blank_line (formData : list (string * JsValue Num))
    (fieldName : string) :
  simple_name fieldName = true ->
  Multipart.parse_part formData (headless_part fieldName) =
    Multipart.set_property formData fieldName (JString (headless_value fieldName)).
Proof.
  intros Hs. unfold Multipart.parse_part.
  destruct (declaration_facts fieldName CRLF Hs) as (Hi & Hm & Hx).
  rewrite <- headless_part_shape in Hi, Hm, Hx. rewrite Hi, Hm, Hx.
  replace (indexOf_from CRLF (CRLF ++ CRLF) (41 + Z.of_nat (String.length fieldName)))
    with (-1) by reflexivity.
  assert (Hsplit : headless_part fieldName =
                   String "013" (String "010" "C") ++ headless_value fieldName ++ CRLF).
  { unfold headless_part, headless_value. now rewrite !append_assoc. }
  assert (Hlen : String.length (headless_value fieldName) = (38 + String.length fieldName)%nat).
  { unfold headless_value. rewrite !append_length. cbn. lia. }
  assert (Hlast : lastIndexOf (headless_part fieldName) CRLF =
                  3 + Z.of_nat (String.length (headless_value fieldName))).
  { rewrite Hsplit. unfold lastIndexOf.
    rewrite <- append_assoc, lastIndexOf_from_CRLF, append_length. cbn [String.length]. lia. }
  rewrite Hlast.
  replace (-1 + 4 <? 3 + Z.of_nat (String.length (headless_value fieldName)))
    with true by (symmetry; apply Z.ltb_lt; lia).
  replace (-1 + 4) with (Z.of_nat (String.length (String "013" (String "010" "C"))))
    by reflexivity.
  rewrite Hsplit, js_substring_middle.
  do 2 f_equal. unfold headless_value.
  change ("ontent-Disposition: form-data; name=" ++ String DQUOTE fieldName ++ String DQUOTE "")
    with (String "o" (("ntent-Disposition: form-data; name=" ++ String DQUOTE fieldName)
                      ++ String DQUOTE "")).
  apply trim_untouched; reflexivity.
Qed.

End MultipartGeneral.


(** ** The subject identifies the minute *)

Section SubjectRoundTrip.

Lemma timestamp_four_digit_year (now : Date) :
  valid_date now -> four_digit_year now -> timestamp now = DDMMYYYYHHmm now.
Proof.
  intros Hv Hy. rewrite timestamp_valid by assumption.
  unfold DDMMYYYYHHmm. now rewrite String_of_four_digits by assumption.
Qed.

Lemma token_components (now : Date) :
  valid_date now -> four_digit_year now ->
  decimal_value 0 (substring (DDMMYYYYHHmm now) 0 2) = getDate now /\
  decimal_value 0 (substring (DDMMYYYYHHmm now) 2 4) = getMonth now + 1 /\
  decimal_value 0 (substring (DDMMYYYYHHmm now) 4 8) = getFullYear now /\
  decimal_value 0 (substring (DDMMYYYYHHmm now) 8 10) = getHours now /\
  decimal_value 0 (substring (DDMMYYYYHHmm now) 10 12) = getMinutes now.
Proof.
  intros (Hd & Hm & _ & Hh & Hmin) Hy. unfold four_digit_year in Hy.
  unfold DDMMYYYYHHmm.
  destruct (token_fields (zero_padded 2 (getDate now)) (zero_padded 2 (getMonth now + 1))
              (zero_padded 4 (getFullYear now)) (zero_padded 2 (getHours now))
              (zero_padded 2 (getMinutes now)))
    as (-> & -> & -> & -> & ->); try apply zero_padded_length.
  rewrite !zero_padded_value by (cbn; lia). repeat split.
Qed.

(** X22. Among valid dates with a four-digit year the subject determines
    the day, month, year, hour and minute it was built at: two submissions
    get the same subject only when they are handled within the same
    minute. *)
Theorem buildEmailSubject_injective (now now' : Date) :
  valid_date now -> four_digit_year now ->
  valid_date now' -> four_digit_year now' ->
  buildEmailSubject now = buildEmailSubject now' ->
  now = now'.
Proof.
  intros Hv Hy Hv' Hy' H. unfold buildEmailSubject in H.
  apply (String.app_inj SUBJECT_PREFIX) in H.
  rewrite !timestamp_four_digit_year in H by assumption.
  destruct (token_components now Hv Hy) as (H1 & H2 & H3 & H4 & H5).
  destruct (token_components now' Hv' Hy') as (H1' & H2' & H3' & H4' & H5').
  rewrite H in H1, H2, H3, H4, H5.
  destruct now as [d m y h mi], now' as [d' m' y' h' mi']. cbn in *.
  f_equal; lia.
Qed.

End SubjectRoundTrip.

(** ** More concrete runs *)

(** A preflight without credentials. *)
Lemma preflight_without_credentials :
  Event.httpMethod (request "OPTIONS") = "OPTIONS" /\
  Sample.handler nodemailer_missing ∅ Sample.noon (request "OPTIONS") =
    (preflight_response, []).
Proof.
  split; [reflexivity|].
  apply (preflight_ignores_everything Z Sample.num_truthy Sample.num_toString
           Sample.isEmail Sample.isMobilePhone Sample.JSON_parse
           Sample.URLSearchParams_get nodemailer_missing ∅ Sample.noon
           (request "OPTIONS")).
  reflexivity.
Defined.

(** A DELETE request without credentials. *)
Lemma delete_not_allowed :
  let (response, sent) :=
    Sample.handler nodemailer_missing ∅ Sample.noon (request "DELETE") in
  Response.statusCode response = 405 /\
  Response.headers response = CORS_JSON_HEADERS /\
  Response.body response = METHOD_NOT_ALLOWED_BODY /\
  sent = [] /\
  Sample.handler_multipart nodemailer_missing ∅ Sample.noon (request "DELETE") =
    (response, sent) /\
  sample_handler_first nodemailer_missing ∅ Sample.noon (request "DELETE") =
    (response, sent).
Proof.
  apply (other_methods_not_allowed Z Sample.num_truthy Sample.num_toString
           Sample.isEmail Sample.isMobilePhone Sample.JSON_parse
           Sample.URLSearchParams_get nodemailer_missing ∅ Sample.noon
           (request "DELETE")); discriminate.
Defined.

(** A form with a one-letter name and no phone. *)
Lemma short_name_answered_400 :
  let event := post_form "name=J&email=j@x.com" in
  let (response, sent) :=
    Sample.handler Sample.nodemailer_accepting Sample.env_ready Sample.noon event in
  Response.statusCode response = 400 /\
  Response.headers response = CORS_JSON_HEADERS /\
  Response.body response = VALIDATION_BODY [NAME_ERROR; PHONE_ERROR] /\
  sent = [].
Proof.
  cbv zeta.
  eapply (validation_errors_answered_400 Z Sample.num_truthy Sample.num_toString
            Sample.isEmail Sample.isMobilePhone Sample.JSON_parse
            Sample.URLSearchParams_get Sample.nodemailer_accepting Sample.env_ready
            Sample.noon (post_form "name=J&email=j@x.com")); reflexivity.
Defined.

(** The submission of Jo, accepted by the transport. *)
Lemma jo_sent_once :
  let (response, sent) :=
    Sample.handler Sample.nodemailer_accepting Sample.env_ready Sample.noon
      (Sample.post_json Sample.jo_json) in
  Response.statusCode response = 200 /\
  Response.headers response = CORS_JSON_HEADERS /\
  Response.body response = SUCCESS_BODY /\
  sent = [jo_message "default@example.com"].
Proof.
  eapply (valid_submission_sent_once Z Sample.num_truthy Sample.num_toString
            Sample.isEmail Sample.isMobilePhone Sample.JSON_parse
            Sample.URLSearchParams_get Sample.nodemailer_accepting Sample.env_ready
            Sample.noon (Sample.post_json Sample.jo_json)); reflexivity.
Defined.

(** The submission of Jo, rejected by the transport. *)
Lemma jo_rejected_once :
  Sample.handler (Sample.nodemailer_failing "Connection timeout") Sample.env_ready
    Sample.noon (Sample.post_json Sample.jo_json) =
    (error_response Z Sample.num_toString Sample.env_ready (mkError "Connection timeout"),
     [jo_message "default@example.com"]).
Proof.
  eapply proj1.
  eapply (rejected_message_not_retried Z Sample.num_truthy Sample.num_toString
            Sample.isEmail Sample.isMobilePhone Sample.JSON_parse
            Sample.URLSearchParams_get (Sample.nodemailer_failing "Connection timeout")
            Sample.env_ready Sample.noon (Sample.post_json Sample.jo_json));
    reflexivity.
Defined.

(** The submission of Jo with a mail package that lacks the function. *)
Lemma jo_without_transport :
  Sample.handler nodemailer_missing Sample.env_ready Sample.noon
    (Sample.post_json Sample.jo_json) =
    (error_response Z Sample.num_toString Sample.env_ready
       (mkError "nodemailer.createTransporter is not a function"), []).
Proof.
  eapply proj1.
  eapply (transport_creation_failure Z Sample.num_truthy Sample.num_toString
            Sample.isEmail Sample.isMobilePhone Sample.JSON_parse
            Sample.URLSearchParams_get nodemailer_missing
            Sample.env_ready Sample.noon (Sample.post_json Sample.jo_json));
    reflexivity.
Defined.

(** The one message of the run for Jo comes from a valid POST. *)
Lemma jo_message_from_valid_post :
  Event.httpMethod (Sample.post_json Sample.jo_json) = "POST" /\
  credentials_present Sample.env_ready = true.
Proof.
  pose proof (message_sent_only_when_valid Z Sample.num_truthy Sample.num_toString
                Sample.isEmail Sample.isMobilePhone Sample.JSON_parse
                Sample.URLSearchParams_get Sample.nodemailer_accepting Sample.env_ready
                Sample.noon (Sample.post_json Sample.jo_json)
                (success_response Z Sample.num_toString)
                (jo_message "default@example.com") [] eq_refl) as (Hm & Hc & _).
  split; [exact Hm | exact Hc].
Defined.

(** The 200 answer of the run for Jo comes with an accepted message. *)
Lemma jo_success_accepted :
  exists t m info,
    createTransporter Sample.nodemailer_accepting Sample.env_ready = ok t /\
    [jo_message "default@example.com"] = [m] /\ sendMail t m = ok info /\
    Response.body (success_response Z Sample.num_toString) = SUCCESS_BODY.
Proof.
  apply (success_means_accepted Z Sample.num_truthy Sample.num_toString
           Sample.isEmail Sample.isMobilePhone Sample.JSON_parse
           Sample.URLSearchParams_get Sample.nodemailer_accepting Sample.env_ready
           Sample.noon (Sample.post_json Sample.jo_json)
           (success_response Z Sample.num_toString) [jo_message "default@example.com"]);
    [discriminate | reflexivity | reflexivity].
Defined.

(** Three spaces for a name. *)
Lemma blank_name_reported :
  let fields : list (string * JsValue Z) :=
    [ ("name", JString "   "); ("email", JString "jo@x.com") ] in
  all_white_space "   " = true /\
  exists errs,
    validateFormData Z Sample.num_truthy Sample.isEmail Sample.isMobilePhone
      (JObject fields) = ok errs /\ In NAME_ERROR errs.
Proof.
  cbv zeta. split; [reflexivity|].
  apply (validateFormData_blank_name Sample.num_truthy Sample.isEmail
           Sample.isMobilePhone _ "   "); reflexivity.
Defined.

(** The submission of Jo passes, and its text carries the three strings. *)
Lemma jo_validated_text :
  validateFormData Z Sample.num_truthy Sample.isEmail Sample.isMobilePhone
    jo_submission = ok [] /\
  exists fields name email phone,
    jo_submission = JObject fields /\
    field fields "name" = JString name /\
    field fields "email" = JString email /\
    field fields "phone" = JString phone /\
    (2 <= String.length (trim name))%nat /\
    Sample.isEmail email = true /\
    Sample.isMobilePhone phone "any" false = true /\
    buildEmailBody Z Sample.num_truthy Sample.num_toString jo_submission =
      rbind (if truthy Z Sample.num_truthy (field fields "needs")
             then ToString Z Sample.num_toString (field fields "needs")
             else ok "Not specified")
            (fun needs => ok (email_body_text name email phone needs)).
Proof.
  split; [reflexivity|].
  apply (validated_submission_text Sample.num_truthy Sample.num_toString
           Sample.isEmail Sample.isMobilePhone jo_submission).
  reflexivity.
Defined.

(** The JSON body 42. *)
Lemma json_number_answered_400 :
  Sample.JSON_parse "42" = ok (JNumber 42) /\
  let (response, sent) :=
    Sample.handler Sample.nodemailer_accepting Sample.env_ready Sample.noon
      (Sample.post_json "42") in
  Response.statusCode response = 400 /\
  Response.body response = VALIDATION_BODY [NAME_ERROR; EMAIL_ERROR; PHONE_ERROR] /\
  sent = [].
Proof.
  split; [reflexivity|].
  apply (json_without_fields_answered_400 Z Sample.num_truthy Sample.num_toString
           Sample.isEmail Sample.isMobilePhone Sample.JSON_parse
           Sample.URLSearchParams_get Sample.nodemailer_accepting Sample.env_ready
           Sample.noon (Sample.post_json "42") (JNumber 42));
    try reflexivity.
  left. reflexivity.
Defined.

(** A URL-encoded submission of Jo. *)
Lemma form_post_outcome :
  let event := post_form "name=Jo&email=jo@x.com&phone=5555550123" in
  announces_json event = false /\
  exists fields text,
    form_of_params Z Sample.URLSearchParams_get (Event.body event) = JObject fields /\
    buildEmailBody Z Sample.num_truthy Sample.num_toString (JObject fields) = ok text /\
    Sample.handler Sample.nodemailer_accepting Sample.env_ready Sample.noon event =
      match rule_errors Sample.isEmail Sample.isMobilePhone fields with
      | [] =>
          match createTransporter Sample.nodemailer_accepting Sample.env_ready with
          | inl e => (error_response Z Sample.num_toString Sample.env_ready e, [])
          | inr t =>
              let m := mail_options DEFAULT_RECIPIENT Sample.env_ready Sample.noon text in
              match sendMail t m with
              | inl e => (error_response Z Sample.num_toString Sample.env_ready e, [m])
              | inr _ => (success_response Z Sample.num_toString, [m])
              end
          end
      | errors => (validation_response Z Sample.num_toString errors, [])
      end.
Proof.
  cbv zeta. split; [reflexivity|].
  apply (form_encoded_outcome Z Sample.num_truthy Sample.num_toString
           Sample.isEmail Sample.isMobilePhone Sample.JSON_parse
           Sample.URLSearchParams_get Sample.nodemailer_accepting Sample.env_ready
           Sample.noon (post_form "name=Jo&email=jo@x.com&phone=5555550123"));
    reflexivity.
Defined.

(** On a JSON request the two later handlers agree. *)
Lemma multipart_variant_agrees_on_json :
  includes (content_type (Sample.post_json Sample.jo_json)) "application/json" = true /\
  Sample.handler_multipart Sample.nodemailer_accepting Sample.env_ready Sample.noon
    (Sample.post_json Sample.jo_json) =
  Sample.handler Sample.nodemailer_accepting Sample.env_ready Sample.noon
    (Sample.post_json Sample.jo_json).
Proof.
  split; [reflexivity|].
  apply (multipart_variant_agrees Z Sample.num_truthy Sample.num_toString
           Sample.isEmail Sample.isMobilePhone Sample.JSON_parse
           Sample.URLSearchParams_get Sample.nodemailer_accepting Sample.env_ready
           Sample.noon (Sample.post_json Sample.jo_json)).
  left. reflexivity.
Defined.

(** A multipart request that names no boundary. *)
Lemma multipart_bare_content_type :
  let event := post_multipart "multipart/form-data" (two_field_body "X" "Jo" "jo@x.com") in
  includes (content_type event) "boundary=" = false /\
  Sample.handler_multipart Sample.nodemailer_accepting Sample.env_ready Sample.noon event =
    (error_response Z Sample.num_toString Sample.env_ready (mkError NO_BOUNDARY_MESSAGE), []).
Proof.
  cbv zeta. split; [reflexivity|].
  eapply proj1.
  apply (multipart_without_boundary Z Sample.num_truthy Sample.num_toString
           Sample.isEmail Sample.isMobilePhone Sample.JSON_parse
           Sample.URLSearchParams_get Sample.nodemailer_accepting Sample.env_ready
           Sample.noon
           (post_multipart "multipart/form-data" (two_field_body "X" "Jo" "jo@x.com")));
    reflexivity.
Defined.

(** The first handler in debug mode with a mail package that fails. *)
Lemma first_handler_debug_run :
  let event := Sample.post_json Sample.jo_json in
  Event.httpMethod event <> "OPTIONS" /\
  let response :=
    (sample_handler_first nodemailer_missing Sample.env_ready_debug Sample.noon event).1 in
  Response.headers response = CORS_JSON_HEADERS /\
  In (Response.statusCode response) ALLOWED_STATUS /\
  (Response.statusCode response = 500 -> Response.body response = INTERNAL_ERROR_BODY).
Proof.
  cbv zeta. split; [discriminate|].
  apply (first_handler_hides_errors Z Sample.num_truthy Sample.num_toString
           Sample.isEmail Sample.isMobilePhone Sample.JSON_parse
           Sample.URLSearchParams_get nodemailer_missing Sample.env_ready_debug
           Sample.noon (Sample.post_json Sample.jo_json)).
  discriminate.
Defined.

(** With a complete environment the first handler and the later one agree. *)
Lemma first_handler_agrees_complete_env :
  credentials_present env_complete = true /\
  env_truthy env_complete "EMAIL_TO" = true /\
  debug_mode env_complete = false /\
  sample_handler_first Sample.nodemailer_accepting env_complete Sample.noon
    (Sample.post_json Sample.jo_json) =
  Sample.handler Sample.nodemailer_accepting env_complete Sample.noon
    (Sample.post_json Sample.jo_json).
Proof.
  split; [reflexivity|]. split; [reflexivity|]. split; [reflexivity|].
  apply (first_handler_agrees Z Sample.num_truthy Sample.num_toString
           Sample.isEmail Sample.isMobilePhone Sample.JSON_parse
           Sample.URLSearchParams_get Sample.nodemailer_accepting env_complete
           Sample.noon (Sample.post_json Sample.jo_json)); reflexivity.
Defined.

(** Without any environment the first handler still sends. *)
Lemma first_handler_empty_env :
  credentials_present ∅ = false /\
  (sample_handler_first Sample.nodemailer_accepting ∅ Sample.noon
     (Sample.post_json Sample.jo_json)).2 =
    [ mail_options FIRST_DEFAULT_RECIPIENT ∅ Sample.noon
        (email_body_text "Jo" "jo@x.com" "+15555550123" "Not specified") ] /\
  (Sample.handler Sample.nodemailer_accepting ∅ Sample.noon
     (Sample.post_json Sample.jo_json)).2 = [].
Proof.
  split; [reflexivity|].
  eapply (first_handler_sends_without_credentials Z Sample.num_truthy Sample.num_toString
            Sample.isEmail Sample.isMobilePhone Sample.JSON_parse
            Sample.URLSearchParams_get Sample.nodemailer_accepting ∅
            Sample.noon (Sample.post_json Sample.jo_json) _ Sample.accepting_transporter
            (email_body_text "Jo" "jo@x.com" "+15555550123" "Not specified"));
    reflexivity.
Defined.

(** A body with the four fields of the form. *)
Lemma four_parts_parsed :
  occurrences (multipart_body "X" four_parts) (boundary_marker "X") =
    all_delimiters "X" four_parts /\
  Multipart.parseMultipartFormData (multipart_body "X" four_parts) "X" =
    JObject (Num:=Z) [ ("name", JString "Jo"); ("email", JString "jo@x.com");
                       ("phone", JString "+15555550123") ].
Proof.
  split; [reflexivity|].
  eapply proj1.
  apply (parseMultipartFormData_any_fields (Num:=Z) "X" four_parts).
  - repeat constructor.
  - reflexivity.
Defined.

(** A field given three times. *)
Lemma repeated_parts_last_text :
  occurrences (multipart_body "X" repeated_parts) (boundary_marker "X") =
    all_delimiters "X" repeated_parts /\
  object_field (Num:=Z)
    (Multipart.parseMultipartFormData (multipart_body "X" repeated_parts) "X") "name" =
    JString "Joan".
Proof.
  split; [reflexivity|].
  apply (multipart_last_part_wins (Num:=Z) "X" repeated_parts "name").
  - repeat constructor.
  - reflexivity.
  - discriminate.
Defined.

(** A part for the field name without blank line. *)
Lemma headless_name_part :
  simple_name "name" = true /\
  Multipart.parse_part (Num:=Z) [] (headless_part "name") =
    [ ("name", JString (headless_value "name")) ].
Proof.
  split; [reflexivity|].
  apply (parse_part_without_blank_line (Num:=Z) [] "name"). reflexivity.
Defined.

(** Two subjects of the same noon. *)
Lemma subject_same_minute :
  valid_date Sample.noon /\ four_digit_year Sample.noon /\
  buildEmailSubject Sample.noon =
    buildEmailSubject {| getDate := getDate Sample.noon;
                         getMonth := getMonth Sample.noon;
                         getFullYear := getFullYear Sample.noon;
                         getHours := getHours Sample.noon;
                         getMinutes := getMinutes Sample.noon |} /\
  Sample.noon = {| getDate := getDate Sample.noon;
                   getMonth := getMonth Sample.noon;
                   getFullYear := getFullYear Sample.noon;
                   getHours := getHours Sample.noon;
                   getMinutes := getMinutes Sample.noon |}.
Proof.
  assert (Hv : valid_date Sample.noon)
    by (unfold valid_date; cbn; lia).
  assert (Hy : four_digit_year Sample.noon)
    by (unfold four_digit_year; cbn; lia).
  split; [exact Hv|]. split; [exact Hy|]. split; [reflexivity|].
  apply (buildEmailSubject_injective Sample.noon _ Hv Hy).
  - unfold valid_date; cbn; lia.
  - unfold four_digit_year; cbn; lia.
  - reflexivity.
Defined.
